(** * AthleteX: kinematic event detection and scoring

    A shallow embedding of the measurement logic of four of the
    repository's assessment scripts, and the properties of it that the
    specification states or that the code itself shows:

    - [Situps]     : the countdown, the repetition state machine with its
                     5-point validation and time management, the ratings
                     of the results screen and the keys of the
                     athlete-information screen ([situps_complete.py]);
    - [BroadJump]  : click calibration, the jump trial and the session
                     summary ([live_broad_jump_test.py]);
    - [ShuttleRun] : preflight, marker calibration, touch events, fouls,
                     scoring and the processing pipeline of the
                     shuttle-run analyzer ([shuttle_run_analyzer.py]);
    - [SitReach]   : the toe-tip baseline, the attempt loop and the
                     results of the sit-and-reach test
                     ([sit_reach_test.py]).

    Python floats are idealised: as rationals ([Q]) where the code only
    adds, subtracts, multiplies, divides and compares, and as real numbers
    ([R]) where it takes a square root.  The scale and the distances of
    [BroadJump], which the operator's clicks and typing can make infinite
    or [nan], are real numbers or one of these values.  Pose estimation,
    drawing, speech synthesis and the camera are outside the embedding;
    what they hand to the measurement logic is an input of the model.  The
    one effect of drawing that is modelled is the exception of the
    sit-and-reach READY screen when it draws a baseline that is not
    stored. *)

From Stdlib Require Import Ascii String Sorted.
From Stdlib Require Import ZArith QArith Qabs Reals Lra Lia Lqa List Bool.
Import ListNotations.

(** ** Python's comparisons, [min], [max] and [int] on rationals *)

Module PyNum.

Definition Qltb (x y : Q) : bool := negb (Qle_bool y x).

(** [min(a, b)] and [max(a, b)] return their first argument on a tie. *)
Definition py_min (a b : Q) : Q := if Qltb b a then b else a.
Definition py_max (a b : Q) : Q := if Qltb a b then b else a.

(** [int(x)] truncates towards zero. *)
Definition py_int (x : Q) : Z := Z.quot (Qnum x) (Zpos (Qden x)).

(** [sum(xs)] over a list of integers. *)
Definition py_sum (xs : list Z) : Z := fold_left Z.add xs 0%Z.

End PyNum.

(** ** The sit-up counter *)

Module Situps.
Import PyNum.
Open Scope Q_scope.

Inductive RepState : Type := DOWN | UP.

(** The two phases of [process_frame] in which the counter is live or done;
    the earlier phases (welcome, set-up, countdown) do not touch the
    repetition state. *)
Inductive Phase : Type := RUNNING | COMPLETE.

(** What a rejected repetition is rejected for: one constructor per
    rejection message of the validation block. *)
Inductive ViolationKind : Type :=
| HeldUpTooBriefly    (* "held UP only ..s < MIN_HOLD_TIME" *)
| TookTooLong         (* "took too long ..s > MAX_REP_TIME" *)
| InsufficientRange   (* "insufficient range" *)
| NotBentEnough       (* "min angle >= UP_THRESHOLD (not bent enough)" *)
| NotLyingFlat.       (* "max angle < DOWN_THRESHOLD (not lying flat)" *)

Inductive Milestone : Type := M15 | M10 | M5.

(** Lines the method prints, and prompts it hands to the voice coach. *)
Inductive Printed : Type :=
| UpTransitionRejected
| TransitionToUp
| RepRejected (v : ViolationKind)
| RepCounted (n : Z).

Inductive Prompt : Type :=
| StayInView
| HoldDownLonger
| Feedback (v : ViolationKind)
| SayCount (n : Z)
| SecondsLeft (m : Milestone)
| TimeUp (n : Z).

Inductive Output : Type :=
| Print (p : Printed)
| Speak (p : Prompt).

(** The thresholds set in [__init__]. *)
Definition UP_THRESHOLD : Q := 70.
Definition DOWN_THRESHOLD : Q := 160.
Definition MIN_RANGE : Q := 50.
Definition MIN_HOLD_TIME : Q := 3 # 10.
Definition MAX_REP_TIME : Q := 3.

Record SitupCounter : Type := mkSitupCounter {
  test_duration : Q;
  start_time : Q;
  state : RepState;
  rep_count : Z;
  current_angle : Q;
  min_angle_in_cycle : Q;
  max_angle_in_cycle : Q;
  state_entry_time : Q;
  down_hold_start : option Q;
  phase : Phase;
  last_body_warning : Q;
  last_validation_voice : Q;
  milestones_announced : list Milestone
}.

(** One camera frame as the method sees it: [landmarks] is [None] when no
    body was found, else the angle [calculate_angle] returns for
    shoulder-hip-knee; [now] is the clock reading [time.time()] (the
    method reads the clock more than once while it handles a frame; the
    model gives the frame one reading). *)
Record Frame : Type := mkFrame {
  landmarks : option Q;
  now : Q
}.

(** The counter as [__init__] leaves it at clock reading [t0], once the
    countdown has put it in the running phase at [t_go]. *)
Definition started (t0 t_go : Q) : SitupCounter :=
  {| test_duration := 30; start_time := t_go;
     state := DOWN; rep_count := 0%Z; current_angle := 0;
     min_angle_in_cycle := 180; max_angle_in_cycle := 0;
     state_entry_time := t0; down_hold_start := None;
     phase := RUNNING;
     last_body_warning := 0; last_validation_voice := 0;
     milestones_announced := [] |}.

(** Field updates. *)
Definition track_angle (a mn mx : Q) (s : SitupCounter) : SitupCounter :=
  mkSitupCounter (test_duration s) (start_time s) (state s) (rep_count s)
    a mn mx (state_entry_time s) (down_hold_start s) (phase s)
    (last_body_warning s) (last_validation_voice s) (milestones_announced s).

Definition set_down_hold_start (d : option Q) (s : SitupCounter) : SitupCounter :=
  mkSitupCounter (test_duration s) (start_time s) (state s) (rep_count s)
    (current_angle s) (min_angle_in_cycle s) (max_angle_in_cycle s)
    (state_entry_time s) d (phase s)
    (last_body_warning s) (last_validation_voice s) (milestones_announced s).

Definition enter_state (st : RepState) (t : Q) (s : SitupCounter) : SitupCounter :=
  mkSitupCounter (test_duration s) (start_time s) st (rep_count s)
    (current_angle s) (min_angle_in_cycle s) (max_angle_in_cycle s)
    t (down_hold_start s) (phase s)
    (last_body_warning s) (last_validation_voice s) (milestones_announced s).

Definition reset_cycle_extremes (s : SitupCounter) : SitupCounter :=
  mkSitupCounter (test_duration s) (start_time s) (state s) (rep_count s)
    (current_angle s) 180 0
    (state_entry_time s) (down_hold_start s) (phase s)
    (last_body_warning s) (last_validation_voice s) (milestones_announced s).

Definition set_rep_count (n : Z) (s : SitupCounter) : SitupCounter :=
  mkSitupCounter (test_duration s) (start_time s) (state s) n
    (current_angle s) (min_angle_in_cycle s) (max_angle_in_cycle s)
    (state_entry_time s) (down_hold_start s) (phase s)
    (last_body_warning s) (last_validation_voice s) (milestones_announced s).

Definition set_phase (p : Phase) (s : SitupCounter) : SitupCounter :=
  mkSitupCounter (test_duration s) (start_time s) (state s) (rep_count s)
    (current_angle s) (min_angle_in_cycle s) (max_angle_in_cycle s)
    (state_entry_time s) (down_hold_start s) p
    (last_body_warning s) (last_validation_voice s) (milestones_announced s).

Definition set_last_body_warning (t : Q) (s : SitupCounter) : SitupCounter :=
  mkSitupCounter (test_duration s) (start_time s) (state s) (rep_count s)
    (current_angle s) (min_angle_in_cycle s) (max_angle_in_cycle s)
    (state_entry_time s) (down_hold_start s) (phase s)
    t (last_validation_voice s) (milestones_announced s).

Definition set_last_validation_voice (t : Q) (s : SitupCounter) : SitupCounter :=
  mkSitupCounter (test_duration s) (start_time s) (state s) (rep_count s)
    (current_angle s) (min_angle_in_cycle s) (max_angle_in_cycle s)
    (state_entry_time s) (down_hold_start s) (phase s)
    (last_body_warning s) t (milestones_announced s).

Definition announce (m : Milestone) (s : SitupCounter) : SitupCounter :=
  mkSitupCounter (test_duration s) (start_time s) (state s) (rep_count s)
    (current_angle s) (min_angle_in_cycle s) (max_angle_in_cycle s)
    (state_entry_time s) (down_hold_start s) (phase s)
    (last_body_warning s) (last_validation_voice s)
    (m :: milestones_announced s).

Definition milestone_eqb (a b : Milestone) : bool :=
  match a, b with
  | M15, M15 | M10, M10 | M5, M5 => true
  | _, _ => false
  end.

Definition announced (m : Milestone) (s : SitupCounter) : bool :=
  existsb (milestone_eqb m) (milestones_announced s).

(** The spoken feedback of a validation: at most one every two seconds. *)
Definition validation_voice (p : Prompt) (current_time : Q) (s : SitupCounter)
  : SitupCounter * list Output :=
  if Qltb 2 (current_time - last_validation_voice s)
  then (set_last_validation_voice current_time s, [Speak p])
  else (s, []).

(** The repetition the state machine proposes when the angle comes back
    above [DOWN_THRESHOLD] in state UP: the time spent in UP (which the
    source also takes as the total repetition time) and the extremes of the
    angle over the cycle. *)
Record CandidateRep : Type := mkCandidateRep {
  time_in_up : Q;
  angle_range : Q;
  min_angle : Q;
  max_angle : Q
}.

(** Each check of the validation block on its own: [true] when it fails. *)
Definition check_fails (v : ViolationKind) (c : CandidateRep) : bool :=
  match v with
  | HeldUpTooBriefly => Qltb (time_in_up c) MIN_HOLD_TIME
  | TookTooLong => Qltb MAX_REP_TIME (time_in_up c)
  | InsufficientRange => Qltb (angle_range c) MIN_RANGE
  | NotBentEnough => Qle_bool UP_THRESHOLD (min_angle c)
  | NotLyingFlat => Qltb (max_angle c) DOWN_THRESHOLD
  end.

(** The validation block: the five checks in the order the method makes
    them; each [if] of the source ends in [return frame], so the first check
    that fails is the one that answers. *)
Definition validate_rep (c : CandidateRep) : option ViolationKind :=
  if check_fails HeldUpTooBriefly c then Some HeldUpTooBriefly
  else if check_fails TookTooLong c then Some TookTooLong
  else if check_fails InsufficientRange c then Some InsufficientRange
  else if check_fails NotBentEnough c then Some NotBentEnough
  else if check_fails NotLyingFlat c then Some NotLyingFlat
  else None.

(** [down_hold_time = current_time - self.state_entry_time if
    self.state_entry_time else 0]. *)
Definition down_hold_time (s : SitupCounter) (current_time : Q) : Q :=
  if Qeq_bool (state_entry_time s) 0 then 0
  else current_time - state_entry_time s.

(** A rejected repetition: print, speak (rate limited), then restart the cycle in
    DOWN. *)
Definition reject_rep (v : ViolationKind) (current_time : Q) (s : SitupCounter)
  : SitupCounter * list Output :=
  let (s1, said) := validation_voice (Feedback v) current_time s in
  (reset_cycle_extremes (enter_state DOWN current_time s1),
   Print (RepRejected v) :: said).

(** "Time management": milestone announcements and the end of the test. *)
Definition time_management (current_time : Q) (s : SitupCounter) (out : list Output)
  : SitupCounter * list Output :=
  let elapsed := current_time - start_time s in
  let remaining := py_max 0 (test_duration s - elapsed) in
  let (s1, out1) :=
    if Qle_bool remaining 15 && negb (announced M15 s)
    then (announce M15 s, out ++ [Speak (SecondsLeft M15)])
    else if Qle_bool remaining 10 && negb (announced M10 s)
    then (announce M10 s, out ++ [Speak (SecondsLeft M10)])
    else if Qle_bool remaining 5 && negb (announced M5 s)
    then (announce M5 s, out ++ [Speak (SecondsLeft M5)])
    else (s, out) in
  if Qle_bool remaining 0
  then (set_phase COMPLETE s1, out1 ++ [Speak (TimeUp (rep_count s1))])
  else (s1, out1).

(** [SitupCounter.show_running_test], without the drawing. *)
Definition show_running_test (s : SitupCounter) (f : Frame)
  : SitupCounter * list Output :=
  match landmarks f with
  | None =>
      let current_time := now f in
      if Qltb 3 (current_time - last_body_warning s)
      then (set_last_body_warning current_time s, [Speak StayInView])
      else (s, [])
  | Some raw_angle =>
      let angle := 180 - raw_angle + 40 in
      let mn := py_min (min_angle_in_cycle s) angle in
      let mx := py_max (max_angle_in_cycle s) angle in
      let s := track_angle angle mn mx s in
      let angle_range := mx - mn in
      let current_time := now f in
      let s :=
        if Qltb DOWN_THRESHOLD angle
        then match down_hold_start s with
             | None => set_down_hold_start (Some current_time) s
             | Some _ => s
             end
        else set_down_hold_start None s in
      match state s with
      | DOWN =>
          if Qltb angle UP_THRESHOLD then
            if Qltb (down_hold_time s current_time) MIN_HOLD_TIME then
              let (s1, said) := validation_voice HoldDownLonger current_time s in
              (s1, Print UpTransitionRejected :: said)
            else
              time_management current_time (enter_state UP current_time s)
                [Print TransitionToUp]
          else time_management current_time s []
      | UP =>
          if Qltb DOWN_THRESHOLD angle then
            let time_in_up := current_time - state_entry_time s in
            match validate_rep (mkCandidateRep time_in_up angle_range mn mx) with
            | Some v => reject_rep v current_time s
            | None =>
                let n := (rep_count s + 1)%Z in
                time_management current_time
                  (reset_cycle_extremes
                     (set_rep_count n (enter_state DOWN current_time s)))
                  [Print (RepCounted n); Speak (SayCount n)]
            end
          else time_management current_time s []
      end
  end.

(** [process_frame] on the two modelled phases: the running test handles
    the frame, the results screen leaves the counter alone. *)
Definition process_frame (s : SitupCounter) (f : Frame) : SitupCounter * list Output :=
  match phase s with
  | RUNNING => show_running_test s f
  | COMPLETE => (s, [])
  end.

(** The counter after a sequence of frames, with everything it put out. *)
Fixpoint run (s : SitupCounter) (fs : list Frame) : SitupCounter * list Output :=
  match fs with
  | [] => (s, [])
  | f :: fs' =>
      let (s1, out1) := process_frame s f in
      let (s2, out2) := run s1 fs' in
      (s2, out1 ++ out2)
  end.

(** The triggering predicates of the two transitions, on the transformed
    angle of a frame. *)
Definition transformed (raw_angle : Q) : Q := 180 - raw_angle + 40.

Definition up_trigger (f : Frame) : bool :=
  match landmarks f with
  | Some raw => Qltb (transformed raw) UP_THRESHOLD
  | None => false
  end.

Definition down_trigger (f : Frame) : bool :=
  match landmarks f with
  | Some raw => Qltb DOWN_THRESHOLD (transformed raw)
  | None => false
  end.

(** The violations the method printed. *)
Fixpoint reasons (out : list Output) : list ViolationKind :=
  match out with
  | [] => []
  | Print (RepRejected v) :: out' => v :: reasons out'
  | _ :: out' => reasons out'
  end.

(** The candidate a frame with angle [raw_angle] at [current_time] puts
    before the validation block. *)
Definition candidate (s : SitupCounter) (raw_angle current_time : Q) : CandidateRep :=
  let angle := transformed raw_angle in
  let mn := py_min (min_angle_in_cycle s) angle in
  let mx := py_max (max_angle_in_cycle s) angle in
  mkCandidateRep (current_time - state_entry_time s) (mx - mn) mn mx.

Definition all_checks : list ViolationKind :=
  [HeldUpTooBriefly; TookTooLong; InsufficientRange; NotBentEnough; NotLyingFlat].

(** Every check that fails on a candidate. *)
Definition failing_checks (c : CandidateRep) : list ViolationKind :=
  filter (fun v => check_fails v c) all_checks.

(** The repetitions the method counted. *)
Fixpoint counted (out : list Output) : list Z :=
  match out with
  | [] => []
  | Print (RepCounted n) :: out' => n :: counted out'
  | _ :: out' => counted out'
  end.

(** In state UP the cycle has seen an angle below [UP_THRESHOLD]. *)
Definition bent_in_up (s : SitupCounter) : Prop :=
  state s = UP -> min_angle_in_cycle s < UP_THRESHOLD.

(** *** The countdown *)

(** The attributes [show_countdown] reads and writes; [go_time] is the
    [start_time] it sets when it puts the counter in the running phase. *)
Record Countdown : Type := mkCountdown {
  countdown_value : Z;
  last_countdown_time : Q;
  go_time : option Q
}.

Inductive CountdownPrompt : Type :=
| SayNumber (n : Z)
| SayGo.

(** The counter as [process_frame] leaves it when the position has been
    held and the countdown begins, at clock reading [t]. *)
Definition countdown_entered (t : Q) : Countdown := mkCountdown 3 t None.

(** [SitupCounter.show_countdown], without the drawing; in the running
    phase it is no longer called. *)
Definition show_countdown (c : Countdown) (current_time : Q)
  : Countdown * list CountdownPrompt :=
  match go_time c with
  | Some _ => (c, [])
  | None =>
      if Qle_bool 1 (current_time - last_countdown_time c) then
        if (0 <? countdown_value c)%Z then
          (mkCountdown (countdown_value c - 1) current_time None,
           [SayNumber (countdown_value c)])
        else
          (mkCountdown (countdown_value c) (last_countdown_time c)
             (Some current_time),
           [SayGo])
      else (c, [])
  end.

(** The countdown over the clock readings of a sequence of frames. *)
Fixpoint run_countdown (c : Countdown) (times : list Q)
  : Countdown * list CountdownPrompt :=
  match times with
  | [] => (c, [])
  | t :: times' =>
      let (c1, out1) := show_countdown c t in
      let (c2, out2) := run_countdown c1 times' in
      (c2, out1 ++ out2)
  end.

(** What is left to say with [v] numbers to go. *)
Fixpoint count_down_from (v : nat) : list CountdownPrompt :=
  match v with
  | O => [SayGo]
  | S v' => SayNumber (Z.of_nat v) :: count_down_from v'
  end.

(** *** The pace of a test *)

(** The clock readings of the frames start at [t] or later and never go
    back. *)
Fixpoint clock_from (t : Q) (fs : list Frame) : Prop :=
  match fs with
  | [] => True
  | f :: fs' => t <= now f /\ clock_from (now f) fs'
  end.

(** What the hold times make of a counter whose test lasts 30 s, at clock
    reading [t]: each counted repetition has taken 0.6 s of the test, and a
    running counter in UP entered it before the end of the test. *)
Definition paced (t : Q) (s : SitupCounter) : Prop :=
  test_duration s = 30 /\ start_time s <= t
  /\ (0 <= rep_count s <= 50)%Z
  /\ match state s with
     | DOWN =>
         rep_count s = 0%Z
         \/ (6 # 10) * inject_Z (rep_count s)
            <= state_entry_time s - start_time s + (3 # 10)
     | UP =>
         state_entry_time s <= t
         /\ (phase s = RUNNING ->
             (6 # 10) * inject_Z (rep_count s)
             <= state_entry_time s - start_time s
             /\ state_entry_time s - start_time s < 30)
     end.

(** *** Rating the count *)

Inductive Rating : Type :=
| EXCELLENT | GOOD | AVERAGE | BELOW_AVERAGE | NEEDS_IMPROVEMENT.

Record Standard : Type := mkStandard {
  excellent : Z;
  good : Z;
  average : Z;
  below : Z
}.

Definition male_standards : list (string * Standard) :=
  [ ("10-15 years"%string, mkStandard 50 40 30 20);
    ("16-25 years"%string, mkStandard 60 50 40 30);
    ("26-35 years"%string, mkStandard 55 45 35 25);
    ("36-45 years"%string, mkStandard 50 40 30 20);
    ("46-55 years"%string, mkStandard 45 35 25 15);
    ("56+ years"%string, mkStandard 40 30 20 10) ].

Definition female_standards : list (string * Standard) :=
  [ ("10-15 years"%string, mkStandard 45 35 25 15);
    ("16-25 years"%string, mkStandard 55 45 35 25);
    ("26-35 years"%string, mkStandard 50 40 30 20);
    ("36-45 years"%string, mkStandard 45 35 25 15);
    ("46-55 years"%string, mkStandard 40 30 20 10);
    ("56+ years"%string, mkStandard 35 25 15 5) ].

(** [d.get(k)] on a dict written as its list of items. *)
Fixpoint dict_get (k : string) (d : list (string * Standard)) : option Standard :=
  match d with
  | [] => None
  | (k', v) :: d' => if String.eqb k' k then Some v else dict_get k d'
  end.

Definition rate (reps : Z) (thresholds : Standard) : Rating :=
  if (excellent thresholds <=? reps)%Z then EXCELLENT
  else if (good thresholds <=? reps)%Z then GOOD
  else if (average thresholds <=? reps)%Z then AVERAGE
  else if (below thresholds <=? reps)%Z then BELOW_AVERAGE
  else NEEDS_IMPROVEMENT.

(** [SitupCounter.get_age_based_rating], the rating word of its result;
    [None] stands for the [KeyError] of [standards["16-25 years"]]. *)
Definition get_age_based_rating (reps : Z) (age_group gender : string)
  : option Rating :=
  let standards :=
    if String.eqb gender "Male" then male_standards else female_standards in
  match dict_get "16-25 years" standards with
  | None => None
  | Some young_adult =>
      let thresholds :=
        match dict_get age_group standards with
        | Some th => th
        | None => young_adult
        end in
      Some (rate reps thresholds)
  end.

(** The rating [show_results] puts on the results screen: the age-based one
    when both [age] and [gender] are set (and not empty), else the default
    one. *)
Definition truthy (x : option string) : bool :=
  match x with
  | Some v => negb (String.eqb v "")
  | None => false
  end.

Definition default_rating (reps : Z) : Rating :=
  if (50 <=? reps)%Z then EXCELLENT
  else if (40 <=? reps)%Z then GOOD
  else if (30 <=? reps)%Z then AVERAGE
  else BELOW_AVERAGE.

Definition show_results_rating (reps : Z) (age gender : option string)
  : option Rating :=
  match age, gender with
  | Some a, Some g =>
      if truthy age && truthy gender then get_age_based_rating reps a g
      else Some (default_rating reps)
  | _, _ => Some (default_rating reps)
  end.

(** Better ratings have higher ranks. *)
Definition rating_rank (r : Rating) : Z :=
  match r with
  | EXCELLENT => 4
  | GOOD => 3
  | AVERAGE => 2
  | BELOW_AVERAGE => 1
  | NEEDS_IMPROVEMENT => 0
  end.

(** *** The keys of the athlete-information screen *)

Definition ord (c : ascii) : Z := Z.of_nat (nat_of_ascii c).

Inductive KeyAction : Type :=
| Quit
| Restart
| Skip
| Select (age gender : string)
| NoAction.

(** What [main] does with a key read while the counter is in the phase
    USER_INFO. *)
Definition user_info_key (key : Z) : KeyAction :=
  if (key =? ord "q")%Z then Quit
  else if (key =? ord "r")%Z then Restart
  else if (key =? ord " ")%Z then Skip
  else if (key =? ord "1")%Z then Select "10-15 years" "Male"
  else if (key =? ord "2")%Z then Select "16-25 years" "Male"
  else if (key =? ord "3")%Z then Select "26-35 years" "Male"
  else if (key =? ord "4")%Z then Select "36-45 years" "Male"
  else if (key =? ord "5")%Z then Select "46-55 years" "Male"
  else if (key =? ord "6")%Z then Select "56+ years" "Male"
  else if (key =? ord "7")%Z then Select "10-15 years" "Female"
  else if (key =? ord "8")%Z then Select "16-25 years" "Female"
  else if (key =? ord "9")%Z then Select "26-35 years" "Female"
  else if (key =? ord "0")%Z then Select "36-45 years" "Female"
  else if (key =? ord "q")%Z || (key =? ord "Q")%Z
       then Select "46-55 years" "Female"
  else if (key =? ord "w")%Z || (key =? ord "W")%Z
       then Select "56+ years" "Female"
  else NoAction.

(** The milestones the method spoke, in the order it spoke them. *)
Fixpoint milestones_said (out : list Output) : list Milestone :=
  match out with
  | [] => []
  | Speak (SecondsLeft m) :: out' => m :: milestones_said out'
  | _ :: out' => milestones_said out'
  end.

Definition milestone_order : list Milestone := [M15; M10; M5].

(** The first [k] milestones have been announced, and no other. *)
Definition announced_up_to (k : nat) (s : SitupCounter) : Prop :=
  (k <= 3)%nat /\ milestones_announced s = rev (firstn k milestone_order).

(** What one frame can do to a running counter: nothing to the state
    machine, the transition to UP, a rejected repetition or a counted one. *)
Inductive Step (s : SitupCounter) (f : Frame) (s' : SitupCounter)
  (out : list Output) : Prop :=
| Stay :
    state s' = state s -> rep_count s' = rep_count s ->
    state_entry_time s' = state_entry_time s -> counted out = [] ->
    Step s f s' out
| GoUp :
    phase s = RUNNING ->
    state s = DOWN -> state s' = UP -> rep_count s' = rep_count s ->
    state_entry_time s' = now f ->
    MIN_HOLD_TIME <= down_hold_time s (now f) ->
    (phase s' = RUNNING -> now f - start_time s < test_duration s) ->
    counted out = [] ->
    Step s f s' out
| Rejected :
    phase s = RUNNING ->
    state s = UP -> state s' = DOWN -> rep_count s' = rep_count s ->
    state_entry_time s' = now f -> phase s' = RUNNING ->
    counted out = [] ->
    Step s f s' out
| Counted :
    phase s = RUNNING ->
    state s = UP -> state s' = DOWN ->
    rep_count s' = (rep_count s + 1)%Z ->
    state_entry_time s' = now f ->
    MIN_HOLD_TIME <= now f - state_entry_time s ->
    now f - state_entry_time s <= MAX_REP_TIME ->
    counted out = [(rep_count s + 1)%Z] ->
    Step s f s' out.

(** *** Sample inputs *)

(** A counter in UP since clock reading 10 whose cycle has only seen 150
    degrees. *)
Definition shallow_rep : SitupCounter :=
  {| test_duration := 30; start_time := 5;
     state := UP; rep_count := 2%Z; current_angle := 150;
     min_angle_in_cycle := 150; max_angle_in_cycle := 150;
     state_entry_time := 10; down_hold_start := None;
     phase := RUNNING;
     last_body_warning := 0; last_validation_voice := 0;
     milestones_announced := [] |}.

(** [n] repetitions at the quickest pace the hold times allow: up at
    [t_go + 0.6 k], down again 0.3 s later. *)
Definition brisk_reps (t_go : Q) (n : nat) : list Frame :=
  flat_map
    (fun k =>
       let t := t_go + (6 # 10) * inject_Z (Z.of_nat k) in
       [mkFrame (Some 160) t; mkFrame (Some 50) (t + (3 # 10))])
    (seq 0 n).

End Situps.

(** ** The broad-jump test *)

Module BroadJump.
Open Scope R_scope.

Definition MAX_TRIALS : nat := 3.
Definition STATIC_FRAMES_REQUIRED : Z := 5.
Definition STATIC_TOLERANCE_PX : R := 10.
Definition TAKEOFF_VELOCITY : R := 20.
Definition LANDING_VELOCITY : R := 8.
Definition LANDING_STABLE_FRAMES : Z := 4.

(** A clicked pixel. *)
Definition Pixel : Type := (Z * Z)%type.

(** The ankle keypoints of the first detected person, [(x, y)] each. *)
Definition Ankles : Type := ((R * R) * (R * R))%type.

(** [get_ankle_position]: the forward-most ankle's x and the mean y, when
    both ankles were found (all four coordinates positive). *)
Definition get_ankle_position (kp : option Ankles) : option (R * R) :=
  match kp with
  | None => None
  | Some ((lx, ly), (rx, ry)) =>
      if Rlt_dec 0 lx then if Rlt_dec 0 ly then
      if Rlt_dec 0 rx then if Rlt_dec 0 ry then
        Some (Rmax lx rx, (ly + ry) / 2)
      else None else None else None else None
  end.

(** [smooth_position(current, previous, alpha=0.3)]. *)
Definition smooth_position (current : R) (previous : option R) (alpha : R) : R :=
  match previous with
  | None => current
  | Some p => alpha * current + (1 - alpha) * p
  end.

Definition default_alpha : R := 3 / 10.

(** *** Floating-point values *)

(** A float as Python and NumPy compute with it: a real number, an
    infinity, or [nan].  The scale and the distances are such values; the
    only zero this program computes is the positive one. *)
Inductive Float : Type :=
| Finite (r : R)
| PosInf
| NegInf
| NaN.

Coercion Finite : R >-> Float.

(** [a < b]: false whenever an operand is [nan]. *)
Definition flt (a b : Float) : bool :=
  match a, b with
  | Finite x, Finite y => if Rlt_dec x y then true else false
  | Finite _, PosInf | NegInf, Finite _ | NegInf, PosInf => true
  | _, _ => false
  end.

(** [a <= b]: false whenever an operand is [nan]. *)
Definition fle (a b : Float) : bool :=
  match a, b with
  | Finite x, Finite y => if Rle_dec x y then true else false
  | Finite _, PosInf | NegInf, Finite _ | NegInf, PosInf => true
  | PosInf, PosInf | NegInf, NegInf => true
  | _, _ => false
  end.

(** [a + b]. *)
Definition fadd (a b : Float) : Float :=
  match a, b with
  | NaN, _ | _, NaN => NaN
  | Finite x, Finite y => Finite (x + y)
  | PosInf, NegInf | NegInf, PosInf => NaN
  | PosInf, _ | _, PosInf => PosInf
  | NegInf, _ | _, NegInf => NegInf
  end.

(** [a / b] with a NumPy operand: division by zero warns and gives an
    infinity, or [nan] for [0 / 0]; nothing is raised. *)
Definition fdiv (a b : Float) : Float :=
  match a, b with
  | NaN, _ | _, NaN => NaN
  | Finite x, Finite y =>
      if Req_dec_T y 0 then
        if Rlt_dec 0 x then PosInf
        else if Rlt_dec x 0 then NegInf
        else NaN
      else Finite (x / y)
  | Finite _, PosInf | Finite _, NegInf => Finite 0
  | PosInf, Finite y => if Rle_dec 0 y then PosInf else NegInf
  | NegInf, Finite y => if Rle_dec 0 y then NegInf else PosInf
  | _, _ => NaN
  end.

(** *** Calibration *)

(** What the operator does during [calibrate_system]: whether the camera
    delivered the first frame, the two pixels clicked on the reference
    object ([None] when the operator quit with [q] before the second
    click), and the number typed as the real distance ([None] when
    [float(input())] raised; [float] also reads [inf] and [nan]). *)
Record CalibrationInput : Type := mkCalibrationInput {
  first_frame_read : bool;
  clicks : option (Pixel * Pixel);
  entered : option Float
}.

Definition px_distance_between (p0 p1 : Pixel) : R :=
  sqrt (IZR ((fst p1 - fst p0) ^ 2 + (snd p1 - snd p0) ^ 2)).

(** [calibrate_system]: [(px_per_meter, reference_x)], or [None] for the
    source's [(None, None)]. *)
Definition calibrate_system (c : CalibrationInput) : option (Float * Z) :=
  if first_frame_read c then
    match clicks c with
    | None => None
    | Some (p0, p1) =>
        let px_distance := px_distance_between p0 p1 in
        match entered c with
        | None => None
        | Some real_distance =>
            if fle real_distance 0 then None
            else
              let px_per_meter := fdiv px_distance real_distance in
              Some (px_per_meter, fst p0)
        end
    end
  else None.

(** *** One trial *)

Record CamFrame : Type := mkCamFrame {
  ret : bool;                 (* [cap.read()] delivered a frame *)
  keypoints : option Ankles;  (* pose detection on it *)
  quit_key : bool             (* [q] was down at this frame's [waitKey] *)
}.

Record TrialInput : Type := mkTrialInput {
  start_pressed : bool;          (* SPACE ([true]) or Q ends the wait *)
  phase1_frames : list CamFrame; (* frames read before the 15 s time-out *)
  phase3_frames : list CamFrame  (* frames read before the 10 s time-out *)
}.

Inductive StartDetection : Type :=
| StartAt (x : R)
| StartQuit
| StartTimeout.

(** Phase 1: the start position is the ankle x once it has been static for
    [STATIC_FRAMES_REQUIRED] frames. *)
Fixpoint detect_start (fs : list CamFrame) (static_count : Z) (prev_x : option R)
  : StartDetection :=
  match fs with
  | [] => StartTimeout
  | f :: fs' =>
      if ret f then
        match get_ankle_position (keypoints f) with
        | Some (x, _) =>
            let static_count :=
              match prev_x with
              | Some p =>
                  if Rlt_dec (Rabs (x - p)) STATIC_TOLERANCE_PX
                  then (static_count + 1)%Z
                  else Z.max 0 (static_count - 1)
              | None => static_count
              end in
            if (STATIC_FRAMES_REQUIRED <=? static_count)%Z then
              if quit_key f then StartQuit else StartAt x
            else if quit_key f then StartQuit
            else detect_start fs' static_count (Some x)
        | None =>
            if quit_key f then StartQuit
            else detect_start fs' 0%Z prev_x
        end
      else detect_start fs' static_count prev_x
  end.

(** The variables of the tracking loop of phase 3. *)
Record Tracking : Type := mkTracking {
  took_off : bool;
  takeoff_x : option R;
  landing_x : option R;
  prev_smooth : option R;
  stable : Z;
  max_x : R
}.

Definition tracking_start (start_x : R) : Tracking :=
  mkTracking false None None None 0%Z start_x.

Inductive LoopControl : Type := Next | Break.

(** One pass of the tracking loop of phase 3. *)
Definition track_frame (f : CamFrame) (t : Tracking) : Tracking * LoopControl :=
  if ret f then
    match get_ankle_position (keypoints f) with
    | None => (t, Next)
    | Some (x, _) =>
        let x_smooth := smooth_position x (prev_smooth t) default_alpha in
        let max_x' := if Rlt_dec (max_x t) x_smooth then x_smooth else max_x t in
        match prev_smooth t with
        | None =>
            (mkTracking (took_off t) (takeoff_x t) (landing_x t)
               (Some x_smooth) (stable t) max_x', Next)
        | Some p =>
            let velocity := x_smooth - p in
            if took_off t then
              let stable' :=
                if Rlt_dec (Rabs velocity) LANDING_VELOCITY
                then (stable t + 1)%Z else 0%Z in
              if (LANDING_STABLE_FRAMES <=? stable')%Z then
                (mkTracking true (takeoff_x t) (Some max_x')
                   (prev_smooth t) stable' max_x', Break)
              else
                (mkTracking true (takeoff_x t) (landing_x t)
                   (Some x_smooth) stable' max_x', Next)
            else if Rlt_dec TAKEOFF_VELOCITY (Rabs velocity) then
              (mkTracking true (Some p) (landing_x t)
                 (Some x_smooth) (stable t) max_x', Next)
            else
              (mkTracking false (takeoff_x t) (landing_x t)
                 (Some x_smooth) (stable t) max_x', Next)
        end
    end
  else (t, Break).

(** Phase 3: the loop over the frames read before the time-out; it stops
    on a failed read and when the landing is found. *)
Fixpoint track_jump (fs : list CamFrame) (t : Tracking) : Tracking :=
  match fs with
  | [] => t
  | f :: fs' =>
      match track_frame f t with
      | (t', Next) => track_jump fs' t'
      | (t', Break) => t'
      end
  end.

(** What the trial has in hand when it reaches "CALCULATE RESULT":
    [(landing_x, start_x)]; [None] when it returned before (quit, no start
    position, jump not detected). *)
Definition tracked (ti : TrialInput) : option (R * R) :=
  if start_pressed ti then
    match detect_start (phase1_frames ti) 0%Z None with
    | StartAt start_x =>
        let t := track_jump (phase3_frames ti) (tracking_start start_x) in
        if took_off t then
          match landing_x t with
          | Some l => Some (l, start_x)
          | None => None
          end
        else None
    | StartQuit | StartTimeout => None
    end
  else None.

(** The distance the trial computes: pixels from the start line to the
    landing, over the calibration scale. *)
Definition distance_m (px_per_meter : Float) (reference_x : option Z)
    (landing_x start_x : R) : Float :=
  let start_pos :=
    match reference_x with
    | Some r => IZR r
    | None => start_x
    end in
  let px_distance := Rabs (landing_x - start_pos) in
  fdiv px_distance px_per_meter.

(** [run_trial]: the measured distance, or [None]. *)
Definition run_trial (px_per_meter : Float) (reference_x : option Z)
    (ti : TrialInput) : option Float :=
  match tracked ti with
  | None => None
  | Some (l, start_x) =>
      let d := distance_m px_per_meter reference_x l start_x in
      if flt d (2 / 10) || flt 5 d then None
      else Some d
  end.

(** The distances the validation of [run_trial] is there to let through:
    the numbers from 0.2 to 5.0. *)
Definition plausible (d : Float) : Prop :=
  match d with
  | Finite r => 2 / 10 <= r <= 5
  | _ => False
  end.

(** *** The session *)

(** [main]'s trial loop: the distances of the trials that returned one, in
    trial order.  [session k] is what camera and operator supply in trial
    [k]. *)
Definition trial_results (px_per_meter : Float) (reference_x : option Z)
    (session : nat -> TrialInput) : list Float :=
  flat_map
    (fun trial =>
       match run_trial px_per_meter reference_x (session trial) with
       | Some distance => [distance]
       | None => []
       end)
    (seq 1 MAX_TRIALS).

(** What [main] reports at the end. *)
Inductive FinalReport : Type :=
| NoValidJumps
| Summary (valid : nat) (individual : list Float) (best avg : Float).

(** [max]: the first item stays until a later one compares greater. *)
Definition py_max_list (xs : list Float) (x0 : Float) : Float :=
  fold_left (fun best x => if flt best x then x else best) xs x0.

(** [sum]: from 0, left to right. *)
Definition py_sum_list (xs : list Float) : Float := fold_left fadd xs 0.

Definition final_results (results : list Float) : FinalReport :=
  match results with
  | [] => NoValidJumps
  | r :: rs =>
      Summary (length results) results
        (py_max_list rs r)
        (fdiv (py_sum_list results) (INR (length results)))
  end.

Inductive MainOutcome : Type :=
| CalibrationCancelled
| TestComplete (report : FinalReport).

(** [main], after the camera has opened. *)
Definition main (c : CalibrationInput) (session : nat -> TrialInput) : MainOutcome :=
  match calibrate_system c with
  | None => CalibrationCancelled
  | Some (px_per_meter, reference_x) =>
      TestComplete
        (final_results (trial_results px_per_meter (Some reference_x) session))
  end.

(** *** Invariants of a trial *)

(** The frames of a phase in which the camera delivered an image and both
    ankles were found. *)
Fixpoint frames_with_ankles (fs : list CamFrame) : nat :=
  match fs with
  | [] => 0
  | f :: fs' =>
      if ret f then
        match get_ankle_position (keypoints f) with
        | Some _ => S (frames_with_ankles fs')
        | None => frames_with_ankles fs'
        end
      else frames_with_ankles fs'
  end.

(** The tracking loop never lets the furthest point, nor the landing, fall
    behind the start position. *)
Definition ahead_of (start_x : R) (t : Tracking) : Prop :=
  start_x <= max_x t
  /\ forall l, landing_x t = Some l -> start_x <= l.

(** The tracking loop of an athlete who stays at or behind the start
    position. *)
Definition held_at (start_x : R) (t : Tracking) : Prop :=
  max_x t = start_x
  /\ (forall p, prev_smooth t = Some p -> p <= start_x)
  /\ forall l, landing_x t = Some l -> l = start_x.

(** *** Sample inputs *)

(** A calibration in which the camera works, the operator clicks [p0] and
    [p1] and types something [float] reads as [d]. *)
Definition typed (p0 p1 : Pixel) (d : Float) : CalibrationInput :=
  mkCalibrationInput true (Some (p0, p1)) (Some d).

(** The same with the number [d] typed. *)
Definition clicked (p0 p1 : Pixel) (d : R) : CalibrationInput :=
  typed p0 p1 d.

(** A frame with both ankles in view, the forward one at [x]. *)
Definition ankles_at (x : R) : CamFrame :=
  mkCamFrame true (Some ((x, 400), (x - 20, 400))) false.

(** A trial: six frames standing at x = 100, then a jump whose smoothed
    position runs 100, 130, 131, 132, 133, 134. *)
Definition short_jump : TrialInput :=
  mkTrialInput true
    [ankles_at 100; ankles_at 100; ankles_at 100;
     ankles_at 100; ankles_at 100; ankles_at 100]
    [ankles_at 100; ankles_at 200; ankles_at (400 / 3);
     ankles_at (403 / 3); ankles_at (406 / 3); ankles_at (409 / 3)].

(** A trial the operator leaves with [q]. *)
Definition abandoned : TrialInput := mkTrialInput false [] [].

(** A trial in which the athlete moves towards smaller x: six frames
    standing at x = 600, then a jump whose smoothed position runs 600,
    570, 569, 568, 567, 566. *)
Definition leftward_jump : TrialInput :=
  mkTrialInput true
    [ankles_at 600; ankles_at 600; ankles_at 600;
     ankles_at 600; ankles_at 600; ankles_at 600]
    [ankles_at 600; ankles_at 500; ankles_at (1700 / 3);
     ankles_at (1697 / 3); ankles_at (1694 / 3); ankles_at (1691 / 3)].

End BroadJump.

(** ** The shuttle-run analyzer *)

Module ShuttleRun.
Open Scope R_scope.

Record CalibrationResult : Type := mkCalibrationResult {
  px_to_m : R;
  confidence : R;
  line_a_px : R * R;
  line_b_px : R * R;
  distance_verified_m : R
}.

Definition default_known_distance_m : R := 10.

(** [CalibrationEngine.calibrate_from_markers]; the frames are not looked
    at (the marker positions are fixed placeholders in the source). *)
Definition calibrate_from_markers {FrameT : Type} (frames : list FrameT)
    (known_distance_m : R) : CalibrationResult :=
  let line_a_px := (100, 500) in
  let line_b_px := (900, 500) in
  let pixel_distance :=
    sqrt ((fst line_b_px - fst line_a_px) ^ 2
          + (snd line_b_px - snd line_a_px) ^ 2) in
  let px_to_m :=
    if Rlt_dec 0 pixel_distance then known_distance_m / pixel_distance
    else 1 / 100 in
  let confidence := 9 / 10 in
  mkCalibrationResult px_to_m confidence line_a_px line_b_px known_distance_m.

(** *** Settings *)

Definition min_fps : Z := 25.
Definition min_resolution_width : Z := 1280.
Definition min_resolution_height : Z := 720.
Definition touch_distance_threshold_m : R := 3 / 10.

(** *** The video and the preflight checks *)

Record PoseKeypoints : Type := mkPoseKeypoints {
  left_ankle : R * R * R;
  right_ankle : R * R * R;
  left_foot : R * R * R;
  right_foot : R * R * R;
  left_hip : R * R * R;
  right_hip : R * R * R
}.

(** A video file as the pipeline reads it: whether [cv2.VideoCapture] opens
    it, the integers [int(cap.get(...))] gives for its frame rate, width and
    height, and for each frame the key points MediaPipe finds in it
    ([None] when it finds no pose). *)
Record Video : Type := mkVideo {
  is_opened : bool;
  frame_rate : Z;
  frame_width : Z;
  frame_height : Z;
  pose_landmarks : list (option PoseKeypoints)
}.

Inductive PreflightComment : Type :=
| CannotOpenVideo
| FrameRateBelowMinimum (fps : Z)
| ResolutionBelowMinimum (width height : Z).

Record PreflightResult : Type := mkPreflightResult {
  valid : bool;
  lines_visible : bool;
  camera_stable : bool;
  athlete_in_frame : bool;
  fps : Z;
  resolution : Z * Z;
  comments : list PreflightComment
}.

(** [UploadService.run_preflight_checks]. *)
Definition run_preflight_checks (video : Video) : PreflightResult :=
  if negb (is_opened video) then
    mkPreflightResult false false false false 0 (0, 0)%Z [CannotOpenVideo]
  else
    let fps := frame_rate video in
    let width := frame_width video in
    let height := frame_height video in
    let '(comments, valid) :=
      if (fps <? min_fps)%Z
      then ([FrameRateBelowMinimum fps], false)
      else ([], true) in
    let '(comments, valid) :=
      if (width <? min_resolution_width)%Z
         || (height <? min_resolution_height)%Z
      then (comments ++ [ResolutionBelowMinimum width height], false)
      else (comments, valid) in
    mkPreflightResult valid true true true fps (width, height) comments.

(** *** Poses and touch events *)

(** [VisionPipeline.extract_poses]: the key points of the frames in which
    a pose was found, in order. *)
Definition extract_poses (video : Video) : list PoseKeypoints :=
  if is_opened video
  then flat_map (fun found => match found with
                              | Some pose => [pose]
                              | None => []
                              end)
         (pose_landmarks video)
  else [].

(** [VisionPipeline.compute_foot_center]. *)
Definition compute_foot_center (pose : PoseKeypoints) : R * R :=
  let '(left_x, left_y, _) := left_foot pose in
  let '(right_x, right_y, _) := right_foot pose in
  ((left_x + right_x) / 2, (left_y + right_y) / 2).

Inductive Line : Type := A | B.

Record TouchEvent : Type := mkTouchEvent {
  line : Line;
  time_s : R;
  frame_idx : nat;
  distance_to_line_m : R;
  touch_confidence : R
}.

(** The distance, in metres, from the foot centre of a pose to a line
    point given in pixels. *)
Definition distance_to (calibration : CalibrationResult) (line_px : R * R)
    (pose : PoseKeypoints) : R :=
  let foot_center := compute_foot_center pose in
  let foot_center_m :=
    (fst foot_center * px_to_m calibration,
     snd foot_center * px_to_m calibration) in
  let line_m :=
    (fst line_px * px_to_m calibration, snd line_px * px_to_m calibration) in
  sqrt ((fst foot_center_m - fst line_m) ^ 2
        + (snd foot_center_m - snd line_m) ^ 2).

(** The body of the loop of [detect_touches] from index [idx] on. *)
Fixpoint touches_from (idx : nat) (poses : list PoseKeypoints)
    (calibration : CalibrationResult) (fps : Z) : list TouchEvent :=
  match poses with
  | [] => []
  | pose :: rest =>
      let time_s := INR idx / IZR fps in
      let dist_a := distance_to calibration (line_a_px calibration) pose in
      let dist_b := distance_to calibration (line_b_px calibration) pose in
      let here :=
        if Rle_dec dist_a touch_distance_threshold_m
        then [mkTouchEvent A time_s idx dist_a (9 / 10)]
        else if Rle_dec dist_b touch_distance_threshold_m
        then [mkTouchEvent B time_s idx dist_b (9 / 10)]
        else [] in
      here ++ touches_from (S idx) rest calibration fps
  end.

(** [EventDetector.detect_touches]; [None] is the [ZeroDivisionError] of
    [idx / fps] on the first pose when [fps] is 0. *)
Definition detect_touches (poses : list PoseKeypoints)
    (calibration : CalibrationResult) (fps : Z) : option (list TouchEvent) :=
  match poses with
  | [] => Some []
  | _ :: _ =>
      if (fps =? 0)%Z then None
      else Some (touches_from 0 poses calibration fps)
  end.

(** *** Fouls, scoring and suggestions *)

Record Foul : Type := mkFoul {
  foul_type : string;
  foul_time_s : R;
  foul_frame_idx : nat;
  foul_confidence : R;
  (* the number in "Only .. touches detected, expected 4" *)
  touches_in_explanation : nat
}.

(** [RuleValidator.detect_fouls]. *)
Definition detect_fouls (touches : list TouchEvent) (poses : list PoseKeypoints)
  : list Foul :=
  if (length touches <? 4)%nat
  then [mkFoul "missing_touches" 0 0 1 (length touches)]
  else [].

(** [RuleValidator.detect_cheating], without the reasons (always empty). *)
Definition detect_cheating (video : Video) : bool := false.

Definition AGE_GROUPS : list (Z * Z * string) :=
  [ (4, 5, "U6"); (6, 7, "U8"); (8, 9, "U10"); (10, 11, "U12");
    (12, 13, "U14"); (14, 15, "U16"); (16, 17, "U18"); (18, 19, "U20");
    (20, 34, "Senior"); (35, 44, "Masters-35-44");
    (45, 54, "Masters-45-54"); (55, 120, "Masters-55-plus") ]%Z%string.

(** [ScoringEngine.get_age_group]: the first bracket that holds the age. *)
Fixpoint first_bracket (age : Z) (groups : list (Z * Z * string))
  : option string :=
  match groups with
  | [] => None
  | (min_age, max_age, group) :: groups' =>
      if ((min_age <=? age) && (age <=? max_age))%Z then Some group
      else first_bracket age groups'
  end.

Definition get_age_group (age : Z) : string :=
  match first_bracket age AGE_GROUPS with
  | Some group => group
  | None => "Senior"
  end.

Record Benchmark : Type := mkBenchmark {
  excellent_max_s : R;
  good_max_s : R;
  average_max_s : R
}.

Inductive Rating : Type := Excellent | Good | Average | Poor.

(** [ScoringEngine.compute_rating]. *)
Definition compute_rating (total_time : R) (benchmark : Benchmark) : Rating :=
  if Rle_dec total_time (excellent_max_s benchmark) then Excellent
  else if Rle_dec total_time (good_max_s benchmark) then Good
  else if Rle_dec total_time (average_max_s benchmark) then Average
  else Poor.

(** Python's [max] and [min] of two numbers: the first argument wins a
    tie. *)
Definition py_max (a b : R) : R := if Rlt_dec a b then b else a.
Definition py_min (a b : R) : R := if Rlt_dec b a then b else a.

(** [ScoringEngine.compute_agility_score]; [None] is the
    [ZeroDivisionError] of a benchmark whose average and excellent times
    are equal. *)
Definition compute_agility_score (total_time : R) (benchmark : Benchmark)
  : option R :=
  let span := average_max_s benchmark - excellent_max_s benchmark in
  if Req_dec_T span 0 then None
  else
    let time_score :=
      py_max 0
        (py_min 50
           (50 * (1 - (total_time - excellent_max_s benchmark) / span))) in
    Some (py_min 100 (time_score + 30 + 20)).

Inductive Suggestion : Type := lane_control | turn_efficiency.

(** [SuggestionGenerator.generate_suggestions]. *)
Definition generate_suggestions (fouls : list Foul) (total_time : R)
  : list Suggestion :=
  (if existsb (fun f => String.eqb (foul_type f) "lane_deviation") fouls
   then [lane_control] else [])
  ++ (if Rlt_dec 12 total_time then [turn_efficiency] else []).

(** *** The pipeline *)

Record AnalysisResult : Type := mkAnalysisResult {
  (* the time handed to [round(total_time, 2)] *)
  total_time_s : R;
  touches_detected : nat;
  fouls : list Foul;
  cheat_detected : bool;
  age_group : string;
  rating : string;
  agility_score : R;
  result_confidence : R;
  suggestions : list Suggestion
}.

Inductive TaskOutcome : Type :=
| PreflightFailed (comments : list PreflightComment)
| TaskError
| Analysed (result : AnalysisResult).

(** [process_video_task] for an athlete of the given age. *)
Definition process_video_task (video : Video) (age : Z) : TaskOutcome :=
  let preflight := run_preflight_checks video in
  if negb (valid preflight) then PreflightFailed (comments preflight)
  else
    let frames := firstn 10 (pose_landmarks video) in
    let calibration := calibrate_from_markers frames default_known_distance_m in
    let poses := extract_poses video in
    match detect_touches poses calibration (fps preflight) with
    | None => TaskError
    | Some touches =>
        let fouls := detect_fouls touches poses in
        let cheat_detected := detect_cheating video in
        let age_group := get_age_group age in
        let total_time :=
          match touches with
          | first :: _ :: _ :: fourth :: _ => time_s fourth - time_s first
          | _ => 0
          end in
        Analysed
          (mkAnalysisResult total_time (length touches) fouls cheat_detected
             age_group "Pending" 0 (confidence calibration)
             (generate_suggestions fouls total_time))
    end.

(** The calibration every video gets: the frames are not looked at. *)
Definition placeholder_calibration : CalibrationResult :=
  calibrate_from_markers (@nil unit) default_known_distance_m.

(** Both feet of a pose lie in the unit square, as MediaPipe's normalised
    landmark coordinates of a body inside the image do. *)
Definition normalised (pose : PoseKeypoints) : Prop :=
  let '(left_x, left_y, _) := left_foot pose in
  let '(right_x, right_y, _) := right_foot pose in
  0 <= left_x <= 1 /\ 0 <= left_y <= 1
  /\ 0 <= right_x <= 1 /\ 0 <= right_y <= 1.

Definition rating_rank (r : Rating) : Z :=
  match r with
  | Excellent => 3
  | Good => 2
  | Average => 1
  | Poor => 0
  end.

(** *** Sample inputs *)

Definition senior_male : Benchmark := mkBenchmark (85 / 10) 10 12.

(** Both feet on the pixel (100, 500), the placeholder of line A. *)
Definition on_line_a : PoseKeypoints :=
  mkPoseKeypoints (100, 500, 1) (100, 500, 1) (100, 500, 1) (100, 500, 1)
    (100, 400, 1) (100, 400, 1).

(** Both feet in the middle of the image, in normalised coordinates. *)
Definition mid_image : PoseKeypoints :=
  mkPoseKeypoints (1 / 2, 1 / 2, 1) (1 / 2, 1 / 2, 1) (1 / 2, 1 / 2, 1)
    (1 / 2, 1 / 2, 1) (1 / 2, 1 / 4, 1) (1 / 2, 1 / 4, 1).

Definition hd_video (found : list (option PoseKeypoints)) : Video :=
  mkVideo true 30 1280 720 found.

End ShuttleRun.

(** ** The sit-and-reach test *)

Module SitReach.
Import PyNum.
Open Scope Q_scope.

Inductive TestState : Type :=
| SETUP_GUIDE | CALIBRATION | RULER_CALIBRATION
| READY | COUNTDOWN | MEASURING | ATTEMPT_RESULT | COMPLETE.

Inductive CalibrationMethod : Type := ARUCO | RULER | AUTO.

Inductive Key : Type := NoKey | KeyQ | KeyR | KeySpace.

(** A YOLO keypoint [(x, y, confidence)], in pixels. *)
Record Keypoint : Type := mkKeypoint { kx : Q; ky : Q; kc : Q }.

(** A BlazePose landmark, in normalised image coordinates. *)
Record Landmark : Type := mkLandmark { lx : Q; ly : Q; visibility : Q }.

(** The BlazePose landmarks the test reads. *)
Record BlazePose : Type := mkBlazePose {
  LEFT_WRIST : Landmark;
  RIGHT_WRIST : Landmark;
  LEFT_INDEX : Landmark;
  RIGHT_INDEX : Landmark;
  LEFT_FOOT_INDEX : Landmark;
  RIGHT_FOOT_INDEX : Landmark
}.

Record Attempt : Type := mkAttempt {
  attempt : Z;
  reach_cm : Q;
  valid : bool
}.

Definition max_attempts : Z := 3.
Definition aruco_marker_size_cm : Q := 20.

(** The attributes of the test object that its measurement logic reads
    and writes.  Attributes the source creates on the fly and tests with
    [hasattr] are options or booleans ([None], [false]: absent);
    [countdown_start] and [result_show_time] are only read after they were
    set.  Display-only attributes (guidance text, form tips, voice
    bookkeeping) are left out. *)
Record SitReachTest : Type := mkSitReachTest {
  state : TestState;
  pixels_per_cm : Q;
  is_calibrated : bool;
  calibration_method : option CalibrationMethod;
  baseline_x : option Z;
  baseline_y : option Z;
  baseline_locked : bool;
  baseline_samples : list Z;
  ruler_points : list (Z * Z);
  attempts : list Attempt;
  current_attempt : Z;
  max_reach_cm : Q;
  ready_started : bool;
  countdown_start : Q;
  attempt_start_time : option Q;
  result_show_time : Q;
  setup_complete_time : option Q;
  calibration_complete_time : option Q
}.

(** Field updates. *)
Definition set_state (v : TestState) (s : SitReachTest) : SitReachTest :=
  mkSitReachTest v (pixels_per_cm s) (is_calibrated s)
    (calibration_method s) (baseline_x s) (baseline_y s) (baseline_locked s)
    (baseline_samples s) (ruler_points s) (attempts s) (current_attempt s)
    (max_reach_cm s) (ready_started s) (countdown_start s)
    (attempt_start_time s) (result_show_time s) (setup_complete_time s)
    (calibration_complete_time s).

Definition set_pixels_per_cm (v : Q) (s : SitReachTest) : SitReachTest :=
  mkSitReachTest (state s) v (is_calibrated s) (calibration_method s)
    (baseline_x s) (baseline_y s) (baseline_locked s) (baseline_samples s)
    (ruler_points s) (attempts s) (current_attempt s) (max_reach_cm s)
    (ready_started s) (countdown_start s) (attempt_start_time s)
    (result_show_time s) (setup_complete_time s)
    (calibration_complete_time s).

Definition set_is_calibrated (v : bool) (s : SitReachTest) : SitReachTest :=
  mkSitReachTest (state s) (pixels_per_cm s) v (calibration_method s)
    (baseline_x s) (baseline_y s) (baseline_locked s) (baseline_samples s)
    (ruler_points s) (attempts s) (current_attempt s) (max_reach_cm s)
    (ready_started s) (countdown_start s) (attempt_start_time s)
    (result_show_time s) (setup_complete_time s)
    (calibration_complete_time s).

Definition set_calibration_method (v : option CalibrationMethod) (s : SitReachTest) : SitReachTest :=
  mkSitReachTest (state s) (pixels_per_cm s) (is_calibrated s) v
    (baseline_x s) (baseline_y s) (baseline_locked s) (baseline_samples s)
    (ruler_points s) (attempts s) (current_attempt s) (max_reach_cm s)
    (ready_started s) (countdown_start s) (attempt_start_time s)
    (result_show_time s) (setup_complete_time s)
    (calibration_complete_time s).

Definition set_baseline_x (v : option Z) (s : SitReachTest) : SitReachTest :=
  mkSitReachTest (state s) (pixels_per_cm s) (is_calibrated s)
    (calibration_method s) v (baseline_y s) (baseline_locked s)
    (baseline_samples s) (ruler_points s) (attempts s) (current_attempt s)
    (max_reach_cm s) (ready_started s) (countdown_start s)
    (attempt_start_time s) (result_show_time s) (setup_complete_time s)
    (calibration_complete_time s).

Definition set_baseline_y (v : option Z) (s : SitReachTest) : SitReachTest :=
  mkSitReachTest (state s) (pixels_per_cm s) (is_calibrated s)
    (calibration_method s) (baseline_x s) v (baseline_locked s)
    (baseline_samples s) (ruler_points s) (attempts s) (current_attempt s)
    (max_reach_cm s) (ready_started s) (countdown_start s)
    (attempt_start_time s) (result_show_time s) (setup_complete_time s)
    (calibration_complete_time s).

Definition set_baseline_locked (v : bool) (s : SitReachTest) : SitReachTest :=
  mkSitReachTest (state s) (pixels_per_cm s) (is_calibrated s)
    (calibration_method s) (baseline_x s) (baseline_y s) v
    (baseline_samples s) (ruler_points s) (attempts s) (current_attempt s)
    (max_reach_cm s) (ready_started s) (countdown_start s)
    (attempt_start_time s) (result_show_time s) (setup_complete_time s)
    (calibration_complete_time s).

Definition set_baseline_samples (v : list Z) (s : SitReachTest) : SitReachTest :=
  mkSitReachTest (state s) (pixels_per_cm s) (is_calibrated s)
    (calibration_method s) (baseline_x s) (baseline_y s) (baseline_locked s)
    v (ruler_points s) (attempts s) (current_attempt s) (max_reach_cm s)
    (ready_started s) (countdown_start s) (attempt_start_time s)
    (result_show_time s) (setup_complete_time s)
    (calibration_complete_time s).

Definition set_ruler_points (v : list (Z * Z)) (s : SitReachTest) : SitReachTest :=
  mkSitReachTest (state s) (pixels_per_cm s) (is_calibrated s)
    (calibration_method s) (baseline_x s) (baseline_y s) (baseline_locked s)
    (baseline_samples s) v (attempts s) (current_attempt s) (max_reach_cm s)
    (ready_started s) (countdown_start s) (attempt_start_time s)
    (result_show_time s) (setup_complete_time s)
    (calibration_complete_time s).

Definition set_attempts (v : list Attempt) (s : SitReachTest) : SitReachTest :=
  mkSitReachTest (state s) (pixels_per_cm s) (is_calibrated s)
    (calibration_method s) (baseline_x s) (baseline_y s) (baseline_locked s)
    (baseline_samples s) (ruler_points s) v (current_attempt s)
    (max_reach_cm s) (ready_started s) (countdown_start s)
    (attempt_start_time s) (result_show_time s) (setup_complete_time s)
    (calibration_complete_time s).

Definition set_current_attempt (v : Z) (s : SitReachTest) : SitReachTest :=
  mkSitReachTest (state s) (pixels_per_cm s) (is_calibrated s)
    (calibration_method s) (baseline_x s) (baseline_y s) (baseline_locked s)
    (baseline_samples s) (ruler_points s) (attempts s) v (max_reach_cm s)
    (ready_started s) (countdown_start s) (attempt_start_time s)
    (result_show_time s) (setup_complete_time s)
    (calibration_complete_time s).

Definition set_max_reach_cm (v : Q) (s : SitReachTest) : SitReachTest :=
  mkSitReachTest (state s) (pixels_per_cm s) (is_calibrated s)
    (calibration_method s) (baseline_x s) (baseline_y s) (baseline_locked s)
    (baseline_samples s) (ruler_points s) (attempts s) (current_attempt s) v
    (ready_started s) (countdown_start s) (attempt_start_time s)
    (result_show_time s) (setup_complete_time s)
    (calibration_complete_time s).

Definition set_ready_started (v : bool) (s : SitReachTest) : SitReachTest :=
  mkSitReachTest (state s) (pixels_per_cm s) (is_calibrated s)
    (calibration_method s) (baseline_x s) (baseline_y s) (baseline_locked s)
    (baseline_samples s) (ruler_points s) (attempts s) (current_attempt s)
    (max_reach_cm s) v (countdown_start s) (attempt_start_time s)
    (result_show_time s) (setup_complete_time s)
    (calibration_complete_time s).

Definition set_countdown_start (v : Q) (s : SitReachTest) : SitReachTest :=
  mkSitReachTest (state s) (pixels_per_cm s) (is_calibrated s)
    (calibration_method s) (baseline_x s) (baseline_y s) (baseline_locked s)
    (baseline_samples s) (ruler_points s) (attempts s) (current_attempt s)
    (max_reach_cm s) (ready_started s) v (attempt_start_time s)
    (result_show_time s) (setup_complete_time s)
    (calibration_complete_time s).

Definition set_attempt_start_time (v : option Q) (s : SitReachTest) : SitReachTest :=
  mkSitReachTest (state s) (pixels_per_cm s) (is_calibrated s)
    (calibration_method s) (baseline_x s) (baseline_y s) (baseline_locked s)
    (baseline_samples s) (ruler_points s) (attempts s) (current_attempt s)
    (max_reach_cm s) (ready_started s) (countdown_start s) v
    (result_show_time s) (setup_complete_time s)
    (calibration_complete_time s).

Definition set_result_show_time (v : Q) (s : SitReachTest) : SitReachTest :=
  mkSitReachTest (state s) (pixels_per_cm s) (is_calibrated s)
    (calibration_method s) (baseline_x s) (baseline_y s) (baseline_locked s)
    (baseline_samples s) (ruler_points s) (attempts s) (current_attempt s)
    (max_reach_cm s) (ready_started s) (countdown_start s)
    (attempt_start_time s) v (setup_complete_time s)
    (calibration_complete_time s).

Definition set_setup_complete_time (v : option Q) (s : SitReachTest) : SitReachTest :=
  mkSitReachTest (state s) (pixels_per_cm s) (is_calibrated s)
    (calibration_method s) (baseline_x s) (baseline_y s) (baseline_locked s)
    (baseline_samples s) (ruler_points s) (attempts s) (current_attempt s)
    (max_reach_cm s) (ready_started s) (countdown_start s)
    (attempt_start_time s) (result_show_time s) v
    (calibration_complete_time s).

Definition set_calibration_complete_time (v : option Q) (s : SitReachTest) : SitReachTest :=
  mkSitReachTest (state s) (pixels_per_cm s) (is_calibrated s)
    (calibration_method s) (baseline_x s) (baseline_y s) (baseline_locked s)
    (baseline_samples s) (ruler_points s) (attempts s) (current_attempt s)
    (max_reach_cm s) (ready_started s) (countdown_start s)
    (attempt_start_time s) (result_show_time s) (setup_complete_time s) v.

(** What one pass of the main loop gets from camera, pose models, marker
    detector, clock and keyboard. *)
Record Frame : Type := mkFrame {
  ret : bool;                             (* [cap.read()] delivered a frame *)
  keypoints : option (list Keypoint);     (* YOLO, first person *)
  blazepose_landmarks : option BlazePose;
  w : Z;                                  (* frame width *)
  now : Q;                                (* [time.time()] *)
  aruco_marker : option (Q * Q);          (* side lengths of the first marker, px *)
  ruler_distance_px : Q;                  (* norm between the two ruler points *)
  setup_pose_ok : bool;                   (* the pose checks of [check_setup_position] *)
  starting_pose_ok : bool;                (* the pose checks of [check_starting_position] *)
  calibration_key : Key;                  (* [waitKey] of the calibration screen *)
  ruler_key : Key;                        (* [waitKey] of the ruler screen *)
  key : Key                               (* [waitKey] at the end of the pass *)
}.

(** The object as [__init__] leaves it. *)
Definition init : SitReachTest :=
  {| state := READY; pixels_per_cm := 4; is_calibrated := true;
     calibration_method := None;
     baseline_x := None; baseline_y := None;
     baseline_locked := false; baseline_samples := [];
     ruler_points := [];
     attempts := []; current_attempt := 0%Z; max_reach_cm := 0;
     ready_started := false; countdown_start := 0;
     attempt_start_time := None; result_show_time := 0;
     setup_complete_time := None; calibration_complete_time := None |}.

(** [self.__init__()] on a used object: the attributes [__init__] names are
    set again, those created elsewhere keep their values. *)
Definition reinit (s : SitReachTest) : SitReachTest :=
  {| state := READY; pixels_per_cm := 4; is_calibrated := true;
     calibration_method := None;
     baseline_x := None; baseline_y := None;
     baseline_locked := baseline_locked s;
     baseline_samples := baseline_samples s;
     ruler_points := [];
     attempts := []; current_attempt := 0%Z; max_reach_cm := 0;
     ready_started := ready_started s;
     countdown_start := countdown_start s;
     attempt_start_time := attempt_start_time s;
     result_show_time := result_show_time s;
     setup_complete_time := setup_complete_time s;
     calibration_complete_time := calibration_complete_time s |}.

Definition has_17 (kps : option (list Keypoint)) : option (list Keypoint) :=
  match kps with
  | Some l => if (17 <=? length l)%nat then Some l else None
  | None => None
  end.

Definition kp (l : list Keypoint) (i : nat) : Keypoint :=
  nth i l (mkKeypoint 0 0 0).

(** [detect_aruco_and_calibrate]. *)
Definition detect_aruco_and_calibrate (s : SitReachTest) (f : Frame)
  : SitReachTest * bool :=
  match aruco_marker f with
  | Some (width_px, height_px) =>
      let marker_size_px := (width_px + height_px) / 2 in
      (set_is_calibrated true
         (set_calibration_method (Some ARUCO)
            (set_pixels_per_cm (marker_size_px / aruco_marker_size_cm) s)),
       true)
  | None => (s, false)
  end.

(** [calibrate_with_standard_box]: hip-to-ankle height over 52 cm. *)
Definition calibrate_with_standard_box (s : SitReachTest)
    (keypoints : option (list Keypoint)) : SitReachTest * bool :=
  match has_17 keypoints with
  | None => (s, false)
  | Some l =>
      let left_hip := kp l 11 in
      let right_hip := kp l 12 in
      let left_ankle := kp l 15 in
      let right_ankle := kp l 16 in
      if forallb (fun pt => Qltb (1 # 2) (kc pt))
           [left_hip; right_hip; left_ankle; right_ankle]
      then
        let hip_y := (ky left_hip + ky right_hip) / 2 in
        let ankle_y := (ky left_ankle + ky right_ankle) / 2 in
        let hip_to_ankle_px := Qabs (hip_y - ankle_y) in
        if Qltb 100 hip_to_ankle_px then
          (set_is_calibrated true
             (set_calibration_method (Some AUTO)
                (set_pixels_per_cm (hip_to_ankle_px / 52) s)),
           true)
        else (s, false)
      else (s, false)
  end.

(** The sampling step shared by both branches of [detect_box_baseline]:
    the position just stored is appended to the samples, and the tenth
    sample locks the baseline at the truncated mean. *)
Definition take_sample (bx by_ : Z) (s : SitReachTest) : SitReachTest :=
  let s := set_baseline_y (Some by_) (set_baseline_x (Some bx) s) in
  let samples := baseline_samples s ++ [bx] in
  let s := set_baseline_samples samples s in
  if (10 <=? length samples)%nat then
    set_baseline_locked true
      (set_baseline_x
         (Some (py_int (inject_Z (py_sum samples)
                        / inject_Z (Z.of_nat (length samples)))))
         s)
  else s.

(** [detect_box_baseline]. *)
Definition detect_box_baseline (s : SitReachTest)
    (keypoints : option (list Keypoint)) (blazepose : option BlazePose)
    (frame_w : Z) : SitReachTest * bool :=
  if baseline_locked s then (s, true)
  else
    let yolo_fallback :=
      match has_17 keypoints with
      | None => (s, false)
      | Some l =>
          let left_ankle := kp l 15 in
          let right_ankle := kp l 16 in
          let lv := Qltb (4 # 10) (kc left_ankle) in
          let rv := Qltb (4 # 10) (kc right_ankle) in
          if lv || rv then
            if lv && rv then
              (take_sample
                 (py_int (py_max (kx left_ankle) (kx right_ankle)))
                 (py_int ((ky left_ankle + ky right_ankle) / 2)) s, true)
            else if lv then
              (take_sample (py_int (kx left_ankle)) (py_int (ky left_ankle)) s,
               true)
            else
              (take_sample (py_int (kx right_ankle)) (py_int (ky right_ankle)) s,
               true)
          else (s, false)
      end in
    match blazepose with
    | None => yolo_fallback
    | Some lm =>
        let left_foot_index := LEFT_FOOT_INDEX lm in
        let right_foot_index := RIGHT_FOOT_INDEX lm in
        let lv := Qltb (1 # 2) (visibility left_foot_index) in
        let rv := Qltb (1 # 2) (visibility right_foot_index) in
        if lv || rv then
          let frame_h := 480%Z in
          if lv && rv then
            let left_x := py_int (lx left_foot_index * inject_Z frame_w) in
            let right_x := py_int (lx right_foot_index * inject_Z frame_w) in
            let by_ :=
              if (right_x <? left_x)%Z
              then py_int (ly left_foot_index * inject_Z frame_h)
              else py_int (ly right_foot_index * inject_Z frame_h) in
            (take_sample (Z.max left_x right_x) by_ s, true)
          else if lv then
            (take_sample
               (py_int (lx left_foot_index * inject_Z frame_w))
               (py_int (ly left_foot_index * inject_Z frame_h)) s, true)
          else
            (take_sample
               (py_int (lx right_foot_index * inject_Z frame_w))
               (py_int (ly right_foot_index * inject_Z frame_h)) s, true)
        else yolo_fallback
    end.

(** [check_starting_position]: the pose checks only run on a full set of
    keypoints. *)
Definition check_starting_position (f : Frame) : bool :=
  match has_17 (keypoints f) with
  | None => false
  | Some _ => starting_pose_ok f
  end.

Definition check_setup_position (f : Frame) : bool :=
  match has_17 (keypoints f) with
  | None => false
  | Some _ => setup_pose_ok f
  end.

(** [measure_reach]: wrists' mean x against the baseline, in cm. *)
Definition measure_reach (s : SitReachTest) (keypoints : option (list Keypoint)) : Q :=
  if is_calibrated s then
    match baseline_x s with
    | None => 0
    | Some bx =>
        match has_17 keypoints with
        | None => 0
        | Some l =>
            let left_wrist := kp l 9 in
            let right_wrist := kp l 10 in
            if Qltb (1 # 2) (kc left_wrist) && Qltb (1 # 2) (kc right_wrist) then
              let fingertip_x := (kx left_wrist + kx right_wrist) / 2 in
              let reach_px := fingertip_x - inject_Z bx in
              reach_px / pixels_per_cm s
            else 0
        end
    end
  else 0.

(** [measure_reach_blazepose]. *)
Definition measure_reach_blazepose (s : SitReachTest) (lm : BlazePose) (frame_w : Z) : Q :=
  if is_calibrated s then
    match baseline_x s with
    | None => 0
    | Some bx =>
        if Qltb (1 # 2) (visibility (LEFT_WRIST lm))
           && Qltb (1 # 2) (visibility (RIGHT_WRIST lm)) then
          let fingertip_x_norm :=
            if Qltb (1 # 2) (visibility (LEFT_INDEX lm))
               && Qltb (1 # 2) (visibility (RIGHT_INDEX lm))
            then py_max (lx (LEFT_INDEX lm)) (lx (RIGHT_INDEX lm))
            else py_max (lx (LEFT_WRIST lm)) (lx (RIGHT_WRIST lm)) in
          let fingertip_x := fingertip_x_norm * inject_Z frame_w in
          let reach_px := fingertip_x - inject_Z bx in
          reach_px / pixels_per_cm s
        else 0
    end
  else 0.

(** The measurement of one frame: both models when both see the hands
    beyond the line, else whichever does. *)
Definition ensemble_reach (s : SitReachTest) (f : Frame) : Q :=
  let reach_yolo := measure_reach s (keypoints f) in
  let reach_blazepose :=
    match blazepose_landmarks f with
    | Some lm => measure_reach_blazepose s lm (w f)
    | None => 0
    end in
  if Qltb 0 reach_yolo && Qltb 0 reach_blazepose
  then reach_yolo * (45 # 100) + reach_blazepose * (55 # 100)
  else if Qltb 0 reach_yolo then reach_yolo
  else if Qltb 0 reach_blazepose then reach_blazepose
  else 0.

(** What the READY branch draws once [detect_box_baseline] has answered:
    the marker at [(baseline_x, baseline_y)] whenever [baseline_x] is set,
    and the label at [baseline_y - 100] and [baseline_x - 150] whenever the
    answer is [True].  Arithmetic on [None] raises [TypeError], and
    drawing at a point with a [None] coordinate raises as well. *)
Definition ready_raises (s : SitReachTest) (baseline_detected : bool) : bool :=
  match baseline_x s, baseline_y s with
  | Some _, Some _ => false
  | Some _, None => true
  | None, _ => baseline_detected
  end.

(** The READY branch.  The second component tells whether the pass ended
    in an exception; the object is then as it was when the exception was
    raised. *)
Definition ready_pass (s : SitReachTest) (f : Frame) : SitReachTest * bool :=
  let (s, baseline_detected) :=
    detect_box_baseline s (keypoints f) (blazepose_landmarks f) (w f) in
  if ready_raises s baseline_detected then (s, true)
  else if baseline_detected then
    if check_starting_position f then
      if ready_started s then (s, false)
      else
        (set_max_reach_cm 0
           (set_countdown_start (now f)
              (set_state COUNTDOWN (set_ready_started true s))),
         false)
    else (set_ready_started false s, false)
  else (set_ready_started false s, false).

(** The state machine in the body of [run_test]'s loop: the object after
    the pass, and whether the pass ended in an exception. *)
Definition state_machine_pass (s : SitReachTest) (f : Frame)
  : SitReachTest * bool :=
  let s :=
    match has_17 (keypoints f) with
    | Some _ => fst (calibrate_with_standard_box s (keypoints f))
    | None => s
    end in
  match state s with
  | SETUP_GUIDE =>
      (if check_setup_position f then
         let t0 :=
           match setup_complete_time s with
           | Some t => t
           | None => now f
           end in
         let s := set_setup_complete_time (Some t0) s in
         let countdown := (2 - py_int (now f - t0))%Z in
         if (0 <? countdown)%Z then s
         else set_setup_complete_time None (set_state CALIBRATION s)
       else s,
       false)
  | CALIBRATION =>
      (let (s, aruco_found) := detect_aruco_and_calibrate s f in
       let (s, auto_calibrated) :=
         if aruco_found then (s, false)
         else calibrate_with_standard_box s (keypoints f) in
       if aruco_found || auto_calibrated then
         let t0 :=
           match calibration_complete_time s with
           | Some t => t
           | None => now f
           end in
         let s := set_calibration_complete_time (Some t0) s in
         let countdown := (2 - py_int (now f - t0))%Z in
         if (0 <? countdown)%Z then s
         else
           set_calibration_complete_time None
             (set_state READY (set_is_calibrated true s))
       else
         match calibration_key f with
         | KeyR => set_ruler_points [] (set_state RULER_CALIBRATION s)
         | _ => s
         end,
       false)
  | RULER_CALIBRATION =>
      (if (length (ruler_points s) =? 2)%nat then
         let s :=
           set_calibration_method (Some RULER)
             (set_pixels_per_cm (ruler_distance_px f / 30) s) in
         match ruler_key f with
         | KeySpace => set_state READY (set_is_calibrated true s)
         | _ => s
         end
       else s,
       false)
  | READY => ready_pass s f
  | COUNTDOWN =>
      (let elapsed := now f - countdown_start s in
       let countdown := (3 - py_int elapsed)%Z in
       if (0 <? countdown)%Z then s
       else set_state MEASURING s,
       false)
  | MEASURING =>
      (let t0 :=
         match attempt_start_time s with
         | Some t => t
         | None => now f
         end in
       let s := set_attempt_start_time (Some t0) s in
       let elapsed := now f - t0 in
       let remaining := 5 - elapsed in
       let reach := ensemble_reach s f in
       let s := if Qltb (max_reach_cm s) reach then set_max_reach_cm reach s else s in
       if Qle_bool remaining 0 then
         let s :=
           set_attempts
             (attempts s
              ++ [mkAttempt (current_attempt s + 1) (max_reach_cm s) true]) s in
         let s := set_current_attempt (current_attempt s + 1)%Z s in
         if (max_attempts <=? current_attempt s)%Z then set_state COMPLETE s
         else set_result_show_time (now f) (set_state ATTEMPT_RESULT s)
       else s,
       false)
  | ATTEMPT_RESULT =>
      (let elapsed := now f - result_show_time s in
       let remaining := (5 - py_int elapsed)%Z in
       if (0 <? remaining)%Z then s
       else
         set_attempt_start_time None
           (set_ready_started false
              (set_max_reach_cm 0 (set_state READY s))),
       false)
  | COMPLETE => (s, false)
  end.

(** The object after the state machine's part of a pass. *)
Definition state_machine (s : SitReachTest) (f : Frame) : SitReachTest :=
  fst (state_machine_pass s f).

(** One pass of the loop, with the way it ends. *)
Inductive Pass : Type :=
| Continue (s : SitReachTest)    (* on to the next frame *)
| Stopped (s : SitReachTest)     (* no frame, or [q]: the loop is left *)
| Restarted (s : SitReachTest)   (* [r] on the results screen: a new test *)
| Raised (s : SitReachTest).     (* an exception leaves [run_test] *)

Definition loop_pass (s : SitReachTest) (f : Frame) : Pass :=
  if ret f then
    let (s, raised) := state_machine_pass s f in
    if raised then Raised s
    else
      match key f, state s with
      | KeyQ, _ => Stopped s
      | KeyR, COMPLETE => Restarted (reinit s)
      | _, _ => Continue s
      end
  else Stopped s.

(** The test object after the frames of one test: the loop runs until the
    frames are used up, it is left, an exception ends it, or the test is
    restarted. *)
Fixpoint run_test (s : SitReachTest) (fs : list Frame) : SitReachTest :=
  match fs with
  | [] => s
  | f :: fs' =>
      match loop_pass s f with
      | Continue s' => run_test s' fs'
      | Stopped s' => s'
      | Restarted _ => state_machine s f
      | Raised s' => s'
      end
  end.

(** The stored baseline. *)
Definition baseline (s : SitReachTest) : option Z * option Z :=
  (baseline_x s, baseline_y s).

(** [s'] stores the baseline [s] stores. *)
Definition same_baseline (s s' : SitReachTest) : Prop :=
  baseline_x s' = baseline_x s /\ baseline_y s' = baseline_y s
  /\ baseline_locked s' = baseline_locked s
  /\ baseline_samples s' = baseline_samples s.

(** *** The results *)

Inductive FlexibilityRating : Type :=
| Excellent | VeryGood | Good | Average | BelowAverage | PoorNeedsImprovement.

(** [get_flexibility_rating]. *)
Definition get_flexibility_rating (score_cm : Q) : FlexibilityRating :=
  if Qle_bool 40 score_cm then Excellent
  else if Qle_bool 35 score_cm then VeryGood
  else if Qle_bool 30 score_cm then Good
  else if Qle_bool 25 score_cm then Average
  else if Qle_bool 20 score_cm then BelowAverage
  else PoorNeedsImprovement.

(** [max(self.attempts, key=lambda x: x['reach_cm'])]: the first attempt
    with the largest reach; [None] is the [ValueError] of an empty list. *)
Fixpoint max_from (best : Attempt) (rest : list Attempt) : Attempt :=
  match rest with
  | [] => best
  | a :: rest' =>
      if Qltb (reach_cm best) (reach_cm a) then max_from a rest'
      else max_from best rest'
  end.

Definition best_attempt (attempts : list Attempt) : option Attempt :=
  match attempts with
  | [] => None
  | a :: rest => Some (max_from a rest)
  end.

(** What the results screen shows: the best reach and its rating. *)
Definition final_result (s : SitReachTest) : option (Q * FlexibilityRating) :=
  match best_attempt (attempts s) with
  | Some best => Some (reach_cm best, get_flexibility_rating (reach_cm best))
  | None => None
  end.

(** Better ratings have higher ranks. *)
Definition flexibility_rank (r : FlexibilityRating) : Z :=
  match r with
  | Excellent => 5
  | VeryGood => 4
  | Good => 3
  | Average => 2
  | BelowAverage => 1
  | PoorNeedsImprovement => 0
  end.

(** What holds of the test object on every pass of a test begun by
    [__init__]. *)
Definition well_run (s : SitReachTest) : Prop :=
  0 < pixels_per_cm s /\ is_calibrated s = true
  /\ (calibration_method s = None \/ calibration_method s = Some AUTO)
  /\ current_attempt s = Z.of_nat (length (attempts s))
  /\ map attempt (attempts s) = map Z.of_nat (seq 1 (length (attempts s)))
  /\ Forall (fun a => valid a = true /\ 0 <= reach_cm a) (attempts s)
  /\ 0 <= max_reach_cm s
  /\ match state s with
     | SETUP_GUIDE | CALIBRATION | RULER_CALIBRATION => False
     | COMPLETE => length (attempts s) = 3%nat
     | _ => (length (attempts s) < 3)%nat
     end.

(** Two test objects with the same state, scale and attempt log. *)
Definition same_log (s s' : SitReachTest) : Prop :=
  state s' = state s /\ pixels_per_cm s' = pixels_per_cm s
  /\ is_calibrated s' = is_calibrated s
  /\ calibration_method s' = calibration_method s
  /\ current_attempt s' = current_attempt s
  /\ attempts s' = attempts s
  /\ max_reach_cm s' = max_reach_cm s.

(** *** Sample inputs *)

(** BlazePose landmarks with everything in view and the toes at the
    normalised position [toe_x]. *)
Definition toes_at (toe_x : Q) : BlazePose :=
  {| LEFT_WRIST := mkLandmark (6 # 10) (55 # 100) (9 # 10);
     RIGHT_WRIST := mkLandmark (6 # 10) (55 # 100) (9 # 10);
     LEFT_INDEX := mkLandmark (62 # 100) (55 # 100) (9 # 10);
     RIGHT_INDEX := mkLandmark (62 # 100) (55 # 100) (9 # 10);
     LEFT_FOOT_INDEX := mkLandmark toe_x (6 # 10) (9 # 10);
     RIGHT_FOOT_INDEX := mkLandmark toe_x (6 # 10) (9 # 10) |}.

(** Seventeen YOLO keypoints of a subject seated with straight legs, in a
    640 x 480 picture: shoulders at (200, 200), hips at (200, 300), knees
    at (350, 300), ankles at (500, 300), wrists at (400, 280). *)
Definition seated_keypoints : list Keypoint :=
  let head := mkKeypoint 200 150 (9 # 10) in
  let shoulder := mkKeypoint 200 200 (9 # 10) in
  let elbow := mkKeypoint 300 250 (9 # 10) in
  let wrist := mkKeypoint 400 280 (9 # 10) in
  let hip := mkKeypoint 200 300 (9 # 10) in
  let knee := mkKeypoint 350 300 (9 # 10) in
  let ankle := mkKeypoint 500 300 (9 # 10) in
  [head; head; head; head; head; shoulder; shoulder; elbow; elbow;
   wrist; wrist; hip; hip; knee; knee; ankle; ankle].

(** A frame on which only BlazePose finds the subject: the baseline is
    sampled, the starting position is not yet recognised. *)
Definition feet_only (t toe_x : Q) : Frame :=
  mkFrame true None (Some (toes_at toe_x)) 640 t None 0
    false false NoKey NoKey NoKey.

(** A frame of the seated subject in the starting position. *)
Definition seated (t toe_x : Q) : Frame :=
  mkFrame true (Some seated_keypoints) (Some (toes_at toe_x)) 640 t None 0
    true true NoKey NoKey NoKey.

(** Ten frames with the toes at pixel column 512: they lock the
    baseline. *)
Definition locking_frames : list Frame :=
  map (fun t => feet_only (inject_Z t) (8 # 10))
    [1; 2; 3; 4; 5; 6; 7; 8; 9; 10]%Z.

(** A first attempt and the start of the second, with the toes now at
    pixel column 544. *)
Definition attempt_frames : list Frame :=
  map (fun t => seated (inject_Z t) (85 # 100)) [20; 24; 25; 31; 37; 38]%Z.

(** A whole first attempt by a subject who is in the starting position on
    the first frame, toes at pixel column 512: the countdown starts on the
    first READY pass. *)
Definition prompt_first_attempt : list Frame :=
  map (fun t => seated (inject_Z t) (8 # 10)) [1; 5; 6; 12; 18]%Z.

(** A whole test of three attempts by a subject who stays in the starting
    position, toes at pixel column 512. *)
Definition three_attempts : list Frame :=
  map (fun t => seated (inject_Z t) (8 # 10))
    [1; 5; 6; 12; 18; 19; 23; 24; 30; 36; 37; 41; 42; 48]%Z.

End SitReach.

(** * Properties *)

(** ** Sit-up counter: debounce, validation, pace and ratings *)

Module SitupsTheory.
Import PyNum Situps.
Open Scope Q_scope.

Lemma Qltb_true_iff (x y : Q) : Qltb x y = true <-> x < y.
Proof.
  unfold Qltb. rewrite negb_true_iff. split.
  - intros H. apply Qnot_le_lt. intros Hle.
    apply Qle_bool_iff in Hle. congruence.
  - intros H. destruct (Qle_bool y x) eqn:E; [|reflexivity].
    apply Qle_bool_iff in E. exfalso. exact (Qlt_not_le _ _ H E).
Qed.

Lemma Qltb_false_iff (x y : Q) : Qltb x y = false <-> y <= x.
Proof.
  unfold Qltb. rewrite negb_false_iff. apply Qle_bool_iff.
Qed.

(** The time management touches neither the repetition state, nor its
    entry time, nor the count. *)
Lemma time_management_keeps (t : Q) (s : SitupCounter) (out : list Output) :
  let s' := fst (time_management t s out) in
  state s' = state s /\ rep_count s' = rep_count s
  /\ state_entry_time s' = state_entry_time s.
Proof.
  unfold time_management.
  repeat match goal with
         | |- context [if ?b then _ else _] => destruct b
         end; simpl; auto.
Qed.

(** Its output only gains spoken prompts. *)
Lemma reasons_app_speak (out : list Output) (p : Prompt) :
  reasons (out ++ [Speak p]) = reasons out.
Proof.
  induction out as [|o out IH]; simpl; [reflexivity|].
  destruct o as [[| |v|n]|q]; simpl; rewrite ?IH; reflexivity.
Qed.

Lemma counted_app_speak (out : list Output) (p : Prompt) :
  counted (out ++ [Speak p]) = counted out.
Proof.
  induction out as [|o out IH]; simpl; [reflexivity|].
  destruct o as [[| |v|n]|q]; simpl; rewrite ?IH; reflexivity.
Qed.

Lemma time_management_output (t : Q) (s : SitupCounter) (out : list Output) :
  reasons (snd (time_management t s out)) = reasons out
  /\ counted (snd (time_management t s out)) = counted out.
Proof.
  unfold time_management.
  repeat match goal with
         | |- context [if ?b then _ else _] => destruct b
         end; simpl; rewrite ?reasons_app_speak, ?counted_app_speak; auto.
Qed.

Lemma validation_voice_keeps (p : Prompt) (t : Q) (s : SitupCounter) :
  let s' := fst (validation_voice p t s) in
  state s' = state s /\ rep_count s' = rep_count s
  /\ state_entry_time s' = state_entry_time s
  /\ reasons (snd (validation_voice p t s)) = []
  /\ counted (snd (validation_voice p t s)) = [].
Proof.
  unfold validation_voice. destruct (Qltb _ _); simpl; auto.
Qed.

(** One frame in state DOWN that arrives before the state has been
    occupied for [MIN_HOLD_TIME] fires nothing. *)
Lemma down_frame_within_hold (s : SitupCounter) (f : Frame) :
  state s = DOWN ->
  down_hold_time s (now f) < MIN_HOLD_TIME ->
  let s' := fst (process_frame s f) in
  state s' = DOWN /\ rep_count s' = rep_count s
  /\ state_entry_time s' = state_entry_time s.
Proof.
  intros Hst Hhold. unfold process_frame.
  destruct (phase s); [|simpl; auto].
  unfold show_running_test.
  destruct (landmarks f) as [raw|].
  - set (a := 180 - raw + 40).
    set (s1 := track_angle a _ _ s).
    set (s2 := if Qltb DOWN_THRESHOLD a then _ else _).
    assert (H2 : state s2 = DOWN /\ rep_count s2 = rep_count s
                 /\ state_entry_time s2 = state_entry_time s).
    { subst s2 s1. destruct (Qltb DOWN_THRESHOLD a);
        [destruct (down_hold_start _)|]; simpl; auto. }
    destruct H2 as (H2a & H2b & H2c).
    assert (Hd : down_hold_time s2 (now f) = down_hold_time s (now f)).
    { unfold down_hold_time. rewrite H2c. reflexivity. }
    rewrite H2a.
    destruct (Qltb a UP_THRESHOLD).
    + rewrite Hd. apply Qltb_true_iff in Hhold. rewrite Hhold.
      pose proof (validation_voice_keeps HoldDownLonger (now f) s2) as Hv.
      simpl in Hv. destruct (validation_voice HoldDownLonger (now f) s2) as [s3 said].
      simpl in *. destruct Hv as (Ha & Hb & Hc & _).
      rewrite Ha, Hb, Hc. auto.
    + pose proof (time_management_keeps (now f) s2 []) as Ht. simpl in Ht.
      destruct Ht as (Ha & Hb & Hc). rewrite Ha, Hb, Hc. auto.
  - destruct (Qltb 3 _); simpl; auto.
Qed.

Lemma run_cons (s : SitupCounter) (f : Frame) (fs : list Frame) :
  fst (run s (f :: fs)) = fst (run (fst (process_frame s f)) fs).
Proof.
  simpl. destruct (process_frame s f) as [s1 out1]. simpl.
  destruct (run s1 fs) as [s2 out2]. reflexivity.
Qed.

Lemma down_frames_within_hold (fs : list Frame) :
  forall s : SitupCounter,
    state s = DOWN ->
    (forall f, In f fs -> down_hold_time s (now f) < MIN_HOLD_TIME) ->
    state (fst (run s fs)) = DOWN
    /\ rep_count (fst (run s fs)) = rep_count s
    /\ state_entry_time (fst (run s fs)) = state_entry_time s.
Proof.
  induction fs as [|f fs IH]; intros s Hst Hall; [simpl; auto|].
  rewrite run_cons.
  destruct (down_frame_within_hold s f Hst (Hall f (or_introl eq_refl)))
    as (Ha & Hb & Hc).
  destruct (IH (fst (process_frame s f)) Ha) as (Ia & Ib & Ic).
  - intros g Hg. unfold down_hold_time. rewrite Hc.
    apply (Hall g). right. exact Hg.
  - rewrite Ia, Ib, Ic, Hb, Hc. auto.
Qed.

(** The bookkeeping before the transitions leaves state, entry time and
    count as they were. *)
Lemma hold_tracking_keeps (a mn mx t : Q) (s : SitupCounter) :
  let s2 :=
    if Qltb DOWN_THRESHOLD a
    then match down_hold_start (track_angle a mn mx s) with
         | None => set_down_hold_start (Some t) (track_angle a mn mx s)
         | Some _ => track_angle a mn mx s
         end
    else set_down_hold_start None (track_angle a mn mx s) in
  state s2 = state s /\ rep_count s2 = rep_count s
  /\ state_entry_time s2 = state_entry_time s
  /\ last_validation_voice s2 = last_validation_voice s.
Proof.
  destruct (Qltb DOWN_THRESHOLD a); [destruct (down_hold_start _)|];
    simpl; auto.
Qed.

Lemma up_frame_after_hold (s : SitupCounter) (f : Frame) :
  phase s = RUNNING -> state s = DOWN -> up_trigger f = true ->
  MIN_HOLD_TIME <= down_hold_time s (now f) ->
  state (fst (process_frame s f)) = UP
  /\ state_entry_time (fst (process_frame s f)) = now f
  /\ rep_count (fst (process_frame s f)) = rep_count s.
Proof.
  intros Hph Hst Hup Hhold. unfold process_frame. rewrite Hph.
  unfold show_running_test, up_trigger, transformed in *.
  destruct (landmarks f) as [raw|]; [|discriminate].
  set (a := 180 - raw + 40) in *.
  match goal with
  | |- context [track_angle a ?mn ?mx s] =>
      pose proof (hold_tracking_keeps a mn mx (now f) s) as H2
  end.
  cbv zeta in H2. destruct H2 as (H2a & H2b & H2c & _).
  match type of H2a with state ?x = _ => set (s2 := x) in * end.
  rewrite H2a, Hst, Hup.
  assert (Hd : down_hold_time s2 (now f) = down_hold_time s (now f)).
  { unfold down_hold_time. rewrite H2c. reflexivity. }
  rewrite Hd. apply Qltb_false_iff in Hhold. rewrite Hhold.
  pose proof (time_management_keeps (now f) (enter_state UP (now f) s2)
                [Print TransitionToUp]) as Ht.
  simpl in Ht. destruct Ht as (Ha & Hb & Hc).
  rewrite Ha, Hb, Hc. auto.
Qed.

(** What a frame does in state UP once the angle is back above
    [DOWN_THRESHOLD]: the validation block decides. *)
Lemma up_frame_validated (s : SitupCounter) (f : Frame) (raw : Q) :
  phase s = RUNNING -> state s = UP -> landmarks f = Some raw ->
  down_trigger f = true ->
  let c := candidate s raw (now f) in
  let s' := fst (process_frame s f) in
  let out := snd (process_frame s f) in
  match validate_rep c with
  | Some v =>
      state s' = DOWN /\ rep_count s' = rep_count s
      /\ reasons out = [v] /\ counted out = []
  | None =>
      state s' = DOWN /\ rep_count s' = (rep_count s + 1)%Z
      /\ reasons out = [] /\ counted out = [(rep_count s + 1)%Z]
  end.
Proof.
  intros Hph Hst Hlm Hdown. unfold process_frame. rewrite Hph.
  unfold show_running_test, down_trigger, candidate, transformed in *.
  rewrite Hlm in *.
  set (a := 180 - raw + 40) in *.
  set (mn := py_min (min_angle_in_cycle s) a).
  set (mx := py_max (max_angle_in_cycle s) a).
  pose proof (hold_tracking_keeps a mn mx (now f) s) as H2.
  cbv zeta in H2. destruct H2 as (H2a & H2b & H2c & _).
  match type of H2a with state ?x = _ => set (s2 := x) in * end.
  rewrite H2a, Hst, Hdown, H2c.
  destruct (validate_rep _) as [v|].
  - unfold reject_rep.
    pose proof (validation_voice_keeps (Feedback v) (now f) s2) as Hv.
    simpl in Hv.
    destruct (validation_voice (Feedback v) (now f) s2) as [s3 said].
    simpl in *. destruct Hv as (_ & Hb & _ & Hr & Hc).
    rewrite Hb, Hr, Hc, H2b. auto.
  - match goal with
    | |- context [time_management ?t ?x ?o] =>
        pose proof (time_management_keeps t x o) as Ht;
        pose proof (time_management_output t x o) as Ho
    end.
    simpl in Ht, Ho. destruct Ht as (Ha & Hb & _). destruct Ho as (Hr & Hc).
    rewrite Ha, Hb, Hr, Hc, H2b. auto.
Qed.

(** The validation block answers with the first check that fails, in the
    order of [all_checks]. *)
Lemma validate_rep_first_failure (c : CandidateRep) :
  validate_rep c = hd_error (failing_checks c).
Proof.
  unfold validate_rep, failing_checks, all_checks.
  cbn [filter].
  destruct (check_fails HeldUpTooBriefly c); [reflexivity|].
  destruct (check_fails TookTooLong c); [reflexivity|].
  destruct (check_fails InsufficientRange c); [reflexivity|].
  destruct (check_fails NotBentEnough c); [reflexivity|].
  destruct (check_fails NotLyingFlat c); reflexivity.
Qed.

(** The count moves only through a candidate that passes the validation
    block. *)
Lemma count_needs_validation (s : SitupCounter) (f : Frame) :
  (rep_count (fst (process_frame s f)) = rep_count s
   /\ counted (snd (process_frame s f)) = [])
  \/ (exists raw, landmarks f = Some raw
                  /\ validate_rep (candidate s raw (now f)) = None).
Proof.
  destruct (phase s) eqn:Hph; [|left; unfold process_frame; rewrite Hph; auto].
  destruct (landmarks f) as [raw|] eqn:Hlm.
  - destruct (state s) eqn:Hst.
    + left. unfold process_frame. rewrite Hph.
      unfold show_running_test. rewrite Hlm.
      set (a := 180 - raw + 40).
      match goal with
      | |- context [track_angle a ?mn ?mx s] =>
          pose proof (hold_tracking_keeps a mn mx (now f) s) as H2
      end.
      cbv zeta in H2. destruct H2 as (H2a & H2b & H2c & _).
      match type of H2a with state ?x = _ => set (s2 := x) in * end.
      rewrite H2a, Hst.
      destruct (Qltb a UP_THRESHOLD).
      * destruct (Qltb (down_hold_time s2 (now f)) MIN_HOLD_TIME).
        -- pose proof (validation_voice_keeps HoldDownLonger (now f) s2) as Hv.
           simpl in Hv.
           destruct (validation_voice HoldDownLonger (now f) s2) as [s3 said].
           simpl in *. destruct Hv as (_ & Hb & _ & _ & Hc).
           rewrite Hb, Hc. auto.
        -- match goal with
           | |- context [time_management ?t ?x ?o] =>
               pose proof (time_management_keeps t x o) as Ht;
               pose proof (time_management_output t x o) as Ho
           end.
           simpl in Ht, Ho. destruct Ht as (_ & Hb & _). destruct Ho as (_ & Hc).
           rewrite Hb, Hc. auto.
      * pose proof (time_management_keeps (now f) s2 []) as Ht.
        pose proof (time_management_output (now f) s2 []) as Ho.
        simpl in Ht, Ho. destruct Ht as (_ & Hb & _). destruct Ho as (_ & Hc).
        rewrite Hb, Hc. auto.
    + destruct (down_trigger f) eqn:Hdt.
      * pose proof (up_frame_validated s f raw Hph Hst Hlm Hdt) as Hv.
        cbv zeta in Hv.
        destruct (validate_rep (candidate s raw (now f))) as [v|] eqn:Hval.
        -- left. destruct Hv as (_ & Hb & _ & Hc). auto.
        -- right. exists raw. auto.
      * left. unfold process_frame. rewrite Hph.
        unfold show_running_test, down_trigger, transformed in *.
        rewrite Hlm in *.
        set (a := 180 - raw + 40) in *.
        match goal with
        | |- context [track_angle a ?mn ?mx s] =>
            pose proof (hold_tracking_keeps a mn mx (now f) s) as H2
        end.
        cbv zeta in H2. destruct H2 as (H2a & H2b & H2c & _).
        match type of H2a with state ?x = _ => set (s2 := x) in * end.
        rewrite H2a, Hst, Hdt.
        pose proof (time_management_keeps (now f) s2 []) as Ht.
        pose proof (time_management_output (now f) s2 []) as Ho.
        simpl in Ht, Ho. destruct Ht as (_ & Hb & _). destruct Ho as (_ & Hc).
        rewrite Hb, Hc. auto.
  - left. unfold process_frame. rewrite Hph.
    unfold show_running_test. rewrite Hlm.
    destruct (Qltb 3 _); simpl; auto.
Qed.

Ltac qcompute :=
  vm_compute; first [reflexivity | intro; discriminate | tauto].

(** C1, the debounce rule as the counter implements it.  The hold time is
    measured from the entry into the current state, not from the moment
    the triggering predicate began to hold.  (1) Over every sequence of
    frames that all arrive while DOWN has been occupied for less than
    [MIN_HOLD_TIME], no transition fires: state, entry time and count are
    those before the window.  (2) Once DOWN has been occupied for
    [MIN_HOLD_TIME], the first frame below [UP_THRESHOLD] fires the
    transition to UP at once.  (3) In UP, a frame above [DOWN_THRESHOLD]
    that comes before [MIN_HOLD_TIME] is a rejected repetition: the counter
    goes back to DOWN, the count stays, and the reason reported is the
    short hold. *)
Theorem debounce_by_state_occupancy :
  (forall (s : SitupCounter) (fs : list Frame),
      state s = DOWN ->
      (forall f, In f fs -> down_hold_time s (now f) < MIN_HOLD_TIME) ->
      state (fst (run s fs)) = state s
      /\ rep_count (fst (run s fs)) = rep_count s
      /\ state_entry_time (fst (run s fs)) = state_entry_time s)
  /\ (forall (s : SitupCounter) (f : Frame),
         phase s = RUNNING -> state s = DOWN -> up_trigger f = true ->
         MIN_HOLD_TIME <= down_hold_time s (now f) ->
         state (fst (process_frame s f)) = UP)
  /\ (forall (s : SitupCounter) (f : Frame) (raw : Q),
         phase s = RUNNING -> state s = UP -> landmarks f = Some raw ->
         down_trigger f = true ->
         now f - state_entry_time s < MIN_HOLD_TIME ->
         state (fst (process_frame s f)) = DOWN
         /\ rep_count (fst (process_frame s f)) = rep_count s
         /\ reasons (snd (process_frame s f)) = [HeldUpTooBriefly]).
Proof.
  split; [|split].
  - intros s fs Hst Hall. rewrite Hst.
    exact (down_frames_within_hold fs s Hst Hall).
  - intros s f Hph Hst Hup Hhold.
    exact (proj1 (up_frame_after_hold s f Hph Hst Hup Hhold)).
  - intros s f raw Hph Hst Hlm Hdt Hshort.
    pose proof (up_frame_validated s f raw Hph Hst Hlm Hdt) as Hv.
    cbv zeta in Hv.
    assert (Hval : validate_rep (candidate s raw (now f)) = Some HeldUpTooBriefly).
    { unfold validate_rep, check_fails, candidate. cbn [time_in_up].
      apply Qltb_true_iff in Hshort. rewrite Hshort. reflexivity. }
    rewrite Hval in Hv. destruct Hv as (Ha & Hb & Hc & _). auto.
Qed.

Lemma debounce_by_state_occupancy_witness :
  (state (fst (run (started 1 5) [mkFrame (Some 160) (12 # 10)]))
   = state (started 1 5)
   /\ rep_count (fst (run (started 1 5) [mkFrame (Some 160) (12 # 10)]))
      = rep_count (started 1 5)
   /\ state_entry_time (fst (run (started 1 5) [mkFrame (Some 160) (12 # 10)]))
      = state_entry_time (started 1 5))
  /\ state (fst (process_frame (started 1 5) (mkFrame (Some 160) 10))) = UP.
Proof.
  split.
  - apply (proj1 debounce_by_state_occupancy (started 1 5)
             [mkFrame (Some 160) (12 # 10)]).
    + reflexivity.
    + intros f [<-|[]]. qcompute.
  - apply (proj1 (proj2 debounce_by_state_occupancy) (started 1 5)
             (mkFrame (Some 160) 10)); qcompute.
Defined.

(** C1 as the specification words it fails.  The counter has been DOWN
    since clock reading 1; the angle drops below [UP_THRESHOLD] on the
    frame at 10 and is back between the thresholds on the frame at 10.1:
    the triggering predicate held for 0.1 s, less than [MIN_HOLD_TIME],
    and yet the counter is in UP after the window.  When the angle goes
    all the way back above [DOWN_THRESHOLD] at 10.1 instead, the counter
    ends in DOWN, but the transition to UP has fired in between. *)
Lemma debounce_window_counterexample :
  exists (s : SitupCounter) (f r r' : Frame),
    phase s = RUNNING /\ state s = DOWN
    /\ up_trigger f = true /\ up_trigger r = false /\ up_trigger r' = false
    /\ now r - now f < MIN_HOLD_TIME /\ now r' - now f < MIN_HOLD_TIME
    /\ state (fst (run s [f; r])) = UP
    /\ In (Print TransitionToUp) (snd (run s [f; r'])).
Proof.
  exists (started 1 5), (mkFrame (Some 160) 10),
    (mkFrame (Some 120) (101 # 10)), (mkFrame (Some 50) (101 # 10)).
  repeat split; try qcompute.
Qed.

(** C3, no false completion.  Whatever the counter's state and the frame's
    timing, a frame that leaves the cycle's observed range
    (maximum minus minimum angle) below [MIN_RANGE] is not counted: the
    validation block rejects the candidate, the count is unchanged and no
    repetition is announced. *)
Theorem no_false_completion :
  forall (s : SitupCounter) (f : Frame) (raw : Q),
    landmarks f = Some raw ->
    angle_range (candidate s raw (now f)) < MIN_RANGE ->
    (exists v, validate_rep (candidate s raw (now f)) = Some v)
    /\ rep_count (fst (process_frame s f)) = rep_count s
    /\ counted (snd (process_frame s f)) = [].
Proof.
  intros s f raw Hlm Hrange.
  assert (Hrej : exists v, validate_rep (candidate s raw (now f)) = Some v).
  { apply Qltb_true_iff in Hrange. unfold validate_rep.
    destruct (check_fails HeldUpTooBriefly _); [eauto|].
    destruct (check_fails TookTooLong _); [eauto|].
    unfold check_fails at 1. rewrite Hrange. eauto. }
  split; [exact Hrej|].
  destruct (count_needs_validation s f) as [H|(raw' & Hlm' & Hnone)].
  - exact H.
  - rewrite Hlm in Hlm'. inversion Hlm'. subst raw'.
    destruct Hrej as (v & Hv). congruence.
Qed.

Lemma no_false_completion_witness :
  (exists v, validate_rep (candidate shallow_rep 55 11) = Some v)
  /\ rep_count (fst (process_frame shallow_rep (mkFrame (Some 55) 11)))
     = rep_count shallow_rep
  /\ counted (snd (process_frame shallow_rep (mkFrame (Some 55) 11))) = [].
Proof.
  apply (no_false_completion shallow_rep (mkFrame (Some 55) 11) 55).
  - reflexivity.
  - qcompute.
Defined.

(** *** What a counter started by [__init__] can reach *)

Lemma time_management_extremes (t : Q) (s : SitupCounter) (out : list Output) :
  min_angle_in_cycle (fst (time_management t s out)) = min_angle_in_cycle s
  /\ max_angle_in_cycle (fst (time_management t s out)) = max_angle_in_cycle s.
Proof.
  unfold time_management.
  repeat match goal with
         | |- context [if ?b then _ else _] => destruct b
         end; simpl; auto.
Qed.

Lemma py_min_le_l (a b : Q) : py_min a b <= a.
Proof.
  unfold py_min. destruct (Qltb b a) eqn:E.
  - apply Qltb_true_iff in E. apply Qlt_le_weak. exact E.
  - apply Qle_refl.
Qed.

Lemma py_min_le_r (a b : Q) : py_min a b <= b.
Proof.
  unfold py_min. destruct (Qltb b a) eqn:E.
  - apply Qle_refl.
  - apply Qltb_false_iff in E. exact E.
Qed.

Lemma py_max_ge_r (a b : Q) : b <= py_max a b.
Proof.
  unfold py_max. destruct (Qltb a b) eqn:E.
  - apply Qle_refl.
  - apply Qltb_false_iff in E. exact E.
Qed.

Lemma process_frame_bent (s : SitupCounter) (f : Frame) :
  bent_in_up s -> bent_in_up (fst (process_frame s f)).
Proof.
  intros Hb. unfold process_frame.
  destruct (phase s); [|exact Hb].
  unfold show_running_test.
  destruct (landmarks f) as [raw|].
  - set (a := 180 - raw + 40).
    set (mn := py_min (min_angle_in_cycle s) a).
    set (mx := py_max (max_angle_in_cycle s) a).
    pose proof (hold_tracking_keeps a mn mx (now f) s) as H2.
    cbv zeta in H2. destruct H2 as (H2a & H2b & H2c & _).
    match type of H2a with state ?x = _ => set (s2 := x) in * end.
    assert (Hmin2 : min_angle_in_cycle s2 = mn).
    { subst s2. destruct (Qltb DOWN_THRESHOLD a);
        [destruct (down_hold_start _)|]; reflexivity. }
    rewrite H2a.
    destruct (state s) eqn:Hst.
    + destruct (Qltb a UP_THRESHOLD) eqn:Ea.
      * destruct (Qltb (down_hold_time s2 (now f)) MIN_HOLD_TIME).
        -- pose proof (validation_voice_keeps HoldDownLonger (now f) s2) as Hv.
           simpl in Hv.
           destruct (validation_voice HoldDownLonger (now f) s2) as [s3 said].
           simpl in *. destruct Hv as (Ha & _). intros Hup. congruence.
        -- intros _.
           destruct (time_management_extremes (now f)
                       (enter_state UP (now f) s2) [Print TransitionToUp])
             as (Hm & _).
           rewrite Hm. cbn [enter_state min_angle_in_cycle]. rewrite Hmin2.
           apply Qltb_true_iff in Ea.
           apply Qle_lt_trans with a; [apply py_min_le_r|exact Ea].
      * intros Hup.
        destruct (time_management_keeps (now f) s2 []) as (Ha & _).
        cbv zeta in Ha. congruence.
    + destruct (Qltb DOWN_THRESHOLD a).
      * destruct (validate_rep _) as [v|].
        -- unfold reject_rep.
           destruct (validation_voice (Feedback v) (now f) s2) as [s3 said].
           intros Hup. discriminate Hup.
        -- intros Hup.
           match type of Hup with
           | state (fst (time_management ?t ?x ?o)) = _ =>
               destruct (time_management_keeps t x o) as (Ha & _)
           end.
           cbv zeta in Ha. rewrite Ha in Hup. discriminate Hup.
      * intros _.
        destruct (time_management_extremes (now f) s2 []) as (Hm & _).
        rewrite Hm, Hmin2.
        apply Qle_lt_trans with (min_angle_in_cycle s);
          [apply py_min_le_l|apply Hb; exact Hst].
  - destruct (Qltb 3 _); exact Hb.
Qed.

Lemma run_bent (fs : list Frame) :
  forall s : SitupCounter, bent_in_up s -> bent_in_up (fst (run s fs)).
Proof.
  induction fs as [|f fs IH]; intros s Hb; [exact Hb|].
  rewrite run_cons. apply IH. apply process_frame_bent. exact Hb.
Qed.

(** On a counter that [__init__] created, a candidate the validation
    block sees has a range above 90 degrees: the three angle checks pass
    and at most one of the two time checks fails. *)
Lemma reachable_candidate_checks :
  forall (t0 t_go : Q) (fs : list Frame) (f : Frame) (raw : Q),
    let s := fst (run (started t0 t_go) fs) in
    state s = UP -> landmarks f = Some raw -> down_trigger f = true ->
    let c := candidate s raw (now f) in
    check_fails InsufficientRange c = false
    /\ check_fails NotBentEnough c = false
    /\ check_fails NotLyingFlat c = false
    /\ (length (failing_checks c) <= 1)%nat.
Proof.
  intros t0 t_go fs f raw s Hst Hlm Hdt c.
  assert (Hb : bent_in_up s).
  { apply run_bent. intros H. discriminate H. }
  specialize (Hb Hst).
  unfold down_trigger in Hdt. rewrite Hlm in Hdt. apply Qltb_true_iff in Hdt.
  pose proof (py_min_le_l (min_angle_in_cycle s) (transformed raw)) as Hmn.
  pose proof (py_max_ge_r (max_angle_in_cycle s) (transformed raw)) as Hmx.
  unfold UP_THRESHOLD, DOWN_THRESHOLD in *.
  assert (H3 : check_fails InsufficientRange c = false).
  { apply Qltb_false_iff. subst c. unfold candidate. cbn [angle_range].
    unfold MIN_RANGE. lra. }
  assert (H4 : check_fails NotBentEnough c = false).
  { unfold check_fails.
    destruct (Qle_bool UP_THRESHOLD (min_angle c)) eqn:E; [|reflexivity].
    apply Qle_bool_iff in E. subst c. unfold candidate, UP_THRESHOLD in E.
    cbn [min_angle] in E. lra. }
  assert (H5 : check_fails NotLyingFlat c = false).
  { apply Qltb_false_iff. subst c. unfold candidate, DOWN_THRESHOLD.
    cbn [max_angle]. lra. }
  repeat split; auto.
  unfold failing_checks, all_checks. cbn [filter]. rewrite H3, H4, H5.
  destruct (check_fails HeldUpTooBriefly c) eqn:E1;
    destruct (check_fails TookTooLong c) eqn:E2; cbn [length]; try lia.
  exfalso. unfold check_fails in E1, E2.
  apply Qltb_true_iff in E1, E2. unfold MIN_HOLD_TIME, MAX_REP_TIME in *. lra.
Qed.

(** X1.  A counter that [__init__] created and that has processed any
    frames is in UP only after an angle below [UP_THRESHOLD], and the
    validation block only runs on an angle above [DOWN_THRESHOLD]: the
    cycle's range then exceeds 90 degrees.  So on such a counter the range
    check and the two angle checks never fail, and at most one check (hold
    time or time budget) fails on any candidate. *)
Theorem one_violation_at_a_time :
  forall (t0 t_go : Q) (fs : list Frame) (f : Frame) (raw : Q),
    let s := fst (run (started t0 t_go) fs) in
    state s = UP -> landmarks f = Some raw -> down_trigger f = true ->
    let c := candidate s raw (now f) in
    check_fails InsufficientRange c = false
    /\ check_fails NotBentEnough c = false
    /\ check_fails NotLyingFlat c = false
    /\ (length (failing_checks c) <= 1)%nat.
Proof.
  intros t0 t_go fs f raw s Hst Hlm Hdt c.
  exact (reachable_candidate_checks t0 t_go fs f raw Hst Hlm Hdt).
Qed.



Lemma one_violation_at_a_time_witness :
  check_fails InsufficientRange
    (candidate (fst (run (started 1 5) [mkFrame (Some 160) 10])) 50 11) = false
  /\ check_fails NotBentEnough
       (candidate (fst (run (started 1 5) [mkFrame (Some 160) 10])) 50 11) = false
  /\ check_fails NotLyingFlat
       (candidate (fst (run (started 1 5) [mkFrame (Some 160) 10])) 50 11) = false
  /\ le (length (failing_checks
                    (candidate (fst (run (started 1 5) [mkFrame (Some 160) 10]))
                       50 11)))
        1.
Proof.
  apply (one_violation_at_a_time 1 5 [mkFrame (Some 160) 10]
           (mkFrame (Some 50) 11) 50); reflexivity.
Defined.

(** *** The pace of a test, ratings and announcements *)

Lemma time_management_settings (t : Q) (s : SitupCounter) (out : list Output) :
  test_duration (fst (time_management t s out)) = test_duration s
  /\ start_time (fst (time_management t s out)) = start_time s.
Proof.
  unfold time_management.
  repeat match goal with
         | |- context [if ?b then _ else _] => destruct b
         end; simpl; auto.
Qed.

Lemma py_max_zero_pos (x : Q) : ~ py_max 0 x <= 0 -> 0 < x.
Proof.
  unfold py_max. destruct (Qltb 0 x) eqn:E.
  - intros _. apply Qltb_true_iff. exact E.
  - intros H. exfalso. apply H. apply Qle_refl.
Qed.

(** The time management ends the test exactly when the clock has reached
    [start_time + test_duration]. *)
Lemma time_management_phase (t : Q) (s : SitupCounter) (out : list Output) :
  phase s = RUNNING ->
  (phase (fst (time_management t s out)) = RUNNING
   /\ t - start_time s < test_duration s)
  \/ (phase (fst (time_management t s out)) = COMPLETE
      /\ test_duration s <= t - start_time s).
Proof.
  intros Hph. unfold time_management.
  set (remaining := py_max 0 (test_duration s - (t - start_time s))).
  destruct (Qle_bool remaining 0) eqn:E.
  - right. split.
    + repeat match goal with
             | |- context [if ?b then _ else _] => destruct b
             end; reflexivity.
    + apply Qle_bool_iff in E. subst remaining.
      destruct (Qlt_le_dec (t - start_time s) (test_duration s)) as [Hlt|Hle];
        [|exact Hle].
      exfalso. unfold py_max in E.
      destruct (Qltb 0 (test_duration s - (t - start_time s))) eqn:E2.
      * lra.
      * apply Qltb_false_iff in E2. lra.
  - left. split.
    + repeat match goal with
             | |- context [if ?b then _ else _] => destruct b
             end; simpl; exact Hph.
    + assert (Hn : ~ remaining <= 0).
      { intros H. apply Qle_bool_iff in H. congruence. }
      apply py_max_zero_pos in Hn. lra.
Qed.

Lemma hold_tracking_settings (a mn mx t : Q) (s : SitupCounter) :
  let s2 :=
    if Qltb DOWN_THRESHOLD a
    then match down_hold_start (track_angle a mn mx s) with
         | None => set_down_hold_start (Some t) (track_angle a mn mx s)
         | Some _ => track_angle a mn mx s
         end
    else set_down_hold_start None (track_angle a mn mx s) in
  test_duration s2 = test_duration s /\ start_time s2 = start_time s
  /\ phase s2 = phase s.
Proof.
  destruct (Qltb DOWN_THRESHOLD a); [destruct (down_hold_start _)|];
    simpl; auto.
Qed.

Lemma validation_voice_settings (p : Prompt) (t : Q) (s : SitupCounter) :
  test_duration (fst (validation_voice p t s)) = test_duration s
  /\ start_time (fst (validation_voice p t s)) = start_time s
  /\ phase (fst (validation_voice p t s)) = phase s.
Proof.
  unfold validation_voice. destruct (Qltb _ _); simpl; auto.
Qed.

Lemma process_frame_step (s : SitupCounter) (f : Frame) :
  let s' := fst (process_frame s f) in
  test_duration s' = test_duration s /\ start_time s' = start_time s
  /\ (phase s = COMPLETE -> phase s' = COMPLETE)
  /\ Step s f s' (snd (process_frame s f)).
Proof.
  unfold process_frame.
  destruct (phase s) eqn:Hph;
    [|simpl; repeat split; auto; apply Stay; reflexivity].
  unfold show_running_test.
  destruct (landmarks f) as [raw|].
  2:{ destruct (Qltb 3 _); simpl; repeat split; auto; try discriminate;
      apply Stay; reflexivity. }
  set (a := 180 - raw + 40).
  set (mn := py_min (min_angle_in_cycle s) a).
  set (mx := py_max (max_angle_in_cycle s) a).
  pose proof (hold_tracking_keeps a mn mx (now f) s) as H2.
  pose proof (hold_tracking_settings a mn mx (now f) s) as G2.
  cbv zeta in H2, G2. destruct H2 as (H2a & H2b & H2c & _).
  destruct G2 as (G2a & G2b & G2c).
  match type of H2a with state ?x = _ => set (s2 := x) in * end.
  assert (Hd : down_hold_time s2 (now f) = down_hold_time s (now f)).
  { unfold down_hold_time. rewrite H2c. reflexivity. }
  rewrite H2a.
  destruct (state s) eqn:Hst.
  - destruct (Qltb a UP_THRESHOLD).
    + destruct (Qltb (down_hold_time s2 (now f)) MIN_HOLD_TIME) eqn:Eh.
      * pose proof (validation_voice_keeps HoldDownLonger (now f) s2) as Hv.
        pose proof (validation_voice_settings HoldDownLonger (now f) s2) as Gv.
        cbv zeta in Hv.
        destruct (validation_voice HoldDownLonger (now f) s2) as [s3 said].
        cbn [fst snd] in *. destruct Hv as (Ha & Hb & Hc & _ & Ho).
        destruct Gv as (Ga & Gb & Gc).
        repeat split; try congruence.
        apply Stay; try congruence. exact Ho.
      * match goal with
        | |- context [time_management ?t ?x ?o] =>
            pose proof (time_management_keeps t x o) as Ht;
            pose proof (time_management_settings t x o) as Gt;
            pose proof (time_management_phase t x o) as Pt;
            pose proof (time_management_output t x o) as Ot
        end.
        cbv zeta in Ht. cbn [enter_state state rep_count state_entry_time
                              test_duration start_time phase] in Ht, Gt, Pt.
        destruct Ht as (Ha & Hb & Hc). destruct Gt as (Ga & Gb).
        destruct Ot as (_ & Ot). cbn [counted] in Ot.
        repeat split; try congruence.
        apply GoUp; try congruence.
        -- rewrite <- Hd. apply Qltb_false_iff. exact Eh.
        -- intros Hr. destruct Pt as [(_ & Hlt)|(Hc' & _)];
             [congruence| |congruence].
           rewrite <- G2a, <- G2b. exact Hlt.
    + pose proof (time_management_keeps (now f) s2 []) as Ht.
      pose proof (time_management_settings (now f) s2 []) as Gt.
      pose proof (time_management_output (now f) s2 []) as Ot.
      cbv zeta in Ht. destruct Ht as (Ha & Hb & Hc). destruct Gt as (Ga & Gb).
      destruct Ot as (_ & Ot). cbn [counted] in Ot.
      repeat split; try congruence.
      apply Stay; congruence.
  - destruct (Qltb DOWN_THRESHOLD a).
    + rewrite H2c.
      destruct (validate_rep _) as [v|] eqn:Hval.
      * unfold reject_rep.
        pose proof (validation_voice_keeps (Feedback v) (now f) s2) as Hv.
        pose proof (validation_voice_settings (Feedback v) (now f) s2) as Gv.
        cbv zeta in Hv.
        destruct (validation_voice (Feedback v) (now f) s2) as [s3 said].
        cbn [fst snd] in *. destruct Hv as (Ha & Hb & Hc & _ & Ho).
        destruct Gv as (Ga & Gb & Gc).
        cbn [reset_cycle_extremes enter_state test_duration start_time phase].
        repeat split; try congruence.
        apply Rejected; cbn [reset_cycle_extremes enter_state state rep_count
                               state_entry_time phase counted]; congruence.
      * match goal with
        | |- context [time_management ?t ?x ?o] =>
            pose proof (time_management_keeps t x o) as Ht;
            pose proof (time_management_settings t x o) as Gt;
            pose proof (time_management_output t x o) as Ot
        end.
        cbv zeta in Ht.
        cbn [reset_cycle_extremes set_rep_count enter_state state rep_count
               state_entry_time test_duration start_time phase] in Ht, Gt.
        destruct Ht as (Ha & Hb & Hc). destruct Gt as (Ga & Gb).
        destruct Ot as (_ & Ot). cbn [counted] in Ot.
        repeat split; try congruence.
        unfold validate_rep in Hval.
        destruct (check_fails HeldUpTooBriefly _) eqn:E1; [discriminate|].
        destruct (check_fails TookTooLong _) eqn:E2; [discriminate|].
        unfold check_fails in E1, E2. cbn [time_in_up] in E1, E2.
        apply Qltb_false_iff in E1, E2.
        apply Counted; try congruence.
    + pose proof (time_management_keeps (now f) s2 []) as Ht.
      pose proof (time_management_settings (now f) s2 []) as Gt.
      pose proof (time_management_output (now f) s2 []) as Ot.
      cbv zeta in Ht. destruct Ht as (Ha & Hb & Hc). destruct Gt as (Ga & Gb).
      destruct Ot as (_ & Ot). cbn [counted] in Ot.
      repeat split; try congruence.
      apply Stay; congruence.
Qed.

(** The pace of the counter is kept by every frame whose clock reading
    does not go back. *)
Lemma paced_step (t : Q) (s : SitupCounter) (f : Frame) :
  paced t s -> t <= now f -> paced (now f) (fst (process_frame s f)).
Proof.
  intros (D & T & R & M) Hclock.
  destruct (process_frame_step s f) as (Hd & Hs & Hc & Hstep).
  set (s' := fst (process_frame s f)) in *.
  unfold paced. rewrite Hd, Hs.
  split; [exact D|]. split; [lra|].
  destruct Hstep as [Ha Hb He _|Hph Hst Ha Hb He Hh Hr _
                    |Hph Hst Ha Hb He Hp' _|Hph Hst Ha Hb He Hlo Hhi _].
  - rewrite Ha, Hb, He. split; [exact R|].
    destruct (state s); [exact M|].
    destruct M as (M1 & M2). split; [lra|].
    intros Hr. apply M2. destruct (phase s); [reflexivity|].
    rewrite (Hc eq_refl) in Hr. discriminate Hr.
  - rewrite Ha, Hb, He. split; [exact R|].
    rewrite Hst in M. split; [apply Qle_refl|].
    intros Hr'. specialize (Hr Hr'). rewrite D in Hr. split; [|exact Hr].
    destruct M as [M|M].
    + rewrite M. unfold inject_Z. lra.
    + unfold down_hold_time, MIN_HOLD_TIME in Hh.
      destruct (Qeq_bool (state_entry_time s) 0); lra.
  - rewrite Ha, Hb, He. split; [exact R|].
    rewrite Hst in M. destruct M as (M1 & M2).
    destruct (M2 Hph) as (M3 & M4). right. lra.
  - rewrite Ha, Hb, He. rewrite Hst in M. destruct M as (M1 & M2).
    destruct (M2 Hph) as (M3 & M4).
    unfold MIN_HOLD_TIME in Hlo.
    assert (Hlt : (rep_count s < 50)%Z).
    { rewrite Zlt_Qlt. change (inject_Z 50) with 50. lra. }
    split; [lia|]. right. rewrite inject_Z_plus.
    change (inject_Z 1) with 1. lra.
Qed.

Lemma paced_run (fs : list Frame) :
  forall (t : Q) (s : SitupCounter),
    paced t s -> clock_from t fs ->
    (rep_count (fst (run s fs)) <= 50)%Z.
Proof.
  induction fs as [|f fs IH]; intros t s Hp Hc.
  - simpl. destruct Hp as (_ & _ & R & _). lia.
  - rewrite run_cons. destruct Hc as (Hc1 & Hc2).
    apply (IH (now f)); [|exact Hc2].
    apply paced_step with t; assumption.
Qed.

Lemma started_paced (t0 t_go : Q) : paced t_go (started t0 t_go).
Proof.
  unfold paced, started.
  cbn [test_duration start_time rep_count state state_entry_time phase].
  split; [reflexivity|]. split; [apply Qle_refl|]. split; [lia|].
  left. reflexivity.
Qed.

(** X7.  A counter started by the countdown at [t_go] counts at most 50
    repetitions, whatever the frames, as long as their clock readings
    start at [t_go] or later and never go back: a transition to UP needs
    0.3 s in DOWN, a count needs 0.3 s in UP, and the test is over 30 s
    after [t_go]. *)
Theorem at_most_fifty_reps :
  forall (t0 t_go : Q) (fs : list Frame),
    clock_from t_go fs ->
    (rep_count (fst (run (started t0 t_go) fs)) <= 50)%Z.
Proof.
  intros t0 t_go fs Hc.
  apply (paced_run fs t_go); [apply started_paced|exact Hc].
Qed.

(** The bound is reached by fifty repetitions of 0.6 s each. *)
Lemma at_most_fifty_reps_witness :
  clock_from 2 (brisk_reps 2 50)
  /\ rep_count (fst (run (started 1 2) (brisk_reps 2 50))) = 50%Z
  /\ (rep_count (fst (run (started 1 2) (brisk_reps 2 50))) <= 50)%Z.
Proof.
  assert (Hc : clock_from 2 (brisk_reps 2 50)).
  { vm_compute. repeat (split; [discriminate|]). exact I. }
  split; [exact Hc|]. split; [vm_compute; reflexivity|].
  apply (at_most_fifty_reps 1 2 (brisk_reps 2 50) Hc).
Defined.

Lemma rate_monotone (th : Standard) (reps1 reps2 : Z) :
  (reps1 <= reps2)%Z ->
  (rating_rank (rate reps1 th) <= rating_rank (rate reps2 th))%Z.
Proof.
  intros H. unfold rate.
  repeat match goal with
         | |- context [(?a <=? ?b)%Z] => destruct (Z.leb_spec a b)
         end; cbn [rating_rank]; lia.
Qed.

Lemma rating_defined (reps : Z) (age_group gender : string) :
  exists th,
    get_age_based_rating reps age_group gender = Some (rate reps th)
    /\ (forall reps', get_age_based_rating reps' age_group gender
                      = Some (rate reps' th))
    /\ (In (age_group, gender)
          [("16-25 years", "Male"); ("26-35 years", "Male");
           ("16-25 years", "Female")]%string ->
        (50 < excellent th)%Z).
Proof.
  unfold get_age_based_rating.
  destruct (String.eqb gender "Male") eqn:Eg.
  - apply String.eqb_eq in Eg. subst gender.
    change (dict_get "16-25 years" male_standards)
      with (Some (mkStandard 60 50 40 30)).
    cbv zeta.
    destruct (dict_get age_group male_standards) as [th|] eqn:Ed.
    + exists th. repeat split.
      intros [H|[H|[H|[]]]]; inversion H; subst age_group;
        vm_compute in Ed; inversion Ed; reflexivity.
    + exists (mkStandard 60 50 40 30). repeat split.
  - change (dict_get "16-25 years" female_standards)
      with (Some (mkStandard 55 45 35 25)).
    cbv zeta.
    destruct (dict_get age_group female_standards) as [th|] eqn:Ed.
    + exists th. repeat split.
      intros [H|[H|[H|[]]]]; inversion H; subst age_group gender;
        try discriminate Eg;
        vm_compute in Ed; inversion Ed; reflexivity.
    + exists (mkStandard 55 45 35 25). repeat split.
Qed.

Lemma selected_profile_rating (reps : Z) (age gender : string) :
  In (age, gender)
    [("16-25 years", "Male"); ("26-35 years", "Male");
     ("16-25 years", "Female")]%string ->
  show_results_rating reps (Some age) (Some gender)
  = get_age_based_rating reps age gender.
Proof.
  intros [H|[H|[H|[]]]]; inversion H; subst; reflexivity.
Qed.

(** X8.  The best rating is out of reach for three of the groups of the
    athlete-information screen: for men of 16-25 and 26-35 years and
    women of 16-25 years the EXCELLENT threshold (60, 55, 55) is above the
    50 repetitions the counter can count in a test, so the rating the
    results screen gives the test's count is never EXCELLENT. *)
Theorem top_rating_out_of_reach :
  forall (t0 t_go : Q) (fs : list Frame) (age gender : string),
    clock_from t_go fs ->
    In (age, gender)
      [("16-25 years", "Male"); ("26-35 years", "Male");
       ("16-25 years", "Female")]%string ->
    exists r,
      show_results_rating (rep_count (fst (run (started t0 t_go) fs)))
        (Some age) (Some gender) = Some r
      /\ r <> EXCELLENT.
Proof.
  intros t0 t_go fs age gender Hc Hin.
  pose proof (paced_run fs t_go (started t0 t_go) (started_paced t0 t_go) Hc)
    as Hle.
  set (n := rep_count (fst (run (started t0 t_go) fs))) in *.
  rewrite (selected_profile_rating n age gender Hin).
  destruct (rating_defined n age gender) as (th & Hr & _ & Hth).
  specialize (Hth Hin).
  exists (rate n th). split; [exact Hr|].
  unfold rate. destruct (Z.leb_spec (excellent th) n); [lia|].
  repeat match goal with
         | |- context [(?a <=? ?b)%Z] => destruct (a <=? b)%Z
         end; discriminate.
Qed.

Lemma top_rating_out_of_reach_witness :
  exists r,
    show_results_rating
      (rep_count (fst (run (started 1 2) (brisk_reps 2 50))))
      (Some "16-25 years"%string) (Some "Male"%string) = Some r
    /\ r <> EXCELLENT.
Proof.
  apply (top_rating_out_of_reach 1 2 (brisk_reps 2 50)).
  - vm_compute. repeat (split; [discriminate|]). exact I.
  - left. reflexivity.
Defined.

Lemma default_rating_monotone (reps1 reps2 : Z) :
  (reps1 <= reps2)%Z ->
  (rating_rank (default_rating reps1) <= rating_rank (default_rating reps2))%Z.
Proof.
  intros H. unfold default_rating.
  repeat match goal with
         | |- context [(?a <=? ?b)%Z] => destruct (Z.leb_spec a b)
         end; cbn [rating_rank]; lia.
Qed.

(** X9.  The results screen always has a rating to show, and more
    repetitions never give a worse one: with or without age and gender,
    for every age group and gender string (an unknown age group is rated
    as 16-25 years, so there is no [KeyError]; any gender but "Male" is
    rated by the female table). *)
Theorem rating_monotone_in_reps :
  forall (reps1 reps2 : Z) (age gender : option string),
    (reps1 <= reps2)%Z ->
    exists r1 r2,
      show_results_rating reps1 age gender = Some r1
      /\ show_results_rating reps2 age gender = Some r2
      /\ (rating_rank r1 <= rating_rank r2)%Z.
Proof.
  intros reps1 reps2 age gender H.
  assert (Hd : exists r1 r2,
             Some (default_rating reps1) = Some r1
             /\ Some (default_rating reps2) = Some r2
             /\ (rating_rank r1 <= rating_rank r2)%Z).
  { exists (default_rating reps1), (default_rating reps2).
    split; [reflexivity|]. split; [reflexivity|].
    apply default_rating_monotone. exact H. }
  unfold show_results_rating.
  destruct age as [a|]; [|exact Hd].
  destruct gender as [g|]; [|exact Hd].
  destruct (truthy (Some a) && truthy (Some g)); [|exact Hd].
  destruct (rating_defined reps1 a g) as (th & H1 & H2 & _).
  exists (rate reps1 th), (rate reps2 th).
  split; [exact H1|]. split; [apply H2|]. apply rate_monotone. exact H.
Qed.

Lemma rating_monotone_in_reps_witness :
  exists r1 r2,
    show_results_rating 29 (Some "36-45 years"%string) (Some "Female"%string)
    = Some r1
    /\ show_results_rating 41 (Some "36-45 years"%string)
         (Some "Female"%string) = Some r2
    /\ (rating_rank r1 <= rating_rank r2)%Z.
Proof.
  apply (rating_monotone_in_reps 29 41 (Some "36-45 years"%string)
           (Some "Female"%string)).
  lia.
Defined.

Lemma run_cons_out (s : SitupCounter) (f : Frame) (fs : list Frame) :
  snd (run s (f :: fs))
  = snd (process_frame s f) ++ snd (run (fst (process_frame s f)) fs).
Proof.
  simpl. destruct (process_frame s f) as [s1 out1]. simpl.
  destruct (run s1 fs) as [s2 out2]. reflexivity.
Qed.

Lemma counted_app (a b : list Output) :
  counted (a ++ b) = counted a ++ counted b.
Proof.
  induction a as [|o a IH]; [reflexivity|].
  destruct o as [[| |v|n]|q]; simpl; rewrite ?IH; reflexivity.
Qed.

Lemma process_frame_counts (s : SitupCounter) (f : Frame) :
  (rep_count (fst (process_frame s f)) = rep_count s
   /\ counted (snd (process_frame s f)) = [])
  \/ (rep_count (fst (process_frame s f)) = (rep_count s + 1)%Z
      /\ counted (snd (process_frame s f)) = [(rep_count s + 1)%Z]).
Proof.
  destruct (process_frame_step s f) as (_ & _ & _ & Hstep).
  destruct Hstep; auto.
Qed.


Lemma unseen_frame (s : SitupCounter) (f : Frame) :
  landmarks f = None ->
  let s' := fst (process_frame s f) in
  phase s' = phase s /\ state s' = state s /\ rep_count s' = rep_count s
  /\ start_time s' = start_time s
  /\ (forall o, In o (snd (process_frame s f)) -> o = Speak StayInView).
Proof.
  intros Hl. unfold process_frame.
  destruct (phase s) eqn:Hph; [|simpl; repeat split; auto; intros o []].
  unfold show_running_test. rewrite Hl.
  destruct (Qltb 3 _); cbn [fst snd]; repeat split; auto.
  - intros o [<-|[]]. reflexivity.
  - intros o [].
Qed.

(** X11.  While no body is found in the frames, the test does not end:
    the branch for a missing body returns before the time management, so
    over any such frames, however late their clock readings, the phase,
    the state and the count stay as they were and all the counter says is
    the warning to stay in view. *)
Theorem unseen_athlete_never_times_out :
  forall (fs : list Frame) (s : SitupCounter),
    (forall f, In f fs -> landmarks f = None) ->
    phase (fst (run s fs)) = phase s
    /\ state (fst (run s fs)) = state s
    /\ rep_count (fst (run s fs)) = rep_count s
    /\ (forall o, In o (snd (run s fs)) -> o = Speak StayInView).
Proof.
  induction fs as [|f fs IH]; intros s Hall.
  - simpl. repeat split; auto. intros o [].
  - rewrite run_cons, run_cons_out.
    destruct (unseen_frame s f (Hall f (or_introl eq_refl)))
      as (H1 & H2 & H3 & _ & H5).
    destruct (IH (fst (process_frame s f))) as (I1 & I2 & I3 & I4).
    { intros g Hg. apply Hall. right. exact Hg. }
    rewrite I1, I2, I3, H1, H2, H3. repeat split; auto.
    intros o Ho. apply in_app_or in Ho. destruct Ho; auto.
Qed.

Lemma unseen_athlete_never_times_out_witness :
  phase (fst (run (started 1 2) [mkFrame None 40; mkFrame None 100])) = RUNNING
  /\ state (fst (run (started 1 2) [mkFrame None 40; mkFrame None 100])) = DOWN
  /\ rep_count (fst (run (started 1 2) [mkFrame None 40; mkFrame None 100]))
     = 0%Z
  /\ (forall o,
         In o (snd (run (started 1 2) [mkFrame None 40; mkFrame None 100])) ->
         o = Speak StayInView).
Proof.
  apply (unseen_athlete_never_times_out
           [mkFrame None 40; mkFrame None 100] (started 1 2)).
  intros f [<-|[<-|[]]]; reflexivity.
Defined.

(** X12.  On the athlete-information screen the key [q] always quits:
    [main] tests it before the menu, so the menu entry "Q = 46-55 years"
    (female) is selected by the capital letter only. *)
Theorem lowercase_q_quits :
  user_info_key (ord "q") = Quit
  /\ forall key : Z,
       user_info_key key = Select "46-55 years" "Female" <-> key = ord "Q".
Proof.
  split; [reflexivity|].
  intros key. split.
  - unfold user_info_key.
    repeat match goal with
           | |- context [(key =? ?c)%Z] =>
               let E := fresh "E" in destruct (Z.eqb_spec key c) as [E|E];
               [try (intros H; discriminate H)|]
           end; cbn [orb]; try (intros H; discriminate H); auto.
  - intros ->. reflexivity.
Qed.

Lemma milestones_said_app (a b : list Output) :
  milestones_said (a ++ b) = milestones_said a ++ milestones_said b.
Proof.
  induction a as [|o a IH]; [reflexivity|].
  destruct o as [p|[| |v|n|m|n]]; simpl; rewrite ?IH; reflexivity.
Qed.

(** The time management announces at most the next milestone. *)
Lemma time_management_milestones
  (k : nat) (t : Q) (s : SitupCounter) (out : list Output) :
  announced_up_to k s ->
  exists d : nat,
    (d <= 1)%nat
    /\ announced_up_to (k + d) (fst (time_management t s out))
    /\ milestones_said (snd (time_management t s out))
       = milestones_said out ++ firstn d (skipn k milestone_order).
Proof.
  intros (Hk & Ha). unfold time_management.
  set (remaining := py_max 0 (test_duration s - (t - start_time s))).
  unfold announced. rewrite Ha.
  assert (H10 : Qle_bool remaining 10 = true -> Qle_bool remaining 15 = true).
  { intros H. apply Qle_bool_iff in H. apply Qle_bool_iff. lra. }
  assert (H5 : Qle_bool remaining 5 = true -> Qle_bool remaining 10 = true).
  { intros H. apply Qle_bool_iff in H. apply Qle_bool_iff. lra. }
  destruct (Qle_bool remaining 15) eqn:E15;
    destruct (Qle_bool remaining 10) eqn:E10;
    destruct (Qle_bool remaining 5) eqn:E5;
    try (specialize (H10 eq_refl); discriminate H10);
    try (specialize (H5 eq_refl); discriminate H5);
    destruct k as [|[|[|[|k]]]]; try lia;
    cbn [firstn skipn milestone_order rev app existsb milestone_eqb
           andb orb negb];
    destruct (Qle_bool remaining 0);
    simpl; rewrite ?milestones_said_app; simpl;
    unfold announced_up_to;
    first
      [ exists 0%nat; simpl; rewrite ?Ha; simpl;
        rewrite ?app_nil_r; rewrite <- ?app_assoc; simpl;
        split; [lia|split; [split; [lia|reflexivity]|reflexivity]]
      | exists 1%nat; simpl; rewrite ?Ha; simpl;
        rewrite ?app_nil_r; rewrite <- ?app_assoc; simpl;
        split; [lia|split; [split; [lia|reflexivity]|reflexivity]] ].
Qed.

Lemma hold_tracking_milestones (a mn mx t : Q) (s : SitupCounter) :
  let s2 :=
    if Qltb DOWN_THRESHOLD a
    then match down_hold_start (track_angle a mn mx s) with
         | None => set_down_hold_start (Some t) (track_angle a mn mx s)
         | Some _ => track_angle a mn mx s
         end
    else set_down_hold_start None (track_angle a mn mx s) in
  milestones_announced s2 = milestones_announced s.
Proof.
  destruct (Qltb DOWN_THRESHOLD a); [destruct (down_hold_start _)|];
    reflexivity.
Qed.

Lemma validation_voice_milestones (p : Prompt) (t : Q) (s : SitupCounter) :
  (forall m, p <> SecondsLeft m) ->
  milestones_announced (fst (validation_voice p t s)) = milestones_announced s
  /\ milestones_said (snd (validation_voice p t s)) = [].
Proof.
  intros Hp. unfold validation_voice. destruct (Qltb _ _); simpl; auto.
  split; [reflexivity|].
  destruct p; try reflexivity. exfalso. exact (Hp m eq_refl).
Qed.

Lemma process_frame_milestones (k : nat) (s : SitupCounter) (f : Frame) :
  announced_up_to k s ->
  exists d : nat,
    (d <= 1)%nat
    /\ announced_up_to (k + d) (fst (process_frame s f))
    /\ milestones_said (snd (process_frame s f))
       = firstn d (skipn k milestone_order).
Proof.
  intros Hk.
  assert (Hstay : forall s', milestones_announced s' = milestones_announced s ->
                             announced_up_to (k + 0) s').
  { intros s' E. rewrite Nat.add_0_r. destruct Hk as (H1 & H2).
    split; [exact H1|congruence]. }
  unfold process_frame.
  destruct (phase s).
  2:{ exists 0%nat. split; [lia|]. split; [apply Hstay|]; reflexivity. }
  unfold show_running_test.
  destruct (landmarks f) as [raw|].
  2:{ exists 0%nat. split; [lia|].
      destruct (Qltb 3 _); (split; [apply Hstay|]; reflexivity). }
  set (a := 180 - raw + 40).
  set (mn := py_min (min_angle_in_cycle s) a).
  set (mx := py_max (max_angle_in_cycle s) a).
  pose proof (hold_tracking_milestones a mn mx (now f) s) as H2.
  cbv zeta in H2.
  match type of H2 with milestones_announced ?x = _ => set (s2 := x) in * end.
  assert (Hk2 : announced_up_to k s2).
  { destruct Hk as (H1 & H3). split; [exact H1|congruence]. }
  assert (Htm : forall sx out,
             milestones_announced sx = milestones_announced s ->
             milestones_said out = [] ->
             exists d : nat,
               (d <= 1)%nat
               /\ announced_up_to (k + d) (fst (time_management (now f) sx out))
               /\ milestones_said (snd (time_management (now f) sx out))
                  = firstn d (skipn k milestone_order)).
  { intros sx out E Eo.
    destruct (time_management_milestones k (now f) sx out) as (d & Hd & Ha & Hs).
    - destruct Hk as (H1 & H3). split; [exact H1|congruence].
    - exists d. rewrite Hs, Eo. auto. }
  assert (Hvv : forall p pr, (forall m, p <> SecondsLeft m) ->
             exists d : nat,
               (d <= 1)%nat
               /\ announced_up_to (k + d)
                    (fst (let (s1, said) := validation_voice p (now f) s2 in
                          (s1, Print pr :: said)))
               /\ milestones_said
                    (snd (let (s1, said) := validation_voice p (now f) s2 in
                          (s1, Print pr :: said)))
                  = firstn d (skipn k milestone_order)).
  { intros p pr Hp.
    destruct (validation_voice_milestones p (now f) s2 Hp) as (Hv1 & Hv2).
    destruct (validation_voice p (now f) s2) as [s3 said].
    cbn [fst snd] in *. exists 0%nat. split; [lia|]. split.
    - apply Hstay. congruence.
    - destruct pr; cbn [milestones_said firstn]; exact Hv2. }
  destruct (state s2).
  - destruct (Qltb a UP_THRESHOLD).
    + destruct (Qltb (down_hold_time s2 (now f)) MIN_HOLD_TIME).
      * apply Hvv. intros m H. discriminate H.
      * apply Htm; [exact H2|reflexivity].
    + apply Htm; [exact H2|reflexivity].
  - destruct (Qltb DOWN_THRESHOLD a).
    + destruct (validate_rep _) as [v|].
      * unfold reject_rep.
        destruct (validation_voice_milestones (Feedback v) (now f) s2)
          as (Hv1 & Hv2); [intros m H; discriminate H|].
        destruct (validation_voice (Feedback v) (now f) s2) as [s3 said].
        cbn [fst snd] in *. exists 0%nat. split; [lia|]. split.
        -- apply Hstay. cbn [reset_cycle_extremes enter_state
                               milestones_announced]. congruence.
        -- cbn [milestones_said firstn]. exact Hv2.
      * apply Htm; [exact H2|reflexivity].
    + apply Htm; [exact H2|reflexivity].
Qed.

Lemma run_milestones (fs : list Frame) :
  forall (k : nat) (s : SitupCounter),
    announced_up_to k s ->
    exists d : nat,
      milestones_said (snd (run s fs)) = firstn d (skipn k milestone_order).
Proof.
  induction fs as [|f fs IH]; intros k s Hk.
  - exists 0%nat. reflexivity.
  - rewrite run_cons_out, milestones_said_app.
    destruct (process_frame_milestones k s f Hk) as (d & Hd & Ha & Hs).
    destruct (IH (k + d)%nat _ Ha) as (d' & Hs').
    rewrite Hs, Hs'. exists (d + d')%nat.
    destruct Hk as (Hk & _).
    destruct k as [|[|[|[|k]]]]; try lia;
      destruct d as [|[|d]]; try lia;
      destruct d' as [|[|[|d']]]; reflexivity.
Qed.

(** X13.  The countdown milestones of a test are spoken in the order 15,
    10, 5 seconds, each at most once: what a counter started by the
    countdown says over any frames is a prefix of that list. *)
Theorem milestones_in_order_once :
  forall (t0 t_go : Q) (fs : list Frame),
  exists n : nat,
    milestones_said (snd (run (started t0 t_go) fs))
    = firstn n milestone_order.
Proof.
  intros t0 t_go fs.
  destruct (run_milestones fs 0 (started t0 t_go)) as (d & Hd).
  - split; [lia|reflexivity].
  - exists d. exact Hd.
Qed.

(** *** The countdown *)

Lemma run_countdown_gone (times : list Q) (c : Countdown) (tg : Q) :
  go_time c = Some tg -> run_countdown c times = (c, []).
Proof.
  intros H. induction times as [|t times IH]; [reflexivity|].
  cbn [run_countdown]. unfold show_countdown. rewrite H, IH. reflexivity.
Qed.

Lemma run_countdown_from (times : list Q) :
  forall (v : nat) (last : Q),
    let r := run_countdown (mkCountdown (Z.of_nat v) last None) times in
    (exists n, snd r = firstn n (count_down_from v))
    /\ forall tg, go_time (fst r) = Some tg ->
                  last + inject_Z (Z.of_nat v) + 1 <= tg
                  /\ snd r = count_down_from v.
Proof.
  induction times as [|t times IH]; intros v last.
  - cbn [run_countdown fst snd go_time]. split.
    + exists 0%nat. reflexivity.
    + intros tg H. discriminate H.
  - cbn [run_countdown]. unfold show_countdown.
    cbn [go_time last_countdown_time countdown_value].
    destruct (Qle_bool 1 (t - last)) eqn:E.
    + apply Qle_bool_iff in E.
      destruct v as [|v].
      * cbn [Z.of_nat Z.ltb Z.compare].
        rewrite (run_countdown_gone times (mkCountdown 0 last (Some t)) t
                   eq_refl).
        cbn [fst snd app go_time]. split.
        -- exists 1%nat. reflexivity.
        -- intros tg H. inversion H. subst tg. split; [|reflexivity].
           change (inject_Z 0) with 0. lra.
      * replace (0 <? Z.of_nat (S v))%Z with true
          by (symmetry; apply Z.ltb_lt; lia).
        replace (Z.of_nat (S v) - 1)%Z with (Z.of_nat v) by lia.
        specialize (IH v t). cbv zeta in IH.
        destruct (run_countdown (mkCountdown (Z.of_nat v) t None) times)
          as [c2 out2].
        cbn [fst snd app] in *. destruct IH as ((n & Hn) & IH2). split.
        -- exists (S n). cbn [count_down_from firstn]. rewrite Hn. reflexivity.
        -- intros tg H. destruct (IH2 tg H) as (H1 & H2). split.
           ++ rewrite Nat2Z.inj_succ. unfold Z.succ. rewrite inject_Z_plus.
              change (inject_Z 1) with 1. lra.
           ++ cbn [count_down_from]. rewrite H2. reflexivity.
    + specialize (IH v last). cbv zeta in IH.
      destruct (run_countdown (mkCountdown (Z.of_nat v) last None) times)
        as [c2 out2].
      cbn [fst snd app] in *. exact IH.
Qed.

(** X27.  The countdown says 3, 2, 1 and "Go", in that order and each
    once, whatever the clock readings of the frames; each prompt waits a
    full second after the one before, so the test starts no earlier than
    four seconds after the countdown began. *)
Theorem countdown_takes_four_seconds :
  forall (t : Q) (times : list Q),
    let r := run_countdown (countdown_entered t) times in
    (exists n, snd r = firstn n [SayNumber 3; SayNumber 2; SayNumber 1; SayGo])
    /\ forall tg, go_time (fst r) = Some tg ->
                  t + 4 <= tg
                  /\ snd r = [SayNumber 3; SayNumber 2; SayNumber 1; SayGo].
Proof.
  intros t times. cbv zeta.
  destruct (run_countdown_from times 3 t) as (H1 & H2).
  split; [exact H1|].
  intros tg H. destruct (H2 tg H) as (H3 & H4). split; [|exact H4].
  change (inject_Z (Z.of_nat 3)) with 3 in H3. lra.
Qed.

(** *** The end of the test *)

Lemma time_management_complete (t : Q) (s : SitupCounter) (out : list Output) :
  test_duration s <= t - start_time s ->
  phase (fst (time_management t s out)) = COMPLETE
  /\ In (Speak (TimeUp (rep_count (fst (time_management t s out)))))
       (snd (time_management t s out)).
Proof.
  intros H. unfold time_management.
  set (remaining := py_max 0 (test_duration s - (t - start_time s))).
  assert (E : Qle_bool remaining 0 = true).
  { apply Qle_bool_iff. subst remaining. unfold py_max.
    destruct (Qltb 0 (test_duration s - (t - start_time s))) eqn:E0.
    - apply Qltb_true_iff in E0. lra.
    - apply Qle_refl. }
  rewrite E.
  repeat match goal with
         | |- context [if ?b then _ else _] => destruct b
         end; cbn [fst snd set_phase announce phase rep_count];
    (split; [reflexivity|apply in_or_app; right; left; reflexivity]).
Qed.

(** X28.  The running test ends on time and not before.  A frame puts the
    counter in the phase COMPLETE only when the clock has reached
    [start_time + test_duration], and then says "Time up" with the final
    count (a repetition counted on that very frame included).  A frame
    with the body in view that comes at or after that time ends the test,
    unless it is a rejected transition or a rejected repetition: those
    return before the time management. *)
Theorem test_ends_on_time :
  forall (s : SitupCounter) (f : Frame),
    phase s = RUNNING ->
    let s' := fst (process_frame s f) in
    let out := snd (process_frame s f) in
    (phase s' = COMPLETE ->
     test_duration s <= now f - start_time s
     /\ In (Speak (TimeUp (rep_count s'))) out)
    /\ (forall raw,
          landmarks f = Some raw ->
          test_duration s <= now f - start_time s ->
          phase s' = COMPLETE
          \/ In (Print UpTransitionRejected) out
          \/ exists v, In (Print (RepRejected v)) out).
Proof.
  intros s f Hph. cbv zeta. unfold process_frame. rewrite Hph.
  unfold show_running_test.
  destruct (landmarks f) as [raw|].
  2:{ split; [|intros raw H; discriminate H].
      destruct (Qltb 3 _); cbn [fst phase set_last_body_warning];
        intros H; congruence. }
  set (a := 180 - raw + 40).
  set (mn := py_min (min_angle_in_cycle s) a).
  set (mx := py_max (max_angle_in_cycle s) a).
  pose proof (hold_tracking_settings a mn mx (now f) s) as G2.
  cbv zeta in G2. destruct G2 as (G2a & G2b & G2c).
  match type of G2a with test_duration ?x = _ => set (s2 := x) in * end.
  assert (Htm : forall sx o,
             test_duration sx = test_duration s ->
             start_time sx = start_time s -> phase sx = RUNNING ->
             (phase (fst (time_management (now f) sx o)) = COMPLETE ->
              test_duration s <= now f - start_time s
              /\ In (Speak (TimeUp (rep_count (fst (time_management (now f) sx o)))))
                   (snd (time_management (now f) sx o)))
             /\ (forall raw0 : Q,
                   Some raw = Some raw0 ->
                   test_duration s <= now f - start_time s ->
                   phase (fst (time_management (now f) sx o)) = COMPLETE
                   \/ In (Print UpTransitionRejected)
                        (snd (time_management (now f) sx o))
                   \/ exists v, In (Print (RepRejected v))
                                  (snd (time_management (now f) sx o)))).
  { intros sx o E1 E2 E3. split.
    - intros Hc.
      destruct (time_management_phase (now f) sx o E3) as [(Hr & _)|(_ & Hle)];
        [congruence|].
      rewrite E1, E2 in Hle. split; [exact Hle|].
      apply time_management_complete. rewrite E1, E2. exact Hle.
    - intros raw0 _ Hle. left.
      apply time_management_complete. rewrite E1, E2. exact Hle. }
  assert (Hvv : forall p pr sx,
             phase sx = RUNNING ->
             (pr = UpTransitionRejected \/ exists v, pr = RepRejected v) ->
             forall g : SitupCounter -> SitupCounter,
               (forall x, phase (g x) = phase x) ->
             (phase (fst (let (s1, said) := validation_voice p (now f) sx in
                          (g s1, Print pr :: said))) = COMPLETE ->
              test_duration s <= now f - start_time s
              /\ In (Speak (TimeUp (rep_count
                      (fst (let (s1, said) := validation_voice p (now f) sx in
                            (g s1, Print pr :: said))))))
                   (snd (let (s1, said) := validation_voice p (now f) sx in
                         (g s1, Print pr :: said))))
             /\ (forall raw0 : Q,
                   Some raw = Some raw0 ->
                   test_duration s <= now f - start_time s ->
                   phase (fst (let (s1, said) := validation_voice p (now f) sx in
                               (g s1, Print pr :: said))) = COMPLETE
                   \/ In (Print UpTransitionRejected)
                        (snd (let (s1, said) := validation_voice p (now f) sx in
                              (g s1, Print pr :: said)))
                   \/ exists v, In (Print (RepRejected v))
                        (snd (let (s1, said) := validation_voice p (now f) sx in
                              (g s1, Print pr :: said))))).
  { intros p pr sx E3 Hpr g Hg.
    pose proof (validation_voice_settings p (now f) sx) as (_ & _ & Gc).
    destruct (validation_voice p (now f) sx) as [s3 said].
    cbn [fst snd] in *. split.
    - intros Hc. rewrite Hg in Hc. congruence.
    - intros raw0 _ _. right.
      destruct Hpr as [->|(v & ->)]; [left|right; exists v]; left; reflexivity. }
  destruct (state s2).
  - destruct (Qltb a UP_THRESHOLD).
    + destruct (Qltb (down_hold_time s2 (now f)) MIN_HOLD_TIME).
      * apply (Hvv HoldDownLonger UpTransitionRejected s2 (eq_trans G2c Hph)
                 (or_introl eq_refl) (fun x => x)).
        intros x. reflexivity.
      * apply Htm; cbn [enter_state test_duration start_time phase]; congruence.
    + apply Htm; congruence.
  - destruct (Qltb DOWN_THRESHOLD a).
    + destruct (validate_rep _) as [v|].
      * unfold reject_rep.
        apply (Hvv (Feedback v) (RepRejected v) s2 (eq_trans G2c Hph)
                 (or_intror (ex_intro _ v eq_refl))
                 (fun x => reset_cycle_extremes (enter_state DOWN (now f) x))).
        intros x. reflexivity.
      * apply Htm;
          cbn [reset_cycle_extremes set_rep_count enter_state test_duration
                 start_time phase]; congruence.
    + apply Htm; congruence.
Qed.

Lemma test_ends_on_time_witness :
  phase (fst (process_frame (started 1 2) (mkFrame (Some 50) 32))) = COMPLETE
  /\ test_duration (started 1 2) <= now (mkFrame (Some 50) 32)
                                     - start_time (started 1 2)
  /\ In (Speak (TimeUp (rep_count
           (fst (process_frame (started 1 2) (mkFrame (Some 50) 32))))))
       (snd (process_frame (started 1 2) (mkFrame (Some 50) 32))).
Proof.
  assert (Hc : phase (fst (process_frame (started 1 2) (mkFrame (Some 50) 32)))
               = COMPLETE) by (vm_compute; reflexivity).
  split; [exact Hc|].
  exact (proj1 (test_ends_on_time (started 1 2) (mkFrame (Some 50) 32) eq_refl)
           Hc).
Defined.

End SitupsTheory.

(** ** Broad jump: calibration, smoothing, the trial, plausibility gate,
       summary *)

Module BroadJumpTheory.
Import BroadJump.
Open Scope R_scope.

Ltac rdecide :=
  repeat match goal with
    | |- context [Rabs ?v] =>
        first [ rewrite (Rabs_right v) by Lra.lra
              | rewrite (Rabs_left v) by Lra.lra ]
    | |- context [Rlt_dec ?a ?b] =>
        destruct (Rlt_dec a b); [try (exfalso; Lra.lra) | try (exfalso; Lra.lra)]
    | |- context [Rle_dec ?a ?b] =>
        destruct (Rle_dec a b); [try (exfalso; Lra.lra) | try (exfalso; Lra.lra)]
    end.

Ltac zdecide :=
  repeat match goal with
    | |- context [(?a <=? ?b)%Z] =>
        let v := eval vm_compute in (a <=? b)%Z in
        change (a <=? b)%Z with v
    end.

(** *** The pixel distance between two clicks *)

Lemma px_distance_nonneg (p0 p1 : Pixel) : 0 <= px_distance_between p0 p1.
Proof. unfold px_distance_between. apply sqrt_pos. Qed.

Lemma sum_squares_zero (a b : Z) :
  (a * a + b * b = 0)%Z -> a = 0%Z /\ b = 0%Z.
Proof.
  intros H. pose proof (Z.square_nonneg a). pose proof (Z.square_nonneg b).
  assert (Ha : (a * a = 0)%Z) by lia.
  assert (Hb : (b * b = 0)%Z) by lia.
  apply Z.mul_eq_0 in Ha, Hb. lia.
Qed.

Lemma px_distance_zero_iff (p0 p1 : Pixel) :
  px_distance_between p0 p1 = 0 <-> p0 = p1.
Proof.
  unfold px_distance_between. destruct p0 as [x0 y0], p1 as [x1 y1].
  cbn [fst snd]. rewrite !Z.pow_2_r. split.
  - intros H.
    destruct (Z.eq_dec ((x1 - x0) * (x1 - x0) + (y1 - y0) * (y1 - y0)) 0)
      as [E|E].
    + apply sum_squares_zero in E. f_equal; lia.
    + exfalso.
      pose proof (Z.square_nonneg (x1 - x0)).
      pose proof (Z.square_nonneg (y1 - y0)).
      assert (Hp : (0 < (x1 - x0) * (x1 - x0) + (y1 - y0) * (y1 - y0))%Z)
        by lia.
      apply IZR_lt in Hp. apply sqrt_lt_R0 in Hp. rewrite H in Hp. Lra.lra.
  - intros H. inversion H. subst.
    replace ((x1 - x1) * (x1 - x1) + (y1 - y1) * (y1 - y1))%Z with 0%Z by ring.
    apply sqrt_0.
Qed.

Lemma px_distance_pos (p0 p1 : Pixel) :
  p0 <> p1 -> 0 < px_distance_between p0 p1.
Proof.
  intros Hne. destruct (px_distance_nonneg p0 p1) as [H|H]; [exact H|].
  exfalso. apply Hne. apply px_distance_zero_iff. symmetry. exact H.
Qed.

Lemma px_distance_horizontal (x0 x1 y : Z) :
  (x0 <= x1)%Z -> px_distance_between (x0, y) (x1, y) = IZR (x1 - x0).
Proof.
  intros H. unfold px_distance_between. cbn [fst snd].
  replace ((x1 - x0) ^ 2 + (y - y) ^ 2)%Z with ((x1 - x0) * (x1 - x0))%Z by ring.
  rewrite mult_IZR. apply sqrt_square. apply IZR_le. lia.
Qed.

(** *** Floating-point values *)

Lemma flt_finite (x y : R) : flt x y = true <-> x < y.
Proof.
  cbn [flt]. destruct (Rlt_dec x y); split; intros H;
    try reflexivity; try assumption; try discriminate H; contradiction.
Qed.

Lemma fle_finite (x y : R) : fle x y = true <-> x <= y.
Proof.
  cbn [fle]. destruct (Rle_dec x y); split; intros H;
    try reflexivity; try assumption; try discriminate H; contradiction.
Qed.

Lemma fdiv_finite (x y : R) : y <> 0 -> fdiv x y = Finite (x / y).
Proof.
  intros Hy. cbn [fdiv]. destruct (Req_dec_T y 0); [contradiction|reflexivity].
Qed.

Lemma fdiv_zero_zero : fdiv 0 0 = NaN.
Proof.
  cbn [fdiv]. destruct (Req_dec_T 0 0) as [_|H]; [|exfalso; apply H; reflexivity].
  destruct (Rlt_dec 0 0); [Lra.lra|reflexivity].
Qed.

(** *** Calibration *)

Lemma calibrate_clicked (p0 p1 : Pixel) (d : R) :
  0 < d ->
  calibrate_system (clicked p0 p1 d)
  = Some (Finite (px_distance_between p0 p1 / d), fst p0).
Proof.
  intros Hd. unfold calibrate_system, clicked, typed.
  cbn [first_frame_read clicks entered].
  destruct (fle d 0) eqn:E; [apply fle_finite in E; Lra.lra|].
  rewrite fdiv_finite by Lra.lra. reflexivity.
Qed.


Lemma calibrate_500_px_per_meter :
  calibrate_system (clicked (100, 300)%Z (600, 300)%Z 1)
  = Some (Finite 500, 100%Z).
Proof.
  rewrite calibrate_clicked by Lra.lra.
  rewrite px_distance_horizontal by lia.
  change (600 - 100)%Z with 500%Z. cbn [fst].
  f_equal. f_equal. f_equal. Lra.lra.
Qed.


Lemma distance_m_finite (s : R) (reference_x : option Z) (l start_x : R) :
  s <> 0 ->
  distance_m s reference_x l start_x
  = Finite (Rabs (l - match reference_x with
                       | Some r => IZR r
                       | None => start_x
                       end) / s).
Proof.
  intros Hs. unfold distance_m. apply fdiv_finite. exact Hs.
Qed.

(** The gate of [run_trial] on a number. *)
Lemma run_trial_finite (s : R) (reference_x : option Z) (ti : TrialInput)
    (l start_x d : R) :
  tracked ti = Some (l, start_x) ->
  distance_m s reference_x l start_x = Finite d ->
  run_trial s reference_x ti
  = if Rlt_dec d (2 / 10) then None
    else if Rlt_dec 5 d then None else Some (Finite d).
Proof.
  intros Ht Hd. unfold run_trial. rewrite Ht, Hd. cbn [flt].
  destruct (Rlt_dec d (2 / 10)); [reflexivity|].
  destruct (Rlt_dec 5 d); reflexivity.
Qed.

(** C4, the calibration scale.  The scale is the pixel distance between the
    two clicks over the real distance typed in; for the same clicks and
    real distances [d1 < d2] the two scales satisfy [s1 * d1 = s2 * d2]
    (both products are the pixel distance), so the scale is inversely
    proportional to the distance, and the larger distance gives the smaller
    scale (strictly, when the clicks differ).  Clicks 500 px apart labelled
    1.0 give the scale 500, and with the start line at pixel 100 a landing
    at pixel 650 then measures 550/500 = 1.1.  In general a trial measures
    the pixels between the start line and the landing over the scale, and
    returns that distance when it lies in [0.2, 5.0]; a landing on the
    second click of a horizontal reference measures the distance typed
    in. *)
Theorem calibration_scale :
  (forall (p0 p1 : Pixel) (d1 d2 : R),
      0 < d1 -> d1 < d2 ->
      exists s1 s2 : R,
        calibrate_system (clicked p0 p1 d1) = Some (Finite s1, fst p0)
        /\ calibrate_system (clicked p0 p1 d2) = Some (Finite s2, fst p0)
        /\ s1 = px_distance_between p0 p1 / d1
        /\ s2 = px_distance_between p0 p1 / d2
        /\ s1 * d1 = s2 * d2
        /\ s2 <= s1
        /\ (p0 <> p1 -> s2 < s1))
  /\ calibrate_system (clicked (100, 300)%Z (600, 300)%Z 1)
     = Some (Finite 500, 100%Z)
  /\ (forall start_x : R, distance_m 500 (Some 100%Z) 650 start_x = 11 / 10)
  /\ (forall (s : R) (r : Z) (l start_x : R),
         s <> 0 ->
         distance_m s (Some r) l start_x = Rabs (l - IZR r) / s
         /\ distance_m s None l start_x = Rabs (l - start_x) / s)
  /\ (forall (ti : TrialInput) (l start_x : R),
         tracked ti = Some (l, start_x) ->
         run_trial 500 (Some 100%Z) ti
         = if Rlt_dec (Rabs (l - 100) / 500) (2 / 10) then None
           else if Rlt_dec 5 (Rabs (l - 100) / 500) then None
           else Some (Finite (Rabs (l - 100) / 500)))
  /\ (forall (ti : TrialInput) (start_x : R),
         tracked ti = Some (650, start_x) ->
         run_trial 500 (Some 100%Z) ti = Some (Finite (11 / 10)))
  /\ (forall (x0 x1 y : Z) (d start_x : R),
         (x0 < x1)%Z -> 0 < d ->
         exists s : R,
           calibrate_system (clicked (x0, y) (x1, y) d) = Some (Finite s, x0)
           /\ distance_m s (Some x0) (IZR x1) start_x = d).
Proof.
  split; [|split; [|split; [|split; [|split; [|split]]]]].
  - intros p0 p1 d1 d2 H1 H12.
    exists (px_distance_between p0 p1 / d1), (px_distance_between p0 p1 / d2).
    rewrite !calibrate_clicked by Lra.lra.
    pose proof (px_distance_nonneg p0 p1) as Hpx.
    assert (Hinv : / d2 < / d1).
    { apply Rinv_lt_contravar; [apply Rmult_lt_0_compat|]; Lra.lra. }
    repeat split.
    + field. split; Lra.lra.
    + unfold Rdiv. apply Rmult_le_compat_l; Lra.lra.
    + intros Hne. unfold Rdiv. apply Rmult_lt_compat_l; [|exact Hinv].
      apply px_distance_pos. exact Hne.
  - exact calibrate_500_px_per_meter.
  - intros start_x. rewrite distance_m_finite by Lra.lra.
    rewrite Rabs_right by Lra.lra. f_equal. Lra.lra.
  - intros s r l start_x Hs.
    split; rewrite distance_m_finite by exact Hs; reflexivity.
  - intros ti l start_x Ht.
    apply (run_trial_finite 500 (Some 100%Z) ti l start_x); [exact Ht|].
    rewrite distance_m_finite by Lra.lra. reflexivity.
  - intros ti start_x Ht.
    rewrite (run_trial_finite 500 (Some 100%Z) ti 650 start_x (11 / 10) Ht).
    + destruct (Rlt_dec (11 / 10) (2 / 10)); [Lra.lra|].
      destruct (Rlt_dec 5 (11 / 10)); [Lra.lra|reflexivity].
    + rewrite distance_m_finite by Lra.lra.
      rewrite Rabs_right by Lra.lra. f_equal. Lra.lra.
  - intros x0 x1 y d start_x Hx Hd.
    exists (px_distance_between (x0, y) (x1, y) / d).
    rewrite calibrate_clicked by exact Hd.
    split; [reflexivity|].
    rewrite px_distance_horizontal by lia.
    assert (Hpx : 0 < IZR (x1 - x0)) by (apply IZR_lt; lia).
    rewrite distance_m_finite
      by (apply Rgt_not_eq; apply Rdiv_lt_0_compat; assumption).
    rewrite minus_IZR in *. rewrite Rabs_right by Lra.lra.
    f_equal. field. split; Lra.lra.
Qed.

Lemma calibration_scale_witness :
  exists s1 s2 : R,
    calibrate_system (clicked (100, 300)%Z (600, 300)%Z 1)
    = Some (Finite s1, fst (100, 300)%Z)
    /\ calibrate_system (clicked (100, 300)%Z (600, 300)%Z 2)
       = Some (Finite s2, fst (100, 300)%Z)
    /\ s1 = px_distance_between (100, 300)%Z (600, 300)%Z / 1
    /\ s2 = px_distance_between (100, 300)%Z (600, 300)%Z / 2
    /\ s1 * 1 = s2 * 2
    /\ s2 <= s1
    /\ ((100, 300)%Z <> (600, 300)%Z -> s2 < s1).
Proof.
  apply (proj1 calibration_scale (100, 300)%Z (600, 300)%Z 1 2); Lra.lra.
Defined.

(** C8, at the input where the invariant breaks: two clicks on the same
    pixel and a valid real distance.  The calibration does not fail; it
    returns the scale 0. *)
Theorem zero_scale_on_coincident_clicks :
  calibrate_system (clicked (100, 200)%Z (100, 200)%Z 1)
  = Some (Finite 0, 100%Z).
Proof.
  rewrite calibrate_clicked by Lra.lra.
  replace (px_distance_between (100, 200)%Z (100, 200)%Z) with 0
    by (symmetry; apply px_distance_zero_iff; reflexivity).
  cbn [fst]. f_equal. f_equal. f_equal. Lra.lra.
Qed.

(** *** Evaluating a trial *)

Lemma ankles_found (x : R) :
  20 < x -> get_ankle_position (keypoints (ankles_at x)) = Some (x, 400).
Proof.
  intros H. unfold ankles_at, get_ankle_position. cbn [keypoints].
  rdecide. f_equal. f_equal.
  - unfold Rmax. destruct (Rle_dec x (x - 20)); Lra.lra.
  - Lra.lra.
Qed.

Lemma detect_start_first (x : R) (fs : list CamFrame) (n : Z) :
  20 < x ->
  detect_start (ankles_at x :: fs) n None
  = if (STATIC_FRAMES_REQUIRED <=? n)%Z then StartAt x
    else detect_start fs n (Some x).
Proof.
  intros H. cbn [detect_start]. rewrite ankles_found by exact H. reflexivity.
Qed.

Lemma detect_start_static (x : R) (fs : list CamFrame) (n : Z) :
  20 < x ->
  detect_start (ankles_at x :: fs) n (Some x)
  = if (STATIC_FRAMES_REQUIRED <=? n + 1)%Z then StartAt x
    else detect_start fs (n + 1) (Some x).
Proof.
  intros H. cbn [detect_start]. rewrite ankles_found by exact H.
  cbn [ret quit_key ankles_at]. unfold STATIC_TOLERANCE_PX.
  rdecide. reflexivity.
Qed.

Lemma track_frame_found (x : R) (t : Tracking) :
  20 < x ->
  track_frame (ankles_at x) t =
  let x_smooth := smooth_position x (prev_smooth t) default_alpha in
  let max_x' := if Rlt_dec (max_x t) x_smooth then x_smooth else max_x t in
  match prev_smooth t with
  | None =>
      (mkTracking (took_off t) (takeoff_x t) (landing_x t)
         (Some x_smooth) (stable t) max_x', Next)
  | Some p =>
      let velocity := x_smooth - p in
      if took_off t then
        let stable' :=
          if Rlt_dec (Rabs velocity) LANDING_VELOCITY
          then (stable t + 1)%Z else 0%Z in
        if (LANDING_STABLE_FRAMES <=? stable')%Z then
          (mkTracking true (takeoff_x t) (Some max_x')
             (prev_smooth t) stable' max_x', Break)
        else
          (mkTracking true (takeoff_x t) (landing_x t)
             (Some x_smooth) stable' max_x', Next)
      else if Rlt_dec TAKEOFF_VELOCITY (Rabs velocity) then
        (mkTracking true (Some p) (landing_x t)
           (Some x_smooth) (stable t) max_x', Next)
      else
        (mkTracking false (takeoff_x t) (landing_x t)
           (Some x_smooth) (stable t) max_x', Next)
  end.
Proof.
  intros H. unfold track_frame. rewrite ankles_found by exact H. reflexivity.
Qed.

Lemma track_jump_cons (f : CamFrame) (fs : list CamFrame) (t : Tracking) :
  track_jump (f :: fs) t =
  match track_frame f t with
  | (t', Next) => track_jump fs t'
  | (t', Break) => t'
  end.
Proof. reflexivity. Qed.

Ltac track_step :=
  rewrite track_jump_cons; rewrite track_frame_found by Lra.lra;
  cbv zeta;
  cbn [prev_smooth took_off takeoff_x landing_x stable max_x smooth_position];
  unfold default_alpha, LANDING_VELOCITY, TAKEOFF_VELOCITY;
  rdecide; zdecide; cbv iota.

Lemma short_jump_start :
  detect_start (phase1_frames short_jump) 0%Z None = StartAt 100.
Proof.
  unfold short_jump. cbn [phase1_frames].
  rewrite detect_start_first by Lra.lra. zdecide. cbv iota.
  repeat (rewrite detect_start_static by Lra.lra; zdecide; cbv iota).
  reflexivity.
Qed.

Lemma short_jump_tracked : tracked short_jump = Some (134, 100).
Proof.
  unfold tracked. rewrite short_jump_start.
  unfold short_jump, tracking_start. cbn [start_pressed phase3_frames].
  do 6 track_step.
  cbn [took_off landing_x]. f_equal. f_equal. Lra.lra.
Qed.

(** *** Smoothing *)

(** C6, exponential smoothing.  With a previous smoothed value the result
    is [alpha * raw + (1 - alpha) * prev]; without one (the first valid
    frame) it is the raw value.  The tracking loop of a trial applies it
    with [alpha = 0.3] to the forward ankle's x of every frame on which the
    ankles are found, and carries the result to the next frame. *)
Theorem smoothing_contract :
  forall alpha raw : R,
    (forall prev : R,
        smooth_position raw (Some prev) alpha = alpha * raw + (1 - alpha) * prev)
    /\ smooth_position raw None alpha = raw
    /\ (forall (f : CamFrame) (t : Tracking) (y : R),
           ret f = true ->
           get_ankle_position (keypoints f) = Some (raw, y) ->
           snd (track_frame f t) = Next ->
           prev_smooth (fst (track_frame f t))
           = Some match prev_smooth t with
                  | None => raw
                  | Some prev => 3 / 10 * raw + (1 - 3 / 10) * prev
                  end).
Proof.
  intros alpha raw. split; [|split]; [reflexivity|reflexivity|].
  intros f t y Hret Hank. unfold track_frame. rewrite Hret, Hank.
  unfold smooth_position, default_alpha.
  destruct (prev_smooth t) as [p|]; [|reflexivity].
  destruct (took_off t).
  - destruct (LANDING_STABLE_FRAMES <=? _)%Z; [discriminate|reflexivity].
  - destruct (Rlt_dec TAKEOFF_VELOCITY _); reflexivity.
Qed.

Lemma smoothing_contract_witness :
  prev_smooth (fst (track_frame (ankles_at 200)
                      (mkTracking false None None (Some 100) 0%Z 100)))
  = Some (3 / 10 * 200 + (1 - 3 / 10) * 100).
Proof.
  apply (proj2 (proj2 (smoothing_contract (3 / 10) 200))
           (ankles_at 200) (mkTracking false None None (Some 100) 0%Z 100) 400).
  - reflexivity.
  - apply ankles_found. Lra.lra.
  - rewrite track_frame_found by Lra.lra. cbv zeta.
    cbn [prev_smooth took_off smooth_position].
    destruct (Rlt_dec TAKEOFF_VELOCITY _); reflexivity.
Defined.

(** *** The plausibility gate *)

(** What the two comparisons of [run_trial] let through: the numbers from
    0.2 to 5.0, and [nan], for which both comparisons are false. *)
Lemma gate_passes (d : Float) :
  flt d (2 / 10) || flt 5 d = false -> plausible d \/ d = NaN.
Proof.
  destruct d as [r| | |]; cbn [flt orb plausible].
  - destruct (Rlt_dec r (2 / 10)); [discriminate|].
    destruct (Rlt_dec 5 r); [discriminate|].
    intros _. left. Lra.lra.
  - discriminate.
  - discriminate.
  - intros _. right. reflexivity.
Qed.

Lemma run_trial_passes (px_per_meter : Float) (reference_x : option Z)
    (ti : TrialInput) (d : Float) :
  run_trial px_per_meter reference_x ti = Some d -> plausible d \/ d = NaN.
Proof.
  unfold run_trial.
  destruct (tracked ti) as [[l start_x]|]; [|discriminate].
  destruct (flt _ (2 / 10) || flt 5 _) eqn:E; [discriminate|].
  intros H. inversion H. subst. exact (gate_passes _ E).
Qed.

(** With a number other than zero as the scale the distance is a number,
    and the gate does what it is there for. *)
Lemma run_trial_plausible (s : R) (reference_x : option Z)
    (ti : TrialInput) (d : Float) :
  s <> 0 -> run_trial s reference_x ti = Some d -> plausible d.
Proof.
  intros Hs H.
  destruct (run_trial_passes _ _ _ _ H) as [Hp|Hn]; [exact Hp|].
  exfalso. subst d. unfold run_trial in H.
  destruct (tracked ti) as [[l start_x]|]; [|discriminate].
  rewrite distance_m_finite in H by exact Hs.
  destruct (flt _ (2 / 10) || flt 5 _); discriminate.
Qed.

Lemma short_jump_run :
  run_trial 100 (Some 100%Z) short_jump = Some (Finite (34 / 100)).
Proof.
  rewrite (run_trial_finite 100 (Some 100%Z) short_jump 134 100 (34 / 100)
             short_jump_tracked).
  - destruct (Rlt_dec (34 / 100) (2 / 10)); [Lra.lra|].
    destruct (Rlt_dec 5 (34 / 100)); [Lra.lra|reflexivity].
  - rewrite distance_m_finite by Lra.lra.
    rewrite Rabs_right by Lra.lra. f_equal. Lra.lra.
Qed.

(** *** The session summary *)

Lemma no_results_when_no_trial_returns (px_per_meter : Float)
    (reference_x : option Z) (session : nat -> TrialInput) :
  (forall trial, In trial (seq 1 MAX_TRIALS) ->
                 run_trial px_per_meter reference_x (session trial) = None) ->
  trial_results px_per_meter reference_x session = [].
Proof.
  unfold trial_results. generalize (seq 1 MAX_TRIALS) as trials.
  induction trials as [|k trials IH]; intros Hall; [reflexivity|].
  cbn [flat_map]. rewrite (Hall k (or_introl eq_refl)).
  cbn [app]. apply IH. intros trial Hin. apply Hall. right. exact Hin.
Qed.

(** C5, empty-session safety.  The final report is the explicit
    [NoValidJumps] exactly when the results list is empty, and a session
    whose trials all return no result ends with that report: no best and no
    average is computed. *)
Theorem empty_session_safety :
  (forall results : list Float,
      final_results results = NoValidJumps <-> results = [])
  /\ (forall (c : CalibrationInput) (session : nat -> TrialInput)
             (px_per_meter : Float) (reference_x : Z),
         calibrate_system c = Some (px_per_meter, reference_x) ->
         (forall trial, In trial (seq 1 MAX_TRIALS) ->
            run_trial px_per_meter (Some reference_x) (session trial) = None) ->
         main c session = TestComplete NoValidJumps).
Proof.
  split.
  - intros [|r rs]; cbn [final_results]; split; intros H;
      try reflexivity; discriminate.
  - intros c session px ref Hcal Hnone. unfold main. rewrite Hcal.
    rewrite (no_results_when_no_trial_returns px (Some ref) session Hnone).
    reflexivity.
Qed.

Lemma empty_session_safety_witness :
  main (clicked (100, 300)%Z (600, 300)%Z 1) (fun _ => abandoned)
  = TestComplete NoValidJumps.
Proof.
  apply (proj2 empty_session_safety
           (clicked (100, 300)%Z (600, 300)%Z 1) (fun _ => abandoned)
           500 100%Z).
  - exact calibrate_500_px_per_meter.
  - intros trial _. reflexivity.
Defined.

(** *** The start position and the landing *)

Lemma track_frame_ahead (start_x : R) (f : CamFrame) (t : Tracking) :
  ahead_of start_x t -> ahead_of start_x (fst (track_frame f t)).
Proof.
  intros (Hm & Hl). unfold track_frame.
  destruct (ret f); [|split; assumption].
  destruct (get_ankle_position (keypoints f)) as [[x y]|]; [|split; assumption].
  cbv zeta.
  set (xs := smooth_position x (prev_smooth t) default_alpha).
  assert (Hm' : start_x <= (if Rlt_dec (max_x t) xs then xs else max_x t)).
  { destruct (Rlt_dec (max_x t) xs); Lra.lra. }
  destruct (prev_smooth t) as [p|].
  - destruct (took_off t).
    + destruct (LANDING_STABLE_FRAMES <=? _)%Z; cbn [fst]; split;
        cbn [max_x landing_x]; try exact Hm'; try exact Hl.
      intros l H. inversion H. subst. exact Hm'.
    + destruct (Rlt_dec TAKEOFF_VELOCITY _); cbn [fst]; split;
        cbn [max_x landing_x]; try exact Hm'; exact Hl.
  - cbn [fst]. split; cbn [max_x landing_x]; [exact Hm'|exact Hl].
Qed.

Lemma track_jump_ahead (start_x : R) (fs : list CamFrame) :
  forall t : Tracking, ahead_of start_x t -> ahead_of start_x (track_jump fs t).
Proof.
  induction fs as [|f fs IH]; intros t Ht; [exact Ht|].
  rewrite track_jump_cons.
  pose proof (track_frame_ahead start_x f t Ht) as H.
  destruct (track_frame f t) as [t' [|]]; cbn [fst] in H.
  - apply IH. exact H.
  - exact H.
Qed.

Lemma track_frame_held (start_x : R) (f : CamFrame) (t : Tracking) :
  (forall x y, get_ankle_position (keypoints f) = Some (x, y) -> x <= start_x) ->
  held_at start_x t -> held_at start_x (fst (track_frame f t)).
Proof.
  intros Hf (Hm & Hp & Hl). unfold track_frame.
  destruct (ret f); [|repeat split; assumption].
  destruct (get_ankle_position (keypoints f)) as [[x y]|];
    [|repeat split; assumption].
  specialize (Hf x y eq_refl). cbv zeta.
  set (xs := smooth_position x (prev_smooth t) default_alpha).
  assert (Hxs : xs <= start_x).
  { subst xs. unfold smooth_position, default_alpha.
    destruct (prev_smooth t) as [p|]; [|exact Hf].
    specialize (Hp p eq_refl). Lra.lra. }
  assert (Hm' : (if Rlt_dec (max_x t) xs then xs else max_x t) = start_x).
  { destruct (Rlt_dec (max_x t) xs); Lra.lra. }
  assert (Hp' : forall q, Some xs = Some q -> q <= start_x).
  { intros q H. inversion H. subst. exact Hxs. }
  destruct (prev_smooth t) as [p|] eqn:Ep.
  - destruct (took_off t).
    + destruct (LANDING_STABLE_FRAMES <=? _)%Z; cbn [fst]; repeat split;
        cbn [max_x landing_x prev_smooth]; try exact Hm'; try exact Hl;
        try exact Hp'; try exact Hp.
      intros l H. inversion H. subst. exact Hm'.
    + destruct (Rlt_dec TAKEOFF_VELOCITY _); cbn [fst]; repeat split;
        cbn [max_x landing_x prev_smooth]; try exact Hm'; try exact Hl;
        exact Hp'.
  - cbn [fst]. repeat split; cbn [max_x landing_x prev_smooth];
      [exact Hm'|exact Hp'|exact Hl].
Qed.

Lemma track_jump_held (start_x : R) (fs : list CamFrame) :
  (forall f x y, In f fs ->
                 get_ankle_position (keypoints f) = Some (x, y) ->
                 x <= start_x) ->
  forall t : Tracking, held_at start_x t -> held_at start_x (track_jump fs t).
Proof.
  induction fs as [|f fs IH]; intros Hall t Ht; [exact Ht|].
  rewrite track_jump_cons.
  assert (H : held_at start_x (fst (track_frame f t))).
  { apply track_frame_held; [|exact Ht].
    intros x y. apply Hall. left. reflexivity. }
  destruct (track_frame f t) as [t' [|]]; cbn [fst] in H.
  - apply IH; [|exact H]. intros g x y Hg. apply Hall. right. exact Hg.
  - exact H.
Qed.

(** X22.  The landing position of a trial is the largest smoothed x seen
    since the start, the start position included: it is never behind the
    start position, and when the athlete never gets beyond the start
    position (a jump towards smaller x) it is the start position itself,
    however far the jump went. *)
Theorem landing_is_furthest_point :
  forall (ti : TrialInput) (l start_x : R),
    tracked ti = Some (l, start_x) ->
    start_x <= l
    /\ ((forall f x y, In f (phase3_frames ti) ->
                       get_ankle_position (keypoints f) = Some (x, y) ->
                       x <= start_x) ->
        l = start_x).
Proof.
  intros ti l start_x. unfold tracked.
  destruct (start_pressed ti); [|discriminate].
  destruct (detect_start (phase1_frames ti) 0%Z None) as [s| |];
    try discriminate.
  assert (Ha : ahead_of s (track_jump (phase3_frames ti) (tracking_start s))).
  { apply track_jump_ahead. split; [apply Rle_refl|].
    intros l0 H. discriminate H. }
  destruct (took_off (track_jump (phase3_frames ti) (tracking_start s)));
    [|discriminate].
  destruct (landing_x (track_jump (phase3_frames ti) (tracking_start s)))
    as [l0|] eqn:El; [|discriminate].
  intros H. inversion H. subst. split.
  - destruct Ha as (_ & Ha). apply Ha. exact El.
  - intros Hleft.
    assert (Hh : held_at start_x
                   (track_jump (phase3_frames ti) (tracking_start start_x))).
    { apply track_jump_held; [exact Hleft|].
      repeat split; cbn [tracking_start max_x prev_smooth landing_x];
        intros q Hq; discriminate Hq. }
    destruct Hh as (_ & _ & Hh). apply Hh. exact El.
Qed.

Lemma leftward_jump_start :
  detect_start (phase1_frames leftward_jump) 0%Z None = StartAt 600.
Proof.
  unfold leftward_jump. cbn [phase1_frames].
  rewrite detect_start_first by Lra.lra. zdecide. cbv iota.
  repeat (rewrite detect_start_static by Lra.lra; zdecide; cbv iota).
  reflexivity.
Qed.

Lemma leftward_jump_tracked : tracked leftward_jump = Some (600, 600).
Proof.
  unfold tracked. rewrite leftward_jump_start.
  unfold leftward_jump, tracking_start. cbn [start_pressed phase3_frames].
  do 6 track_step.
  cbn [took_off landing_x]. reflexivity.
Qed.

Lemma landing_is_furthest_point_witness :
  tracked leftward_jump = Some (600, 600)
  /\ 600 <= 600
  /\ 600 = 600
  /\ distance_m 500 (Some 100%Z) 600 600 = 1.
Proof.
  pose proof (landing_is_furthest_point leftward_jump 600 600
                leftward_jump_tracked) as (H1 & H2).
  split; [exact leftward_jump_tracked|]. split; [exact H1|]. split.
  - apply H2. intros f x y Hin.
    unfold leftward_jump in Hin. cbn [phase3_frames In] in Hin.
    repeat match type of Hin with
           | _ \/ _ => destruct Hin as [Hin|Hin]
           end; try contradiction; subst f;
      rewrite ankles_found by Lra.lra; intros H; inversion H; Lra.lra.
  - rewrite distance_m_finite by Lra.lra.
    rewrite Rabs_right by Lra.lra. f_equal. Lra.lra.
Defined.

Lemma detect_start_needs (fs : list CamFrame) :
  forall (static_count : Z) (prev_x : option R) (x : R),
    (0 <= static_count)%Z ->
    detect_start fs static_count prev_x = StartAt x ->
    (1 <= frames_with_ankles fs)%nat
    /\ (STATIC_FRAMES_REQUIRED - static_count
        + match prev_x with Some _ => 0 | None => 1 end
        <= Z.of_nat (frames_with_ankles fs))%Z.
Proof.
  unfold STATIC_FRAMES_REQUIRED.
  induction fs as [|f fs IH]; intros c prev x Hc H; [discriminate H|].
  cbn [detect_start frames_with_ankles] in *.
  destruct (ret f); [|exact (IH c prev x Hc H)].
  destruct (get_ankle_position (keypoints f)) as [[x0 y0]|].
  - destruct prev as [p|].
    + destruct (Rlt_dec (Rabs (x0 - p)) STATIC_TOLERANCE_PX).
      * unfold STATIC_FRAMES_REQUIRED in H.
        destruct (Z.leb_spec 5 (c + 1)).
        -- split; lia.
        -- destruct (quit_key f); [discriminate H|].
           destruct (IH (c + 1)%Z (Some x0) x) as (I1 & I2); [lia|exact H|].
           split; lia.
      * unfold STATIC_FRAMES_REQUIRED in H.
        destruct (Z.leb_spec 5 (Z.max 0 (c - 1))).
        -- split; lia.
        -- destruct (quit_key f); [discriminate H|].
           destruct (IH (Z.max 0 (c - 1)) (Some x0) x) as (I1 & I2);
             [lia|exact H|].
           split; lia.
    + unfold STATIC_FRAMES_REQUIRED in H.
      destruct (Z.leb_spec 5 c).
      * split; lia.
      * destruct (quit_key f); [discriminate H|].
        destruct (IH c (Some x0) x) as (I1 & I2); [lia|exact H|].
        split; lia.
  - destruct (quit_key f); [discriminate H|].
    destruct (IH 0%Z prev x) as (I1 & I2); [lia|exact H|].
    split; [exact I1|]. destruct prev; lia.
Qed.

(** X23.  Phase 1 finds a start position only after six frames in which
    both ankles were found: the first one sets the reference, and the
    count of static frames grows by at most one per frame up to the five
    required. *)
Theorem start_needs_six_sightings :
  forall (fs : list CamFrame) (x : R),
    detect_start fs 0%Z None = StartAt x ->
    (6 <= frames_with_ankles fs)%nat.
Proof.
  intros fs x H.
  destruct (detect_start_needs fs 0%Z None x) as (_ & H2); [lia|exact H|].
  unfold STATIC_FRAMES_REQUIRED in H2. lia.
Qed.

Lemma start_needs_six_sightings_witness :
  le 6 (frames_with_ankles (phase1_frames short_jump)).
Proof.
  apply (start_needs_six_sightings (phase1_frames short_jump) 100).
  exact short_jump_start.
Defined.

(** *** The session summary *)

Lemma fold_Rmax_spec (xs : list R) :
  forall x0 : R,
    x0 <= fold_left Rmax xs x0
    /\ (forall x, In x xs -> x <= fold_left Rmax xs x0)
    /\ In (fold_left Rmax xs x0) (x0 :: xs).
Proof.
  induction xs as [|x xs IH]; intros x0; cbn [fold_left].
  - repeat split; [apply Rle_refl|intros x []|left; reflexivity].
  - destruct (IH (Rmax x0 x)) as (I1 & I2 & I3).
    pose proof (Rmax_l x0 x) as Hl. pose proof (Rmax_r x0 x) as Hr.
    repeat split.
    + Lra.lra.
    + intros y [<-|Hy]; [Lra.lra|apply I2; exact Hy].
    + destruct I3 as [I3|I3].
      * rewrite <- I3. unfold Rmax. destruct (Rle_dec x0 x).
        -- right. left. reflexivity.
        -- left. reflexivity.
      * right. right. exact I3.
Qed.

Lemma fold_plus_bounds (lo hi : R) (xs : list R) :
  (forall x, In x xs -> lo <= x <= hi) ->
  forall a : R,
    a + INR (length xs) * lo <= fold_left Rplus xs a
    <= a + INR (length xs) * hi.
Proof.
  induction xs as [|x xs IH]; intros Hall a.
  - cbn [fold_left length]. change (INR 0) with 0. Lra.lra.
  - cbn [fold_left]. change (length (x :: xs)) with (S (length xs)).
    rewrite S_INR.
    assert (Hx : lo <= x <= hi) by (apply Hall; left; reflexivity).
    assert (IH' := IH (fun y Hy => Hall y (or_intror Hy)) (a + x)).
    Lra.lra.
Qed.

Lemma average_bounds (lo hi : R) (xs : list R) :
  xs <> [] ->
  (forall x, In x xs -> lo <= x <= hi) ->
  lo <= fold_left Rplus xs 0 / INR (length xs) <= hi.
Proof.
  intros Hne Hall.
  pose proof (fold_plus_bounds lo hi xs Hall 0) as Hs.
  assert (Hn : 0 < INR (length xs)).
  { destruct xs as [|x xs]; [contradiction|].
    apply lt_0_INR. cbn [length]. lia. }
  set (n := INR (length xs)) in *. set (s := fold_left Rplus xs 0) in *.
  assert (Hq : s / n * n = s) by (field; Lra.lra).
  set (q := s / n) in *.
  split.
  - destruct (Rle_dec lo q) as [|Hc]; [assumption|exfalso].
    assert (q * n < lo * n) by (apply Rmult_lt_compat_r; Lra.lra). Lra.lra.
  - destruct (Rle_dec q hi) as [|Hc]; [assumption|exfalso].
    assert (hi * n < q * n) by (apply Rmult_lt_compat_r; Lra.lra). Lra.lra.
Qed.

(** A list of plausible distances is a list of numbers. *)
Lemma plausible_numbers (xs : list Float) :
  (forall d, In d xs -> plausible d) ->
  exists rs : list R,
    xs = map Finite rs /\ forall r, In r rs -> 2 / 10 <= r <= 5.
Proof.
  induction xs as [|x xs IH]; intros Hall.
  - exists []. split; [reflexivity|intros r []].
  - destruct IH as (rs & -> & Hrs);
      [intros d Hd; apply Hall; right; exact Hd|].
    pose proof (Hall x (or_introl eq_refl)) as Hx.
    destruct x as [r| | |]; cbn [plausible] in Hx; try contradiction.
    exists (r :: rs). split; [reflexivity|].
    intros r' [<-|Hr']; [exact Hx|apply Hrs; exact Hr'].
Qed.

Lemma py_max_list_numbers (rs : list R) :
  forall r0 : R,
    py_max_list (map Finite rs) r0 = Finite (fold_left Rmax rs r0).
Proof.
  unfold py_max_list.
  induction rs as [|r rs IH]; intros r0; cbn [map fold_left]; [reflexivity|].
  cbn [flt]. unfold Rmax.
  destruct (Rlt_dec r0 r); destruct (Rle_dec r0 r); try Lra.lra;
    try apply IH.
  replace r with r0 by Lra.lra. apply IH.
Qed.

Lemma py_sum_list_numbers (rs : list R) :
  forall a : R,
    fold_left fadd (map Finite rs) a = Finite (fold_left Rplus rs a).
Proof.
  induction rs as [|r rs IH]; intros a; cbn [map fold_left]; [reflexivity|].
  cbn [fadd]. apply IH.
Qed.

Lemma valid_trials_spec (px_per_meter : Float) (reference_x : option Z)
    (session : nat -> TrialInput) (trials : list nat) :
  let results :=
    flat_map
      (fun trial =>
         match run_trial px_per_meter reference_x (session trial) with
         | Some distance => [distance]
         | None => []
         end) trials in
  (length results <= length trials)%nat
  /\ forall d, In d results -> plausible d \/ d = NaN.
Proof.
  induction trials as [|k trials (I1 & I2)]; cbn [flat_map length].
  - split; [lia|intros d []].
  - destruct (run_trial px_per_meter reference_x (session k)) as [d0|] eqn:E;
      cbn [app length In].
    + split; [lia|]. intros d [<-|Hd]; [|apply I2; exact Hd].
      exact (run_trial_passes _ _ _ _ E).
    + split; [lia|exact I2].
Qed.

Lemma plausible_trials (s : R) (reference_x : option Z)
    (session : nat -> TrialInput) :
  s <> 0 ->
  forall d, In d (trial_results s reference_x session) -> plausible d.
Proof.
  intros Hs d. unfold trial_results. rewrite in_flat_map.
  intros (trial & _ & Hd).
  destruct (run_trial s reference_x (session trial)) as [d0|] eqn:E;
    [|destruct Hd].
  destruct Hd as [<-|[]]. exact (run_trial_plausible _ _ _ _ Hs E).
Qed.

(** X24.  The summary [main] prints after the trials when the calibration
    returned a positive number as the scale: between one and three valid
    trials, every listed distance a number within [0.2, 5.0] m, the best
    one a listed distance that no other exceeds, and the average a number
    within [0.2, 5.0] m. *)
Theorem session_summary_bounds :
  forall (c : CalibrationInput) (session : nat -> TrialInput)
         (s : R) (reference_x : Z),
    calibrate_system c = Some (Finite s, reference_x) -> 0 < s ->
    match main c session with
    | CalibrationCancelled => False
    | TestComplete NoValidJumps =>
        trial_results s (Some reference_x) session = []
    | TestComplete (Summary valid individual best avg) =>
        individual = trial_results s (Some reference_x) session
        /\ (1 <= valid <= MAX_TRIALS)%nat
        /\ valid = length individual
        /\ (forall d, In d individual -> plausible d /\ fle d best = true)
        /\ In best individual
        /\ plausible avg
    end.
Proof.
  intros c session s reference_x Hcal Hs. unfold main. rewrite Hcal.
  assert (Hpl := plausible_trials s (Some reference_x) session
                   (Rgt_not_eq _ _ Hs)).
  pose proof (valid_trials_spec s (Some reference_x) session
                (seq 1 MAX_TRIALS)) as H.
  cbv zeta in H. destruct H as (Hlen & _).
  rewrite length_seq in Hlen.
  fold (trial_results s (Some reference_x) session) in Hlen.
  destruct (trial_results s (Some reference_x) session) as [|r rs] eqn:E;
    [reflexivity|].
  unfold final_results.
  destruct (plausible_numbers (r :: rs) Hpl) as (qs & Hqs & Hin).
  destruct qs as [|q qs]; [discriminate Hqs|].
  cbn [map] in Hqs. inversion Hqs as [[Hr Hrs]]. clear Hqs. subst r rs.
  cbn [length] in Hlen. rewrite length_map in Hlen.
  rewrite py_max_list_numbers. unfold py_sum_list.
  change (Finite q :: map Finite qs) with (map Finite (q :: qs)).
  rewrite py_sum_list_numbers, length_map.
  assert (Hn : 0 < INR (length (q :: qs))).
  { apply lt_0_INR. cbn [length]. lia. }
  rewrite fdiv_finite by Lra.lra.
  destruct (fold_Rmax_spec qs q) as (M1 & M2 & M3).
  assert (Hne : q :: qs <> []) by discriminate.
  pose proof (average_bounds (2 / 10) 5 (q :: qs) Hne Hin) as Havg.
  split; [reflexivity|]. split; [cbn [length]; lia|].
  split; [reflexivity|].
  split; [|split].
  - intros d Hd. split.
    + apply Hpl. exact Hd.
    + apply in_map_iff in Hd. destruct Hd as (x & <- & Hx).
      apply fle_finite. destruct Hx as [<-|Hx]; [exact M1|apply M2; exact Hx].
  - apply in_map. exact M3.
  - cbn [plausible]. exact Havg.
Qed.

Lemma short_jump_results :
  trial_results 100 (Some 100%Z) (fun _ => short_jump)
  = [Finite (34 / 100); Finite (34 / 100); Finite (34 / 100)].
Proof.
  unfold trial_results, MAX_TRIALS. cbn [seq flat_map].
  rewrite short_jump_run. reflexivity.
Qed.

Lemma calibrate_100_px_per_meter :
  calibrate_system (clicked (100, 300)%Z (200, 300)%Z 1)
  = Some (Finite 100, 100%Z).
Proof.
  rewrite calibrate_clicked by Lra.lra.
  rewrite px_distance_horizontal by lia.
  change (200 - 100)%Z with 100%Z. cbn [fst].
  f_equal. f_equal. f_equal. Lra.lra.
Qed.

Lemma session_summary_bounds_witness :
  trial_results 100 (Some 100%Z) (fun _ => short_jump)
  = [Finite (34 / 100); Finite (34 / 100); Finite (34 / 100)]
  /\ match main (clicked (100, 300)%Z (200, 300)%Z 1) (fun _ => short_jump) with
     | CalibrationCancelled => False
     | TestComplete NoValidJumps =>
         trial_results 100 (Some 100%Z) (fun _ => short_jump) = []
     | TestComplete (Summary valid individual best avg) =>
         individual = trial_results 100 (Some 100%Z) (fun _ => short_jump)
         /\ (1 <= valid <= MAX_TRIALS)%nat
         /\ valid = length individual
         /\ (forall d, In d individual -> plausible d /\ fle d best = true)
         /\ In best individual
         /\ plausible avg
     end.
Proof.
  split; [exact short_jump_results|].
  apply (session_summary_bounds (clicked (100, 300)%Z (200, 300)%Z 1)
           (fun _ => short_jump) 100 100%Z).
  - exact calibrate_100_px_per_meter.
  - Lra.lra.
Defined.

(** *** Where the gate lets a result through that is no distance *)

Lemma nan_run (reference_x : option Z) (ti : TrialInput) (l start_x : R) :
  tracked ti = Some (l, start_x) ->
  run_trial NaN reference_x ti = Some NaN.
Proof.
  intros Ht. unfold run_trial. rewrite Ht. unfold distance_m.
  cbn [fdiv flt orb]. reflexivity.
Qed.

Lemma leftward_jump_run :
  run_trial 0 (Some 600%Z) leftward_jump = Some NaN.
Proof.
  unfold run_trial. rewrite leftward_jump_tracked. unfold distance_m.
  replace (Rabs (600 - IZR 600)) with 0
    by (rewrite Rabs_right by Lra.lra; Lra.lra).
  rewrite fdiv_zero_zero. reflexivity.
Qed.

(** C10, at the inputs where the gate fails.  The two comparisons of
    [run_trial] are both false for [nan], so what a trial returns is a
    number within [0.2, 5.0] or [nan], and [nan] does come out.  With both
    clicks of the calibration on pixel (600, 300) and 1.0 typed the scale
    is 0.0; a trial whose landing is on the reference line then computes
    0.0 / 0.0, returns [nan], and [main] lists three valid trials with
    best and average [nan].  With [nan] typed as the real distance the
    scale is [nan] and every trial that reaches the calculation returns
    [nan]. *)
Theorem nan_passes_plausibility_gate :
  (forall (px_per_meter : Float) (reference_x : option Z)
          (ti : TrialInput) (d : Float),
      run_trial px_per_meter reference_x ti = Some d ->
      plausible d \/ d = NaN)
  /\ ~ plausible NaN
  /\ calibrate_system (clicked (600, 300)%Z (600, 300)%Z 1)
     = Some (Finite 0, 600%Z)
  /\ tracked leftward_jump = Some (600, 600)
  /\ run_trial 0 (Some 600%Z) leftward_jump = Some NaN
  /\ main (clicked (600, 300)%Z (600, 300)%Z 1) (fun _ => leftward_jump)
     = TestComplete (Summary 3 [NaN; NaN; NaN] NaN NaN)
  /\ calibrate_system (typed (100, 300)%Z (600, 300)%Z NaN)
     = Some (NaN, 100%Z)
  /\ (forall (reference_x : option Z) (ti : TrialInput) (l start_x : R),
         tracked ti = Some (l, start_x) ->
         run_trial NaN reference_x ti = Some NaN)
  /\ main (typed (100, 300)%Z (600, 300)%Z NaN) (fun _ => short_jump)
     = TestComplete (Summary 3 [NaN; NaN; NaN] NaN NaN).
Proof.
  assert (Hcal : calibrate_system (clicked (600, 300)%Z (600, 300)%Z 1)
                 = Some (Finite 0, 600%Z)).
  { rewrite calibrate_clicked by Lra.lra.
    replace (px_distance_between (600, 300)%Z (600, 300)%Z) with 0
      by (symmetry; apply px_distance_zero_iff; reflexivity).
    cbn [fst]. f_equal. f_equal. f_equal. Lra.lra. }
  split; [exact run_trial_passes|].
  split; [intros H; exact H|].
  split; [exact Hcal|].
  split; [exact leftward_jump_tracked|].
  split; [exact leftward_jump_run|].
  split; [|split; [reflexivity|split; [exact nan_run|]]].
  - unfold main. rewrite Hcal. unfold trial_results, MAX_TRIALS.
    cbn [seq flat_map]. rewrite leftward_jump_run. reflexivity.
  - unfold main, calibrate_system, typed.
    cbn [first_frame_read clicks entered fle fdiv fst].
    unfold trial_results, MAX_TRIALS. cbn [seq flat_map].
    rewrite (nan_run (Some 100%Z) short_jump 134 100 short_jump_tracked).
    reflexivity.
Qed.

End BroadJumpTheory.

(** ** Shuttle run: marker calibration, scoring, touch events, pipeline *)

Module ShuttleRunTheory.
Import ShuttleRun.

(** C7, as the code has it.  [calibrate_from_markers] gives every result
    the confidence 0.9, whatever the frames and the known distance.  The
    ArUco calibration of the sit-and-reach test stores the scale (mean
    marker side over the marker's 20 cm), the method and the calibrated
    flag, and nothing else: it keeps no confidence. *)
Theorem marker_calibration_confidence :
  (forall (FrameT : Type) (frames : list FrameT) (known_distance_m : R),
      confidence (calibrate_from_markers frames known_distance_m) = (9 / 10)%R)
  /\ (forall (s : SitReach.SitReachTest) (f : SitReach.Frame)
             (width_px height_px : Q),
         SitReach.aruco_marker f = Some (width_px, height_px) ->
         SitReach.detect_aruco_and_calibrate s f
         = (SitReach.set_is_calibrated true
              (SitReach.set_calibration_method (Some SitReach.ARUCO)
                 (SitReach.set_pixels_per_cm
                    ((width_px + height_px) / 2 / SitReach.aruco_marker_size_cm)%Q
                    s)),
            true)).
Proof.
  split.
  - intros FrameT frames known. reflexivity.
  - intros s f width_px height_px H.
    unfold SitReach.detect_aruco_and_calibrate. rewrite H. reflexivity.
Qed.

Lemma marker_calibration_confidence_witness :
  SitReach.detect_aruco_and_calibrate SitReach.init
    (SitReach.mkFrame true None None 640 0 (Some (80, 80)%Q) 0
       false false SitReach.NoKey SitReach.NoKey SitReach.NoKey)
  = (SitReach.set_is_calibrated true
       (SitReach.set_calibration_method (Some SitReach.ARUCO)
          (SitReach.set_pixels_per_cm
             ((80 + 80) / 2 / SitReach.aruco_marker_size_cm)%Q
             SitReach.init)),
     true).
Proof.
  apply (proj2 marker_calibration_confidence). reflexivity.
Defined.

(** C7 as the specification words it fails: the marker calibration of the
    shuttle-run analyzer, run with its default known distance, reports a
    confidence below 1. *)
Lemma marker_confidence_counterexample :
  (confidence (calibrate_from_markers (@nil unit) default_known_distance_m)
   < 1)%R.
Proof.
  cbn [calibrate_from_markers confidence]. Lra.lra.
Qed.

(** X6.  The marker calibration measures nothing: its scale is the known
    distance over the 800 px between the two placeholder lines, 0.0125 m
    per pixel for the default 10 m. *)
Theorem marker_scale_formula :
  forall (FrameT : Type) (frames : list FrameT) (known_distance_m : R),
    px_to_m (calibrate_from_markers frames known_distance_m)
    = (known_distance_m / 800)%R.
Proof.
  intros FrameT frames known. unfold calibrate_from_markers.
  cbn [px_to_m fst snd].
  replace ((900 - 100) ^ 2 + (500 - 500) ^ 2)%R with (800 * 800)%R by ring.
  rewrite sqrt_square by Lra.lra.
  destruct (Rlt_dec 0 800); [reflexivity|Lra.lra].
Qed.

Open Scope R_scope.

(** *** Age groups, rating and score *)

(** X14.  [get_age_group] returns one of the twelve group names for every
    age.  The brackets cover the ages 4 to 120; an age below 4 or above
    120 falls through all of them and is classed "Senior", like the ages
    20 to 34: the result is "Senior" for exactly those ages. *)
Theorem age_group_brackets :
  forall age : Z,
    (get_age_group age = "Senior"%string
     <-> (age < 4 \/ 20 <= age <= 34 \/ 120 < age)%Z)
    /\ In (get_age_group age) (map snd AGE_GROUPS).
Proof.
  intros age. unfold get_age_group, AGE_GROUPS. cbn [first_bracket map snd].
  repeat match goal with
         | |- context [(?a <=? ?b)%Z] =>
             destruct (Z.leb_spec a b); cbn [andb]; try (exfalso; lia)
         end;
    (split;
     [ split; [intros Hs; try discriminate Hs; lia
              |intros Hs; try reflexivity; exfalso; lia]
     | cbn [In]; repeat first [left; reflexivity | right] ]).
Qed.

Ltac destruct_scores :=
  unfold py_max, py_min;
  repeat match goal with
         | |- context [Rlt_dec ?x ?y] =>
             lazymatch x with context [Rlt_dec _ _] => fail | _ => idtac end;
             lazymatch y with context [Rlt_dec _ _] => fail | _ => idtac end;
             destruct (Rlt_dec x y)
         end.

Lemma ratio_sign (t e a : R) :
  e < a ->
  ((t - e) / (a - e) <= 0 <-> t <= e) /\ (1 <= (t - e) / (a - e) <-> a <= t).
Proof.
  intros H.
  assert (Hd : 0 < a - e) by Lra.lra.
  assert (Hr : (t - e) / (a - e) * (a - e) = t - e) by (field; Lra.lra).
  set (r := (t - e) / (a - e)) in *. set (d := a - e) in *.
  repeat split; intros H1.
  - assert (r * d <= 0) by Lra.nra. Lra.lra.
  - assert (t - e <= 0) by Lra.lra.
    destruct (Rle_dec r 0) as [|Hn]; [assumption|]. exfalso.
    assert (0 < r * d) by (apply Rmult_lt_0_compat; Lra.lra). Lra.lra.
  - assert (d <= r * d) by Lra.nra. unfold d in *. Lra.lra.
  - destruct (Rle_dec 1 r) as [|Hn]; [assumption|]. exfalso.
    assert (r * d < d) by Lra.nra. unfold d in *. Lra.lra.
Qed.

(** X15.  For a benchmark whose average time is above its excellent time
    [compute_agility_score] is defined and lies between 50 and 100 (the
    fixed turn and acceleration components add 50 to the time score): it
    is 100 exactly for the times up to the excellent time, and 50 exactly
    for the times from the average time on. *)
Theorem agility_score_bounds :
  forall (total_time : R) (benchmark : Benchmark),
    excellent_max_s benchmark < average_max_s benchmark ->
    exists score,
      compute_agility_score total_time benchmark = Some score
      /\ 50 <= score <= 100
      /\ (score = 100 <-> total_time <= excellent_max_s benchmark)
      /\ (score = 50 <-> average_max_s benchmark <= total_time).
Proof.
  intros t b H. unfold compute_agility_score.
  destruct (Req_dec_T (average_max_s b - excellent_max_s b) 0) as [E|_];
    [exfalso; Lra.lra|].
  destruct (ratio_sign t _ _ H) as (H0 & H1).
  set (r := (t - excellent_max_s b) / (average_max_s b - excellent_max_s b))
    in *.
  eexists. split; [reflexivity|].
  destruct_scores;
    (split; [Lra.lra|]);
    (split; split; intros Hs;
     first [ Lra.lra
           | apply H0; Lra.lra
           | apply H1; Lra.lra
           | apply H0 in Hs; Lra.lra
           | apply H1 in Hs; Lra.lra ]).
Qed.

Lemma agility_score_bounds_witness :
  exists score,
    compute_agility_score 9 senior_male = Some score
    /\ 50 <= score <= 100
    /\ (score = 100 <-> 9 <= excellent_max_s senior_male)
    /\ (score = 50 <-> average_max_s senior_male <= 9).
Proof.
  apply (agility_score_bounds 9 senior_male).
  unfold senior_male. cbn [excellent_max_s average_max_s]. Lra.lra.
Defined.

(** X16.  A faster run is never rated or scored worse: for every benchmark
    [compute_rating] of the shorter time is at least as good, and, when
    the benchmark's average time is above its excellent time, so is
    [compute_agility_score]. *)
Theorem faster_never_scores_worse :
  forall (t1 t2 : R) (benchmark : Benchmark),
    t1 <= t2 ->
    (rating_rank (compute_rating t2 benchmark)
     <= rating_rank (compute_rating t1 benchmark))%Z
    /\ (excellent_max_s benchmark < average_max_s benchmark ->
        exists s1 s2,
          compute_agility_score t1 benchmark = Some s1
          /\ compute_agility_score t2 benchmark = Some s2
          /\ s2 <= s1).
Proof.
  intros t1 t2 b H. split.
  - unfold compute_rating.
    repeat match goal with
           | |- context [Rle_dec ?x ?y] => destruct (Rle_dec x y)
           end; cbn [rating_rank]; try lia; exfalso; Lra.lra.
  - intros Hb. unfold compute_agility_score.
    destruct (Req_dec_T (average_max_s b - excellent_max_s b) 0) as [E|_];
      [exfalso; Lra.lra|].
    assert (Hd : 0 < average_max_s b - excellent_max_s b) by Lra.lra.
    assert (Hr : (t2 - excellent_max_s b) / (average_max_s b - excellent_max_s b)
                 - (t1 - excellent_max_s b) / (average_max_s b - excellent_max_s b)
                 = (t2 - t1) / (average_max_s b - excellent_max_s b))
      by (field; Lra.lra).
    assert (Hq : 0 <= (t2 - t1) / (average_max_s b - excellent_max_s b)).
    { apply Rmult_le_pos; [Lra.lra|].
      apply Rlt_le, Rinv_0_lt_compat. exact Hd. }
    set (r1 := (t1 - excellent_max_s b) / _) in *.
    set (r2 := (t2 - excellent_max_s b) / _) in *.
    eexists. eexists. split; [reflexivity|]. split; [reflexivity|].
    destruct_scores; Lra.lra.
Qed.

Lemma faster_never_scores_worse_witness :
  (rating_rank (compute_rating 11 senior_male)
   <= rating_rank (compute_rating 9 senior_male))%Z
  /\ (excellent_max_s senior_male < average_max_s senior_male ->
      exists s1 s2,
        compute_agility_score 9 senior_male = Some s1
        /\ compute_agility_score 11 senior_male = Some s2
        /\ s2 <= s1).
Proof.
  apply (faster_never_scores_worse 9 11 senior_male). Lra.lra.
Defined.

(** *** Preflight *)

(** X17.  Every rejection of the preflight is explained: a result is
    valid exactly when it carries no comment, and exactly when the video
    opens with at least 25 frames per second, 1280 pixels of width and 720
    of height; a valid result reports the video's frame rate. *)
Theorem preflight_rejections_explained :
  forall video : Video,
    (valid (run_preflight_checks video) = true
     <-> comments (run_preflight_checks video) = [])
    /\ (valid (run_preflight_checks video) = true
        <-> is_opened video = true
            /\ (min_fps <= frame_rate video)%Z
            /\ (min_resolution_width <= frame_width video)%Z
            /\ (min_resolution_height <= frame_height video)%Z)
    /\ (valid (run_preflight_checks video) = true ->
        fps (run_preflight_checks video) = frame_rate video).
Proof.
  intros v. unfold run_preflight_checks.
  destruct (is_opened v); cbn [negb].
  - destruct (Z.ltb_spec (frame_rate v) min_fps);
      destruct (Z.ltb_spec (frame_width v) min_resolution_width);
      destruct (Z.ltb_spec (frame_height v) min_resolution_height);
      cbn [orb valid comments fps app];
      repeat split; intros; try discriminate; try lia; try tauto;
      try reflexivity.
  - cbn [valid comments fps]. repeat split; intros; try discriminate; tauto.
Qed.

(** *** Touch events and the pipeline *)

Lemma default_calibration (FrameT : Type) (frames : list FrameT) :
  calibrate_from_markers frames default_known_distance_m
  = mkCalibrationResult (1 / 80) (9 / 10) (100, 500) (900, 500) 10.
Proof.
  unfold calibrate_from_markers, default_known_distance_m. cbn [fst snd].
  replace ((900 - 100) ^ 2 + (500 - 500) ^ 2) with (800 * 800) by ring.
  rewrite sqrt_square by Lra.lra.
  destruct (Rlt_dec 0 800); [|exfalso; Lra.lra].
  f_equal. Lra.lra.
Qed.

Lemma far_from_line (dx dy c : R) :
  0 <= c -> c < dy \/ dy < - c -> ~ sqrt (dx ^ 2 + dy ^ 2) <= c.
Proof.
  intros Hc Hdy Hle.
  assert (Hx : 0 <= dx ^ 2 + dy ^ 2) by Lra.nra.
  pose proof (sqrt_pos (dx ^ 2 + dy ^ 2)) as Hp.
  pose proof (sqrt_sqrt _ Hx) as Hs.
  set (q := sqrt (dx ^ 2 + dy ^ 2)) in *.
  assert (q * q <= c * c) by Lra.nra.
  destruct Hdy; Lra.nra.
Qed.

(** Under the placeholder calibration a pose in normalised coordinates
    is more than six metres from both lines. *)
Lemma normalised_far (pose : PoseKeypoints) (line_x : R) :
  normalised pose ->
  ~ distance_to (mkCalibrationResult (1 / 80) (9 / 10) (100, 500) (900, 500) 10)
      (line_x, 500) pose
    <= touch_distance_threshold_m.
Proof.
  unfold normalised, distance_to, compute_foot_center.
  destruct (left_foot pose) as [[left_x left_y] lv].
  destruct (right_foot pose) as [[right_x right_y] rv].
  intros (H1 & H2 & H3 & H4). cbn [fst snd px_to_m].
  apply far_from_line; unfold touch_distance_threshold_m; Lra.lra.
Qed.

Lemma touches_from_normalised (poses : list PoseKeypoints) :
  forall (idx : nat) (fps : Z),
    Forall normalised poses ->
    touches_from idx poses
      (mkCalibrationResult (1 / 80) (9 / 10) (100, 500) (900, 500) 10) fps
    = [].
Proof.
  induction poses as [|pose rest IH]; intros idx fps Hall; [reflexivity|].
  inversion Hall as [|p r Hp Hr]; subst.
  cbn [touches_from line_a_px line_b_px].
  destruct (Rle_dec _ _) as [Ha|_];
    [exfalso; exact (normalised_far pose 100 Hp Ha)|].
  destruct (Rle_dec _ _) as [Hb|_];
    [exfalso; exact (normalised_far pose 900 Hp Hb)|].
  cbn [app]. apply IH. exact Hr.
Qed.

Lemma extract_poses_spec (video : Video) (pose : PoseKeypoints) :
  In pose (extract_poses video) -> In (Some pose) (pose_landmarks video).
Proof.
  unfold extract_poses. destruct (is_opened video); [|intros []].
  intros H. apply in_flat_map in H. destruct H as (found & Hin & Hp).
  destruct found as [q|]; [|destruct Hp].
  destruct Hp as [->|[]]. exact Hin.
Qed.

Lemma valid_preflight (video : Video) :
  valid (run_preflight_checks video) = true ->
  is_opened video = true
  /\ fps (run_preflight_checks video) = frame_rate video
  /\ (25 <= frame_rate video)%Z.
Proof.
  unfold run_preflight_checks.
  destruct (is_opened video); cbn [negb]; [|intros H; discriminate H].
  destruct (Z.ltb_spec (frame_rate video) min_fps);
    destruct ((frame_width video <? min_resolution_width)%Z
              || (frame_height video <? min_resolution_height)%Z);
    cbn [valid fps]; intros Hv; try discriminate Hv.
  unfold min_fps in *. auto.
Qed.

(** X18.  The pipeline compares the foot centre, scaled by the
    calibration, with the placeholder lines at the pixels (100, 500) and
    (900, 500).  For poses in normalised coordinates (both feet in the
    unit square, as MediaPipe's pose landmarks are) the foot centre is
    more than six metres from both lines in every frame: a video that
    passes the preflight gets no touch, the missing-touches foul, a total
    time of 0 and no suggestion, whatever the athlete does. *)
Theorem normalised_poses_touch_nothing :
  forall (video : Video) (age : Z),
    valid (run_preflight_checks video) = true ->
    (forall pose, In (Some pose) (pose_landmarks video) -> normalised pose) ->
    process_video_task video age
    = Analysed
        (mkAnalysisResult 0 0 [mkFoul "missing_touches" 0 0 1 0] false
           (get_age_group age) "Pending" 0 (9 / 10) []).
Proof.
  intros video age Hv Hn. unfold process_video_task.
  rewrite Hv. cbn [negb]. rewrite default_calibration.
  destruct (valid_preflight video Hv) as (_ & Hf & Hr).
  assert (Hall : Forall normalised (extract_poses video)).
  { apply Forall_forall. intros pose Hp. apply Hn.
    apply extract_poses_spec. exact Hp. }
  unfold detect_touches.
  destruct (extract_poses video) as [|pose rest] eqn:Ep.
  - unfold detect_fouls, generate_suggestions, detect_cheating.
    cbn [length Nat.ltb Nat.leb existsb foul_type confidence].
    destruct (Rlt_dec 12 0); [exfalso; Lra.lra|]. reflexivity.
  - rewrite Hf. destruct (Z.eqb_spec (frame_rate video) 0); [lia|].
    rewrite (touches_from_normalised _ 0 _ Hall).
    unfold detect_fouls, generate_suggestions, detect_cheating.
    cbn [length Nat.ltb Nat.leb existsb foul_type confidence].
    destruct (Rlt_dec 12 0); [exfalso; Lra.lra|]. reflexivity.
Qed.

Lemma mid_image_normalised : normalised mid_image.
Proof.
  unfold normalised, mid_image. cbn [left_foot right_foot]. Lra.lra.
Qed.

Lemma normalised_poses_touch_nothing_witness :
  process_video_task
    (hd_video [Some mid_image; None; Some mid_image; Some mid_image;
               Some mid_image])
    20
  = Analysed
      (mkAnalysisResult 0 0 [mkFoul "missing_touches" 0 0 1 0] false
         (get_age_group 20) "Pending" 0 (9 / 10) []).
Proof.
  apply (normalised_poses_touch_nothing
           (hd_video [Some mid_image; None; Some mid_image; Some mid_image;
                      Some mid_image]) 20).
  - reflexivity.
  - intros pose Hin. cbn [hd_video pose_landmarks In] in Hin.
    repeat match type of Hin with
           | _ \/ _ => destruct Hin as [Hin|Hin]
           end;
      try discriminate Hin; try contradiction;
      inversion Hin; subst; exact mid_image_normalised.
Defined.

Lemma placeholder_calibration_value :
  placeholder_calibration
  = mkCalibrationResult (1 / 80) (9 / 10) (100, 500) (900, 500) 10.
Proof. apply default_calibration. Qed.

Lemma no_lane_deviation (touches : list TouchEvent) (poses : list PoseKeypoints) :
  existsb (fun f => String.eqb (foul_type f) "lane_deviation")
    (detect_fouls touches poses) = false.
Proof.
  unfold detect_fouls. destruct (length touches <? 4)%nat; reflexivity.
Qed.

(** What the pipeline returns for a video that passes the preflight. *)
Lemma pipeline_after_preflight (video : Video) (age : Z) :
  valid (run_preflight_checks video) = true ->
  let poses := extract_poses video in
  let touches :=
    touches_from 0 poses placeholder_calibration (frame_rate video) in
  let total_time :=
    match touches with
    | first :: _ :: _ :: fourth :: _ => time_s fourth - time_s first
    | _ => 0
    end in
  process_video_task video age
  = Analysed
      (mkAnalysisResult total_time (length touches)
         (detect_fouls touches poses) false (get_age_group age) "Pending" 0
         (9 / 10)
         (if Rlt_dec 12 total_time then [turn_efficiency] else [])).
Proof.
  intros Hv. cbv zeta. unfold process_video_task.
  rewrite Hv. cbn [negb]. rewrite default_calibration.
  rewrite placeholder_calibration_value.
  destruct (valid_preflight video Hv) as (_ & Hf & Hr).
  unfold detect_touches, generate_suggestions, detect_cheating.
  rewrite Hf.
  destruct (extract_poses video) as [|pose rest] eqn:Ep.
  - cbn [touches_from]. rewrite no_lane_deviation. reflexivity.
  - destruct (Z.eqb_spec (frame_rate video) 0); [lia|].
    rewrite no_lane_deviation. reflexivity.
Qed.

Lemma touches_from_facts (poses : list PoseKeypoints) :
  forall (idx : nat) (calibration : CalibrationResult) (fps : Z),
    Forall (fun t => (idx <= frame_idx t)%nat
                     /\ time_s t = INR (frame_idx t) / IZR fps)
      (touches_from idx poses calibration fps)
    /\ StronglySorted (fun a b => (frame_idx a < frame_idx b)%nat)
         (touches_from idx poses calibration fps)
    /\ (length (touches_from idx poses calibration fps) <= length poses)%nat.
Proof.
  induction poses as [|pose rest IH]; intros idx cal fps.
  - cbn [touches_from length]. repeat split; constructor.
  - destruct (IH (S idx) cal fps) as (I1 & I2 & I3).
    assert (I1' : Forall (fun t => (idx <= frame_idx t)%nat
                                   /\ time_s t = INR (frame_idx t) / IZR fps)
                    (touches_from (S idx) rest cal fps)).
    { apply Forall_impl with (2 := I1). intros t (Ha & Hb). split; [lia|exact Hb]. }
    assert (I1'' : forall x, frame_idx x = idx ->
                     Forall (fun b => (frame_idx x < frame_idx b)%nat)
                       (touches_from (S idx) rest cal fps)).
    { intros x Hx. apply Forall_impl with (2 := I1).
      intros t (Ha & _). lia. }
    cbn [touches_from length].
    destruct (Rle_dec _ _); [|destruct (Rle_dec _ _)]; cbn [app length].
    + repeat split.
      * constructor; [cbn [frame_idx time_s]; split; [lia|reflexivity]|exact I1'].
      * constructor; [exact I2|apply I1''; reflexivity].
      * lia.
    + repeat split.
      * constructor; [cbn [frame_idx time_s]; split; [lia|reflexivity]|exact I1'].
      * constructor; [exact I2|apply I1''; reflexivity].
      * lia.
    + repeat split; [exact I1'|exact I2|lia].
Qed.

Lemma extract_poses_length (video : Video) :
  (length (extract_poses video) <= length (pose_landmarks video))%nat.
Proof.
  unfold extract_poses. destruct (is_opened video); [|cbn [length]; lia].
  induction (pose_landmarks video) as [|found l IH]; [cbn; lia|].
  cbn [flat_map]. rewrite length_app. destruct found; cbn [length]; lia.
Qed.

Lemma invalid_preflight_comments (video : Video) :
  valid (run_preflight_checks video) = false ->
  comments (run_preflight_checks video) <> [].
Proof.
  unfold run_preflight_checks.
  destruct (is_opened video); cbn [negb];
    [|intros _ H; discriminate H].
  destruct (frame_rate video <? min_fps)%Z;
    destruct ((frame_width video <? min_resolution_width)%Z
              || (frame_height video <? min_resolution_height)%Z);
    cbn [valid comments app]; intros Hv H; discriminate.
Qed.

(** X19.  What [process_video_task] can return.  A failed preflight
    carries at least one comment; the division by the frame rate never
    fails (the preflight has rejected a frame rate below 25); and in a
    result the total time is not negative, there is at most one touch per
    frame, the lane-control suggestion never appears, fewer than four
    touches give the total time 0, no suggestion and the one
    missing-touches foul, and four or more touches give no foul. *)
Theorem analysis_outcome_shape :
  forall (video : Video) (age : Z),
    match process_video_task video age with
    | PreflightFailed comments => comments <> []
    | TaskError => False
    | Analysed result =>
        0 <= total_time_s result
        /\ (touches_detected result <= length (pose_landmarks video))%nat
        /\ ~ In lane_control (suggestions result)
        /\ ((touches_detected result < 4)%nat ->
            total_time_s result = 0 /\ suggestions result = []
            /\ fouls result
               = [mkFoul "missing_touches" 0 0 1 (touches_detected result)])
        /\ ((4 <= touches_detected result)%nat -> fouls result = [])
    end.
Proof.
  intros video age.
  destruct (valid (run_preflight_checks video)) eqn:Hv.
  2:{ unfold process_video_task. rewrite Hv. cbn [negb].
      apply invalid_preflight_comments. exact Hv. }
  rewrite (pipeline_after_preflight video age Hv).
  destruct (valid_preflight video Hv) as (_ & _ & Hr).
  destruct (touches_from_facts (extract_poses video) 0 placeholder_calibration
              (frame_rate video)) as (F1 & F2 & F3).
  pose proof (extract_poses_length video) as Hl.
  set (touches := touches_from 0 (extract_poses video) placeholder_calibration
                    (frame_rate video)) in *.
  cbn [total_time_s touches_detected suggestions fouls].
  assert (Hfps : 0 < IZR (frame_rate video)) by (apply IZR_lt; lia).
  assert (Htime : 0 <= match touches with
                       | first :: _ :: _ :: fourth :: _ =>
                           time_s fourth - time_s first
                       | _ => 0
                       end).
  { destruct touches as [|t0 [|t1 [|t2 [|t3 rest]]]]; try Lra.lra.
    inversion F2 as [|a l _ Hlt]; subst.
    inversion Hlt as [|b1 l1 _ Hlt1]; subst.
    inversion Hlt1 as [|b2 l2 _ Hlt2]; subst.
    inversion Hlt2 as [|b3 l3 H03 _]; subst.
    inversion F1 as [|a l (_ & E0) F1a]; subst.
    inversion F1a as [|a1 l1 _ F1b]; subst.
    inversion F1b as [|a2 l2 _ F1c]; subst.
    inversion F1c as [|a3 l3 (_ & E3) _]; subst.
    rewrite E0, E3. apply lt_INR in H03.
    unfold Rdiv. pose proof (Rinv_0_lt_compat _ Hfps). Lra.nra. }
  split; [exact Htime|]. split; [lia|]. split.
  - destruct (Rlt_dec 12 _); cbn [In];
      [intros [H|[]]; discriminate H|intros []].
  - unfold detect_fouls. split.
    + intros Hlt. apply Nat.ltb_lt in Hlt. rewrite Hlt.
      apply Nat.ltb_lt in Hlt.
      destruct touches as [|t0 [|t1 [|t2 [|t3 rest]]]];
        cbn [length] in Hlt; try lia;
        (destruct (Rlt_dec 12 0); [exfalso; Lra.lra|]); auto.
    + intros Hge. apply Nat.ltb_ge in Hge. rewrite Hge. reflexivity.
Qed.

Lemma touches_from_standing (pose : PoseKeypoints)
  (calibration : CalibrationResult) (fps : Z) (n : nat) :
  distance_to calibration (line_a_px calibration) pose
  <= touch_distance_threshold_m ->
  forall idx : nat,
    touches_from idx (repeat pose n) calibration fps
    = map (fun i =>
             mkTouchEvent A (INR i / IZR fps) i
               (distance_to calibration (line_a_px calibration) pose)
               (9 / 10))
        (seq idx n).
Proof.
  intros Hd. induction n as [|n IH]; intros idx; [reflexivity|].
  cbn [repeat touches_from seq map].
  destruct (Rle_dec _ _) as [_|Hn]; [|exfalso; exact (Hn Hd)].
  cbn [app]. rewrite IH. reflexivity.
Qed.

Lemma extract_poses_repeat (video : Video) (pose : PoseKeypoints) (n : nat) :
  is_opened video = true ->
  pose_landmarks video = repeat (Some pose) n ->
  extract_poses video = repeat pose n.
Proof.
  intros Ho Hp. unfold extract_poses. rewrite Ho, Hp. clear Hp.
  induction n as [|n IH]; [reflexivity|].
  cbn [repeat flat_map app]. rewrite IH. reflexivity.
Qed.


Lemma on_line_a_touches :
  distance_to placeholder_calibration (line_a_px placeholder_calibration)
    on_line_a
  <= touch_distance_threshold_m.
Proof.
  rewrite placeholder_calibration_value.
  unfold distance_to, compute_foot_center, on_line_a.
  cbn [left_foot right_foot line_a_px px_to_m fst snd].
  replace (((100 + 100) / 2 * (1 / 80) - 100 * (1 / 80)) ^ 2
           + ((500 + 500) / 2 * (1 / 80) - 500 * (1 / 80)) ^ 2)
    with 0 by field.
  rewrite sqrt_0. unfold touch_distance_threshold_m. Lra.lra.
Qed.


Lemma flat_map_gap (before after : list (option PoseKeypoints)) (n : nat) :
  flat_map (fun found : option PoseKeypoints =>
              match found with
              | Some pose => [pose]
              | None => []
              end)
    (before ++ repeat None n ++ after)
  = flat_map (fun found : option PoseKeypoints =>
                match found with
                | Some pose => [pose]
                | None => []
                end)
      (before ++ after).
Proof.
  rewrite !flat_map_app. f_equal.
  induction n as [|n IH]; [reflexivity|]. cbn [repeat flat_map app]. exact IH.
Qed.

(** X21.  Frames in which no pose is found do not advance the clock:
    the time of a touch is its index among the frames with a pose over the
    frame rate, so a video with such frames inserted anywhere gets the
    same result as the video without them. *)
Theorem undetected_frames_stop_the_clock :
  forall (opened : bool) (rate width height : Z)
         (before after : list (option PoseKeypoints)) (n : nat) (age : Z),
    process_video_task
      (mkVideo opened rate width height (before ++ repeat None n ++ after)) age
    = process_video_task
        (mkVideo opened rate width height (before ++ after)) age.
Proof.
  intros opened rate width height before after n age.
  unfold process_video_task, run_preflight_checks, extract_poses.
  cbn [is_opened frame_rate frame_width frame_height pose_landmarks].
  rewrite flat_map_gap. rewrite !default_calibration. reflexivity.
Qed.

End ShuttleRunTheory.

(** ** Sit and reach: the baseline and the course of a test *)

Module SitReachTheory.
Import PyNum SitReach.
Open Scope Q_scope.

Lemma same_baseline_refl (s : SitReachTest) : same_baseline s s.
Proof. repeat split. Qed.

Lemma same_baseline_trans (s1 s2 s3 : SitReachTest) :
  same_baseline s1 s2 -> same_baseline s2 s3 -> same_baseline s1 s3.
Proof.
  unfold same_baseline. intros (a & b & c & d) (a' & b' & c' & d').
  repeat split; congruence.
Qed.

Lemma calibrate_with_standard_box_baseline (s : SitReachTest)
    (kps : option (list Keypoint)) :
  same_baseline s (fst (calibrate_with_standard_box s kps)).
Proof.
  unfold calibrate_with_standard_box.
  destruct (has_17 kps); [|apply same_baseline_refl].
  destruct (forallb _ _); [|apply same_baseline_refl].
  destruct (Qltb 100 _); [|apply same_baseline_refl].
  repeat split.
Qed.

Lemma detect_aruco_baseline (s : SitReachTest) (f : Frame) :
  same_baseline s (fst (detect_aruco_and_calibrate s f)).
Proof.
  unfold detect_aruco_and_calibrate.
  destruct (aruco_marker f) as [[a b]|]; repeat split.
Qed.

(** "If baseline already set (from first attempt), keep using it". *)
Lemma detect_box_baseline_locked (s : SitReachTest)
    (kps : option (list Keypoint)) (lm : option BlazePose) (frame_w : Z) :
  baseline_locked s = true ->
  detect_box_baseline s kps lm frame_w = (s, true).
Proof. intros H. unfold detect_box_baseline. rewrite H. reflexivity. Qed.

(** No state of the machine writes a locked baseline. *)
Lemma state_machine_baseline (s : SitReachTest) (f : Frame) :
  baseline_locked s = true -> same_baseline s (state_machine s f).
Proof.
  intros Hl. unfold state_machine, state_machine_pass.
  set (s1 := match has_17 (keypoints f) with Some _ => _ | None => s end).
  assert (H1 : same_baseline s s1).
  { subst s1. destruct (has_17 (keypoints f));
      [apply calibrate_with_standard_box_baseline|apply same_baseline_refl]. }
  assert (Hl1 : baseline_locked s1 = true).
  { destruct H1 as (_ & _ & H & _). congruence. }
  clearbody s1.
  apply (same_baseline_trans _ _ _ H1).
  destruct (state s1); cbn [fst].
  - (* SETUP_GUIDE *)
    destruct (check_setup_position f); [|apply same_baseline_refl].
    destruct (0 <? _)%Z; repeat split.
  - (* CALIBRATION *)
    pose proof (detect_aruco_baseline s1 f) as Ha.
    destruct (detect_aruco_and_calibrate s1 f) as [s2 found].
    cbn [fst] in Ha. apply (same_baseline_trans _ _ _ Ha).
    destruct found.
    + cbn [orb]. destruct (0 <? _)%Z; repeat split.
    + pose proof (calibrate_with_standard_box_baseline s2 (keypoints f)) as Hb.
      destruct (calibrate_with_standard_box s2 (keypoints f)) as [s3 auto].
      cbn [fst] in Hb. apply (same_baseline_trans _ _ _ Hb).
      cbn [orb]. destruct auto.
      * destruct (0 <? _)%Z; repeat split.
      * destruct (calibration_key f); repeat split.
  - (* RULER_CALIBRATION *)
    destruct (length (ruler_points s1) =? 2)%nat; [|apply same_baseline_refl].
    destruct (ruler_key f); repeat split.
  - (* READY *)
    unfold ready_pass. rewrite detect_box_baseline_locked by exact Hl1.
    destruct (ready_raises s1 true); [apply same_baseline_refl|].
    destruct (check_starting_position f); [|repeat split].
    destruct (ready_started s1); repeat split.
  - (* COUNTDOWN *)
    destruct (0 <? _)%Z; repeat split.
  - (* MEASURING *)
    match goal with
    | |- context [Qltb (max_reach_cm ?x) ?r] =>
        destruct (Qltb (max_reach_cm x) r)
    end;
      (destruct (Qle_bool _ 0); [|repeat split];
       destruct (max_attempts <=? _)%Z; repeat split).
  - (* ATTEMPT_RESULT *)
    destruct (0 <? _)%Z; repeat split.
  - (* COMPLETE *)
    apply same_baseline_refl.
Qed.

Lemma run_test_baseline (fs : list Frame) :
  forall s : SitReachTest,
    baseline_locked s = true -> same_baseline s (run_test s fs).
Proof.
  induction fs as [|f fs IH]; intros s Hl; [apply same_baseline_refl|].
  cbn [run_test]. unfold loop_pass.
  pose proof (state_machine_baseline s f Hl) as Hs.
  destruct (ret f); [|apply same_baseline_refl].
  unfold state_machine in *.
  destruct (state_machine_pass s f) as [s' raised]. cbn [fst] in Hs |- *.
  assert (Hl' : baseline_locked s' = true).
  { destruct Hs as (_ & _ & H & _). congruence. }
  destruct raised; [exact Hs|].
  destruct (key f); try destruct (state s');
    try exact Hs;
    exact (same_baseline_trans _ _ _ Hs (IH _ Hl')).
Qed.

(** X3.  Once the baseline is locked (ten samples taken, their mean
    stored), every pass of the test's loop leaves the stored baseline as it
    is: after any sequence of frames of the test, through the countdown,
    the measurement and the result screen of each attempt and into the next
    attempt, [baseline_x] and [baseline_y] are the locked values, the lock
    is still set and no sample is added. *)
Theorem baseline_immutable_once_locked :
  forall (s : SitReachTest) (fs : list Frame),
    baseline_locked s = true ->
    baseline (run_test s fs) = baseline s
    /\ baseline_locked (run_test s fs) = true
    /\ baseline_samples (run_test s fs) = baseline_samples s.
Proof.
  intros s fs Hl.
  destruct (run_test_baseline fs s Hl) as (Hx & Hy & Hk & Hs).
  unfold baseline. rewrite Hx, Hy, Hk, Hs. auto.
Qed.

Lemma baseline_immutable_once_locked_witness :
  baseline (run_test (run_test init locking_frames) attempt_frames)
  = baseline (run_test init locking_frames)
  /\ baseline_locked (run_test (run_test init locking_frames) attempt_frames)
     = true
  /\ baseline_samples (run_test (run_test init locking_frames) attempt_frames)
     = baseline_samples (run_test init locking_frames).
Proof.
  apply (baseline_immutable_once_locked (run_test init locking_frames)
           attempt_frames).
  vm_compute. reflexivity.
Defined.

(** *** Before the lock, and after a restart *)

Lemma calibrate_with_standard_box_state (s : SitReachTest)
    (kps : option (list Keypoint)) :
  state (fst (calibrate_with_standard_box s kps)) = state s.
Proof.
  unfold calibrate_with_standard_box.
  destruct (has_17 kps); [|reflexivity].
  destruct (forallb _ _); [|reflexivity].
  destruct (Qltb 100 _); reflexivity.
Qed.

(** X2.  While the baseline is not locked, a READY pass that sees both
    toes stores the forward toe's pixel column as the baseline, whatever
    was stored before; below ten samples the lock stays open. *)
Theorem unlocked_baseline_follows_toes :
  forall (s : SitReachTest) (f : Frame) (lm : BlazePose),
    state s = READY -> baseline_locked s = false ->
    (S (length (baseline_samples s)) < 10)%nat ->
    blazepose_landmarks f = Some lm ->
    Qltb (1 # 2) (visibility (LEFT_FOOT_INDEX lm)) = true ->
    Qltb (1 # 2) (visibility (RIGHT_FOOT_INDEX lm)) = true ->
    baseline_x (state_machine s f)
    = Some (Z.max (py_int (lx (LEFT_FOOT_INDEX lm) * inject_Z (w f)))
                  (py_int (lx (RIGHT_FOOT_INDEX lm) * inject_Z (w f))))
    /\ baseline_locked (state_machine s f) = false.
Proof.
  intros s f lm Hst Hl Hn Hlm Hlv Hrv.
  unfold state_machine, state_machine_pass.
  set (s1 := match has_17 (keypoints f) with Some _ => _ | None => s end).
  assert (H1 : same_baseline s s1 /\ state s1 = state s).
  { subst s1. destruct (has_17 (keypoints f)).
    - split; [apply calibrate_with_standard_box_baseline
             |apply calibrate_with_standard_box_state].
    - split; [apply same_baseline_refl|reflexivity]. }
  destruct H1 as ((_ & _ & Hk & Hs) & Hst1). clearbody s1.
  rewrite Hst1, Hst. unfold ready_pass, detect_box_baseline.
  rewrite Hk, Hl, Hlm, Hlv, Hrv. cbn [orb andb].
  unfold take_sample.
  cbn [set_baseline_x set_baseline_y set_baseline_samples baseline_samples].
  rewrite Hs.
  assert (Hlen : (10 <=? length (baseline_samples s ++ [Z.max
             (py_int (lx (LEFT_FOOT_INDEX lm) * inject_Z (w f)))
             (py_int (lx (RIGHT_FOOT_INDEX lm) * inject_Z (w f)))]))%nat = false).
  { apply Nat.leb_gt. rewrite length_app. cbn [length]. lia. }
  rewrite Hlen. rewrite Hl in Hk. unfold ready_raises.
  cbn [baseline_x baseline_y set_baseline_x set_baseline_y
       set_baseline_samples].
  destruct (check_starting_position f); [|split; [reflexivity|exact Hk]].
  cbn [ready_started set_baseline_x set_baseline_y set_baseline_samples].
  destruct (ready_started s1); (split; [reflexivity|exact Hk]).
Qed.

Lemma unlocked_baseline_follows_toes_witness :
  baseline_x (state_machine init (seated 1 (7 # 10)))
  = Some (Z.max
            (py_int (lx (LEFT_FOOT_INDEX (toes_at (7 # 10)))
                     * inject_Z (w (seated 1 (7 # 10)))))
            (py_int (lx (RIGHT_FOOT_INDEX (toes_at (7 # 10)))
                     * inject_Z (w (seated 1 (7 # 10))))))
  /\ baseline_locked (state_machine init (seated 1 (7 # 10))) = false.
Proof.
  apply (unlocked_baseline_follows_toes init (seated 1 (7 # 10))
           (toes_at (7 # 10))); try reflexivity.
  cbn [init baseline_samples length]. lia.
Defined.

(** C9, at an input where it breaks.  Nothing makes the countdown wait
    for the lock: a subject who is in the starting position from the first
    frame starts it on the first READY pass, after one sample.  The first
    attempt is then recorded against the baseline 512 with the lock open,
    and the READY pass of the second attempt, with the toes elsewhere in
    the picture, moves the stored baseline to 544. *)
Theorem baseline_moves_between_unlocked_attempts :
  baseline_x (run_test init prompt_first_attempt) = Some 512%Z
  /\ length (attempts (run_test init prompt_first_attempt)) = 1%nat
  /\ baseline_locked (run_test init prompt_first_attempt) = false
  /\ state (run_test init prompt_first_attempt) = READY
  /\ baseline_x (run_test init (prompt_first_attempt ++ [seated 19 (85 # 100)]))
     = Some 544%Z
  /\ state (run_test init (prompt_first_attempt ++ [seated 19 (85 # 100)]))
     = COUNTDOWN.
Proof. vm_compute. repeat split; reflexivity. Qed.

(** X4.  [r] on the results screen runs [__init__] again, which sets
    [baseline_x] and [baseline_y] to [None] but does not touch
    [baseline_locked].  After a test that locked its baseline,
    [detect_box_baseline] therefore answers [True] without storing
    anything, and the first pass of the restarted test that reads a frame
    computes [self.baseline_y - 100] on [None]: the pass raises, no later
    frame is processed, and the restarted test ends in READY with no
    baseline and no attempt recorded. *)
Theorem restart_after_lock_raises :
  forall (s : SitReachTest) (f : Frame) (fs : list Frame),
    baseline_locked s = true -> ret f = true ->
    snd (state_machine_pass (reinit s) f) = true
    /\ loop_pass (reinit s) f = Raised (state_machine (reinit s) f)
    /\ run_test (reinit s) (f :: fs) = state_machine (reinit s) f
    /\ state (run_test (reinit s) (f :: fs)) = READY
    /\ baseline (run_test (reinit s) (f :: fs)) = (None, None)
    /\ attempts (run_test (reinit s) (f :: fs)) = [].
Proof.
  intros s f fs Hl Hret.
  assert (H : exists s1,
             state_machine_pass (reinit s) f = (s1, true)
             /\ state s1 = READY /\ baseline s1 = (None, None)
             /\ attempts s1 = []).
  { unfold state_machine_pass.
    set (s1 := match has_17 (keypoints f) with
               | Some _ => _
               | None => reinit s
               end).
    assert (H1 : same_baseline (reinit s) s1
                 /\ state s1 = READY /\ attempts s1 = []).
    { subst s1. destruct (has_17 (keypoints f)).
      - split; [apply calibrate_with_standard_box_baseline|].
        unfold calibrate_with_standard_box.
        destruct (has_17 (keypoints f)); [|split; reflexivity].
        destruct (forallb _ _); [|split; reflexivity].
        destruct (Qltb 100 _); split; reflexivity.
      - split; [apply same_baseline_refl|split; reflexivity]. }
    clearbody s1. destruct H1 as ((Hx & Hy & Hk & _) & Hst & Hat).
    cbn [reinit baseline_x baseline_y baseline_locked] in Hx, Hy, Hk.
    exists s1. rewrite Hst. unfold ready_pass.
    rewrite detect_box_baseline_locked by congruence.
    unfold ready_raises, baseline. rewrite Hx, Hy. auto. }
  destruct H as (s1 & Hp & Hst & Hb & Hat).
  assert (Hrun : run_test (reinit s) (f :: fs) = s1).
  { cbn [run_test]. unfold loop_pass. rewrite Hret, Hp. reflexivity. }
  rewrite Hrun. unfold loop_pass, state_machine. rewrite Hret, Hp.
  cbn [fst snd]. repeat split; assumption.
Qed.

Lemma restart_after_lock_raises_witness :
  snd (state_machine_pass (reinit (run_test init locking_frames))
         (seated 20 (85 # 100))) = true
  /\ loop_pass (reinit (run_test init locking_frames)) (seated 20 (85 # 100))
     = Raised (state_machine (reinit (run_test init locking_frames))
                 (seated 20 (85 # 100)))
  /\ run_test (reinit (run_test init locking_frames))
       (seated 20 (85 # 100) :: attempt_frames)
     = state_machine (reinit (run_test init locking_frames))
         (seated 20 (85 # 100))
  /\ state (run_test (reinit (run_test init locking_frames))
              (seated 20 (85 # 100) :: attempt_frames)) = READY
  /\ baseline (run_test (reinit (run_test init locking_frames))
                 (seated 20 (85 # 100) :: attempt_frames)) = (None, None)
  /\ attempts (run_test (reinit (run_test init locking_frames))
                 (seated 20 (85 # 100) :: attempt_frames)) = [].
Proof.
  apply (restart_after_lock_raises (run_test init locking_frames)
           (seated 20 (85 # 100)) attempt_frames).
  - vm_compute. reflexivity.
  - reflexivity.
Defined.

(** *** The course of a test *)

Ltac fields :=
  cbn [state pixels_per_cm is_calibrated calibration_method baseline_x
       baseline_y baseline_locked baseline_samples ruler_points attempts
       current_attempt max_reach_cm ready_started countdown_start
       attempt_start_time result_show_time setup_complete_time
       calibration_complete_time
       set_state set_pixels_per_cm set_is_calibrated set_calibration_method
       set_baseline_x set_baseline_y set_baseline_locked set_baseline_samples
       set_ruler_points set_attempts set_current_attempt set_max_reach_cm
       set_ready_started set_countdown_start set_attempt_start_time
       set_result_show_time set_setup_complete_time
       set_calibration_complete_time fst snd] in *.

Lemma same_log_well_run (s s' : SitReachTest) :
  same_log s s' -> well_run s -> well_run s'.
Proof.
  unfold same_log, well_run.
  intros (E1 & E2 & E3 & E4 & E5 & E6 & E7).
  rewrite E1, E2, E3, E4, E5, E6, E7. auto.
Qed.

Lemma take_sample_log (bx by_ : Z) (s : SitReachTest) :
  same_log s (take_sample bx by_ s).
Proof.
  unfold take_sample. cbv zeta.
  destruct (10 <=? _)%nat; repeat split.
Qed.

Lemma detect_box_baseline_log (s : SitReachTest)
    (kps : option (list Keypoint)) (lm : option BlazePose) (frame_w : Z) :
  same_log s (fst (detect_box_baseline s kps lm frame_w)).
Proof.
  unfold detect_box_baseline.
  destruct (baseline_locked s); [repeat split|].
  cbv zeta.
  assert (Hy : same_log s
                 (fst match has_17 kps with
                      | None => (s, false)
                      | Some l =>
                          if Qltb (4 # 10) (kc (kp l 15))
                             || Qltb (4 # 10) (kc (kp l 16))
                          then
                            if Qltb (4 # 10) (kc (kp l 15))
                               && Qltb (4 # 10) (kc (kp l 16))
                            then
                              (take_sample
                                 (py_int (py_max (kx (kp l 15)) (kx (kp l 16))))
                                 (py_int ((ky (kp l 15) + ky (kp l 16)) / 2)) s,
                               true)
                            else if Qltb (4 # 10) (kc (kp l 15)) then
                              (take_sample (py_int (kx (kp l 15)))
                                 (py_int (ky (kp l 15))) s, true)
                            else
                              (take_sample (py_int (kx (kp l 16)))
                                 (py_int (ky (kp l 16))) s, true)
                          else (s, false)
                      end)).
  { destruct (has_17 kps) as [l|]; [|repeat split].
    destruct (_ || _); [|repeat split].
    destruct (_ && _); [apply take_sample_log|].
    destruct (Qltb _ _); apply take_sample_log. }
  destruct lm as [lm|]; [|exact Hy].
  destruct (_ || _); [|exact Hy].
  destruct (_ && _); [apply take_sample_log|].
  destruct (Qltb _ _); apply take_sample_log.
Qed.

Lemma calibrate_with_standard_box_well_run (s : SitReachTest)
    (kps : option (list Keypoint)) :
  well_run s ->
  well_run (fst (calibrate_with_standard_box s kps))
  /\ state (fst (calibrate_with_standard_box s kps)) = state s.
Proof.
  intros H. unfold calibrate_with_standard_box.
  destruct (has_17 kps) as [l|]; [|split; [exact H|reflexivity]].
  cbv zeta.
  destruct (forallb _ _); [|split; [exact H|reflexivity]].
  destruct (Qltb 100 _) eqn:E; [|split; [exact H|reflexivity]].
  split; [|reflexivity].
  apply SitupsTheory.Qltb_true_iff in E.
  unfold well_run in *. fields.
  destruct H as (_ & _ & _ & H4 & H5 & H6 & H7 & H8).
  repeat split; auto.
  apply Qlt_shift_div_l; [reflexivity|]. lra.
Qed.

(** The measurement of a frame is never negative. *)
Lemma ensemble_reach_nonneg (s : SitReachTest) (f : Frame) :
  0 <= ensemble_reach s f.
Proof.
  unfold ensemble_reach. cbv zeta.
  set (ry := measure_reach s (keypoints f)).
  set (rb := match blazepose_landmarks f with
             | Some lm => measure_reach_blazepose s lm (w f)
             | None => 0
             end).
  destruct (Qltb 0 ry) eqn:Ey; destruct (Qltb 0 rb) eqn:Eb; cbn [andb];
    try apply SitupsTheory.Qltb_true_iff in Ey; try apply SitupsTheory.Qltb_true_iff in Eb; lra.
Qed.

Lemma state_machine_well_run (s : SitReachTest) (f : Frame) :
  well_run s -> well_run (state_machine s f).
Proof.
  intros H. unfold state_machine, state_machine_pass.
  set (s1 := match has_17 (keypoints f) with Some _ => _ | None => s end).
  assert (H1 : well_run s1).
  { subst s1. destruct (has_17 (keypoints f)); [|exact H].
    apply calibrate_with_standard_box_well_run. exact H. }
  clearbody s1. clear H s.
  destruct (state s1) eqn:Est; cbn [fst];
    try (exfalso; unfold well_run in H1; rewrite Est in H1; tauto).
  - (* READY *)
    unfold ready_pass.
    pose proof (detect_box_baseline_log s1 (keypoints f)
                  (blazepose_landmarks f) (w f)) as Hb.
    destruct (detect_box_baseline s1 (keypoints f) (blazepose_landmarks f) (w f))
      as [s2 found].
    cbn [fst] in Hb.
    assert (H2 : well_run s2) by (exact (same_log_well_run _ _ Hb H1)).
    assert (Est2 : state s2 = READY).
    { destruct Hb as (E & _). congruence. }
    destruct (ready_raises s2 found); [exact H2|].
    unfold well_run in H2. rewrite Est2 in H2.
    destruct H2 as (A1 & A2 & A3 & A4 & A5 & A6 & A7 & A8).
    destruct found;
      [destruct (check_starting_position f);
       [destruct (ready_started s2)|]|];
      unfold well_run; fields; rewrite ?Est2; repeat split; auto; lra.
  - (* COUNTDOWN *)
    unfold well_run in H1. rewrite Est in H1.
    destruct H1 as (A1 & A2 & A3 & A4 & A5 & A6 & A7 & A8).
    destruct (0 <? _)%Z; unfold well_run; fields; rewrite ?Est;
      repeat split; auto.
  - (* MEASURING *)
    unfold well_run in H1. rewrite Est in H1.
    destruct H1 as (A1 & A2 & A3 & A4 & A5 & A6 & A7 & A8).
    cbv zeta.
    set (s2 := set_attempt_start_time _ s1).
    pose proof (ensemble_reach_nonneg s2 f) as Hr.
    set (s3 := if Qltb (max_reach_cm s2) (ensemble_reach s2 f)
               then set_max_reach_cm (ensemble_reach s2 f) s2 else s2).
    assert (B : state s3 = MEASURING /\ pixels_per_cm s3 = pixels_per_cm s1
                /\ is_calibrated s3 = is_calibrated s1
                /\ calibration_method s3 = calibration_method s1
                /\ current_attempt s3 = current_attempt s1
                /\ attempts s3 = attempts s1 /\ 0 <= max_reach_cm s3).
    { subst s3 s2. destruct (Qltb _ _); fields; repeat split; auto. }
    clearbody s3. destruct B as (B1 & B2 & B3 & B4 & B5 & B6 & B7).
    destruct (Qle_bool _ 0).
    + fields. rewrite B5, B6.
      assert (Hlen : length (attempts s1 ++
                               [mkAttempt (current_attempt s1 + 1)
                                  (max_reach_cm s3) true])
                     = S (length (attempts s1))).
      { rewrite length_app. cbn [length]. lia. }
      destruct (Z.leb_spec max_attempts (current_attempt s1 + 1)) as [Hc|Hc];
        unfold max_attempts in Hc;
        unfold well_run; fields; rewrite ?B2, ?B3, ?B4, ?Hlen;
        (split; [exact A1|]); (split; [exact A2|]); (split; [exact A3|]);
        (split; [lia|]);
        (split;
         [rewrite map_app, seq_S, map_app, A5; cbn [map attempt app];
          f_equal; f_equal; lia|]);
        (split;
         [apply Forall_app; split; [exact A6|];
          constructor; [cbn [valid reach_cm]; auto|constructor]|]);
        (split; [exact B7|]); lia.
    + unfold well_run. rewrite B1, B2, B3, B4, B5, B6. repeat split; auto.
  - (* ATTEMPT_RESULT *)
    unfold well_run in H1. rewrite Est in H1.
    destruct H1 as (A1 & A2 & A3 & A4 & A5 & A6 & A7 & A8).
    destruct (0 <? _)%Z; unfold well_run; fields; rewrite ?Est;
      repeat split; auto; lra.
  - (* COMPLETE *)
    exact H1.
Qed.

Lemma run_test_well_run (fs : list Frame) :
  forall s : SitReachTest, well_run s -> well_run (run_test s fs).
Proof.
  induction fs as [|f fs IH]; intros s H; [exact H|].
  cbn [run_test]. unfold loop_pass.
  pose proof (state_machine_well_run s f H) as Hs.
  destruct (ret f); [|exact H].
  unfold state_machine in *.
  destruct (state_machine_pass s f) as [s' raised]. cbn [fst] in Hs |- *.
  destruct raised; [exact Hs|].
  destruct (key f); try destruct (state s');
    try exact Hs; apply IH; exact Hs.
Qed.

Lemma init_well_run : well_run init.
Proof.
  unfold well_run, init. fields. repeat split; auto; lra.
Qed.

Lemma reinit_well_run (s : SitReachTest) : well_run (reinit s).
Proof.
  unfold well_run, reinit. fields. repeat split; auto; lra.
Qed.

(** X25.  A test begun by [__init__], or begun again by [__init__] on a
    used object, never shows the set-up guide, the calibration screen or
    the ruler screen: the machine starts in READY and leaves the other
    states only for each other.  So the scale is never set from an ArUco
    marker or a ruler, the object stays calibrated, and [pixels_per_cm]
    (the default 4 or the automatic estimate) stays positive. *)
Theorem calibration_screens_unreachable :
  forall (used : SitReachTest) (fs : list Frame) (s : SitReachTest),
    s = run_test init fs \/ s = run_test (reinit used) fs ->
    state s <> SETUP_GUIDE /\ state s <> CALIBRATION
    /\ state s <> RULER_CALIBRATION
    /\ calibration_method s <> Some ARUCO
    /\ calibration_method s <> Some RULER
    /\ is_calibrated s = true
    /\ 0 < pixels_per_cm s.
Proof.
  intros used fs s Hs.
  assert (H : well_run s).
  { destruct Hs as [-> | ->]; apply run_test_well_run;
      [apply init_well_run|apply reinit_well_run]. }
  destruct H as (A1 & A2 & A3 & _ & _ & _ & _ & A8).
  repeat split; auto;
    try (intros E; rewrite E in A8; exact A8);
    intros E; destruct A3 as [A3|A3]; congruence.
Qed.

Lemma calibration_screens_unreachable_witness :
  state (run_test init prompt_first_attempt) = READY
  /\ calibration_method (run_test init prompt_first_attempt) = None
  /\ is_calibrated (run_test init prompt_first_attempt) = true
  /\ 0 < pixels_per_cm (run_test init prompt_first_attempt).
Proof.
  pose proof (calibration_screens_unreachable init prompt_first_attempt
                (run_test init prompt_first_attempt) (or_introl eq_refl))
    as (_ & _ & _ & _ & _ & H6 & H7).
  split; [vm_compute; reflexivity|]. split; [vm_compute; reflexivity|].
  split; [exact H6|exact H7].
Defined.

Lemma max_from_spec (rest : list Attempt) :
  forall best : Attempt,
    In (max_from best rest) (best :: rest)
    /\ forall a, In a (best :: rest) ->
                 reach_cm a <= reach_cm (max_from best rest).
Proof.
  induction rest as [|b rest IH]; intros best; cbn [max_from].
  - split; [left; reflexivity|]. intros a [<-|[]]. apply Qle_refl.
  - destruct (Qltb (reach_cm best) (reach_cm b)) eqn:E.
    + apply SitupsTheory.Qltb_true_iff in E. destruct (IH b) as (I1 & I2). split.
      * right. exact I1.
      * intros a [<-|Ha]; [|apply I2; exact Ha].
        apply Qle_trans with (reach_cm b);
          [apply Qlt_le_weak; exact E|apply I2; left; reflexivity].
    + apply SitupsTheory.Qltb_false_iff in E. destruct (IH best) as (I1 & I2). split.
      * destruct I1 as [I1|I1]; [left; exact I1|right; right; exact I1].
      * intros a [<-|[<-|Ha]].
        -- apply I2. left. reflexivity.
        -- apply Qle_trans with (reach_cm best);
             [exact E|apply I2; left; reflexivity].
        -- apply I2. right. exact Ha.
Qed.

Lemma flexibility_rating_monotone (a b : Q) :
  a <= b ->
  (flexibility_rank (get_flexibility_rating a)
   <= flexibility_rank (get_flexibility_rating b))%Z.
Proof.
  intros H. unfold get_flexibility_rating.
  repeat match goal with
         | |- context [Qle_bool ?x ?y] =>
             let E := fresh "E" in
             destruct (Qle_bool x y) eqn:E;
             [apply Qle_bool_iff in E
             |assert (~ x <= y)
                by (intros C; apply Qle_bool_iff in C; congruence)]
         end; cbn [flexibility_rank]; try lia; exfalso; lra.
Qed.

(** X26.  The attempt log of a test begun by [__init__], after any
    frames: [current_attempt] is the number of attempts recorded, they are
    numbered 1, 2, ... in order, each is valid with a reach that is not
    negative, and there are fewer than three until the test is COMPLETE.
    On the results screen there are exactly three, so [max] over them
    never fails: the best attempt is a recorded one, no other has a longer
    reach, and the rating shown is the best rating of the three. *)
Theorem attempt_log_wellformed :
  forall (fs : list Frame),
    let s := run_test init fs in
    current_attempt s = Z.of_nat (length (attempts s))
    /\ map attempt (attempts s) = map Z.of_nat (seq 1 (length (attempts s)))
    /\ (forall a, In a (attempts s) -> valid a = true /\ 0 <= reach_cm a)
    /\ (state s <> COMPLETE -> (length (attempts s) < 3)%nat)
    /\ (state s = COMPLETE ->
        length (attempts s) = 3%nat
        /\ exists best,
             best_attempt (attempts s) = Some best
             /\ In best (attempts s)
             /\ final_result s
                = Some (reach_cm best, get_flexibility_rating (reach_cm best))
             /\ forall a, In a (attempts s) ->
                  reach_cm a <= reach_cm best
                  /\ (flexibility_rank (get_flexibility_rating (reach_cm a))
                      <= flexibility_rank
                           (get_flexibility_rating (reach_cm best)))%Z).
Proof.
  intros fs s.
  assert (H : well_run s).
  { apply run_test_well_run. apply init_well_run. }
  destruct H as (_ & _ & _ & A4 & A5 & A6 & _ & A8).
  split; [exact A4|]. split; [exact A5|]. split.
  { intros a Ha. rewrite Forall_forall in A6. apply A6. exact Ha. }
  split.
  - intros Hn. destruct (state s); try contradiction; try exact A8;
      exfalso; apply Hn; reflexivity.
  - intros Hc. rewrite Hc in A8. split; [exact A8|].
    unfold final_result, best_attempt.
    destruct (attempts s) as [|a0 rest]; [discriminate A8|].
    destruct (max_from_spec rest a0) as (M1 & M2).
    exists (max_from a0 rest). repeat split; auto.
    apply flexibility_rating_monotone. apply M2. assumption.
Qed.

Lemma attempt_log_wellformed_witness :
  state (run_test init three_attempts) = COMPLETE
  /\ length (attempts (run_test init three_attempts)) = 3%nat
  /\ exists best,
       best_attempt (attempts (run_test init three_attempts)) = Some best
       /\ In best (attempts (run_test init three_attempts))
       /\ final_result (run_test init three_attempts)
          = Some (reach_cm best, get_flexibility_rating (reach_cm best))
       /\ forall a, In a (attempts (run_test init three_attempts)) ->
            reach_cm a <= reach_cm best
            /\ (flexibility_rank (get_flexibility_rating (reach_cm a))
                <= flexibility_rank
                     (get_flexibility_rating (reach_cm best)))%Z.
Proof.
  assert (Hc : state (run_test init three_attempts) = COMPLETE)
    by (vm_compute; reflexivity).
  split; [exact Hc|].
  exact (proj2 (proj2 (proj2 (proj2 (attempt_log_wellformed three_attempts))))
           Hc).
Defined.

End SitReachTheory.
